(** * Windows Service Manager: service manager, status cache and wrapper supervisor

    A shallow embedding of [manager.go], [wrapper.go] and the status cache
    of the service manager, with the operating system (service control
    manager, registry, clock, process creation) kept abstract behind an
    interface, and the properties of the design document proved over it. *)

From Stdlib Require Import ZArith String DecimalString Lia.
From stdpp Require Import gmap strings list fin_maps.

Local Open Scope string_scope.
Local Open Scope list_scope.
Local Open Scope Z_scope.

(** ** The [svc] package: states, control commands, statuses *)

Module svc.

(** [svc.State]: the service states the OS reports. *)
Inductive State :=
| Stopped | StartPending | StopPending | Running
| ContinuePending | PausePending | Paused.

(** [svc.Cmd]: the control requests the OS sends to a service. *)
Inductive Cmd :=
| Stop | Pause | Continue | Interrogate | Shutdown | ParamChange
| NetBindAdd | NetBindRemove | NetBindEnable | NetBindDisable
| DeviceEvent | HardwareProfileChange | PowerEvent | SessionChange
| PreShutdown.

(** [svc.Accepted] is a bit set. *)
Definition Accepted := Z.
Definition AcceptStop : Accepted := 1.
Definition AcceptShutdown : Accepted := 4.

(** [svc.Status]; the fields this program neither sets nor reads
    (check point, wait hint, exit codes) keep their zero value. *)
Record Status := mkStatus {
  State_ : State;
  Accepts : Accepted;
  ProcessId : Z
}.

(** [svc.ChangeRequest]: only [Cmd] and [CurrentStatus] are read. *)
Record ChangeRequest := mkChangeRequest {
  Cmd_ : Cmd;
  CurrentStatus : Status
}.

#[global] Instance State_eq_dec : EqDecision State.
Proof. solve_decision. Defined.
#[global] Instance Cmd_eq_dec : EqDecision Cmd.
Proof. solve_decision. Defined.
#[global] Instance Status_eq_dec : EqDecision Status.
Proof. solve_decision. Defined.

End svc.

(** ** Time

    [time.Time] is an instant in nanoseconds, [time.Duration] a signed
    64-bit count of nanoseconds; [Time.Sub] saturates at the ends of that
    range. *)

Definition Time := Z.
Definition Duration := Z.

Definition Millisecond : Duration := 1000000.
Definition Second : Duration := 1000000000.
Definition maxDuration : Duration := 2 ^ 63 - 1.
Definition minDuration : Duration := - 2 ^ 63.

Definition Time_Add (t : Time) (d : Duration) : Time := t + d.

Definition Time_Sub (t u : Time) : Duration :=
  if t - u >? maxDuration then maxDuration
  else if t - u <? minDuration then minDuration
  else t - u.

Definition Time_Before (t u : Time) : bool := t <? u.

(** [t.Unix()]: whole seconds. *)
Definition Time_Unix (t : Time) : Z := t / Second.

(** ** Records of [app.go] *)

Record Service := mkService {
  ID : string;
  Name : string;
  ExePath : string;
  Args : string;
  WorkingDir : string;
  Status : string;
  PID : Z;
  AutoStart : bool;
  CreatedAt : Time;
  UpdatedAt : Time
}.

Record ServiceConfig := mkServiceConfig {
  cfgName : string;
  cfgExePath : string;
  cfgArgs : string;
  cfgWorkingDir : string
}.

Definition set_Status (s : string) (r : Service) : Service :=
  mkService (ID r) (Name r) (ExePath r) (Args r) (WorkingDir r) s (PID r)
            (AutoStart r) (CreatedAt r) (UpdatedAt r).

Definition set_PID (p : Z) (r : Service) : Service :=
  mkService (ID r) (Name r) (ExePath r) (Args r) (WorkingDir r) (Status r) p
            (AutoStart r) (CreatedAt r) (UpdatedAt r).

Definition set_UpdatedAt (t : Time) (r : Service) : Service :=
  mkService (ID r) (Name r) (ExePath r) (Args r) (WorkingDir r) (Status r)
            (PID r) (AutoStart r) (CreatedAt r) t.

(** ** The status cache

    [CachedServiceStatus] and [ServiceStatusCache]; the mutex is left out,
    every operation below runs under it from start to end. *)

Record CachedServiceStatus := mkCached {
  cStatus : string;
  cPID : Z;
  cTimestamp : Time
}.

Record ServiceStatusCache := mkCache {
  cache : gmap string CachedServiceStatus;
  ttl : Duration
}.

Definition NewServiceStatusCache : ServiceStatusCache :=
  mkCache ∅ (5 * Second).

(** The operations take the instant read from the clock as an argument:
    [now] is the result of [time.Now()] in [Set] and [CleanExpired], and
    the instant [time.Since] reads in [Get]. *)

Definition Cache_Get (now : Time) (serviceName : string)
    (c : ServiceStatusCache) : option CachedServiceStatus :=
  match cache c !! serviceName with
  | None => None
  | Some status =>
      if Time_Sub now (cTimestamp status) >? ttl c then None
      else Some status
  end.

Definition Cache_Set (now : Time) (serviceName status : string) (pid : Z)
    (c : ServiceStatusCache) : ServiceStatusCache :=
  mkCache (<[serviceName := mkCached status pid now]> (cache c)) (ttl c).

Definition Cache_Remove (serviceName : string) (c : ServiceStatusCache)
    : ServiceStatusCache :=
  mkCache (delete serviceName (cache c)) (ttl c).

Definition Cache_Clear (c : ServiceStatusCache) : ServiceStatusCache :=
  mkCache ∅ (ttl c).

(** The loop of [CleanExpired] ranges over the map and deletes from it. *)
Definition Cache_CleanExpired (now : Time) (c : ServiceStatusCache)
    : ServiceStatusCache :=
  mkCache
    (map_fold
       (fun serviceName status m =>
          if Time_Sub now (cTimestamp status) >? ttl c
          then delete serviceName m else m)
       (cache c) (cache c))
    (ttl c).

(** The table of the [switch] in [getServiceRealTimeStatus], named for
    the statements about it: the status word and the process id kept for
    an OS status. *)
Definition statusOfState (status : svc.Status) : string * Z :=
  match svc.State_ status with
  | svc.Running => ("running", svc.ProcessId status)
  | svc.Stopped => ("stopped", 0)
  | svc.StartPending => ("starting", 0)
  | svc.StopPending => ("stopping", svc.ProcessId status)
  | _ => ("error", 0)
  end.

(** ** The operating system interface

    Errors are Go [error] values: [None] is [nil], [Some msg] an error
    whose [Error()] text is [msg]. A call that returns a value or an error
    gives a [result]. *)

Definition error := option string.

Inductive result (A : Type) :=
| Ok (a : A)
| Err (e : string).
Arguments Ok {A} a.
Arguments Err {A} e.

(** [fmt.Errorf] with one [%v] or [%s] verb at the end of the format. *)
Definition Errorf (prefix detail : string) : string := prefix +:+ detail.

Definition dquote : string := String (Ascii.ascii_of_nat 34) EmptyString.

(** [mgr.Config], the fields [CreateService] fills. *)
Inductive ServiceType := SERVICE_WIN32_OWN_PROCESS.
Inductive StartType := StartManual | StartAutomatic | StartDisabled.
Inductive ErrorControl := ErrorIgnore | ErrorNormal | ErrorSevere
                        | ErrorCritical.

Record mgrConfig := mkConfig {
  cfgServiceType : ServiceType;
  cfgStartType : StartType;
  cfgErrorControl : ErrorControl;
  cfgDisplayName : string;
  cfgDescription : string
}.

(** The calls this program makes to the system, over an abstract system
    state [OS]. A service handle is named by its service, a registry key
    by its path. Every call may change the system state; the system may
    answer each call as it likes. The last three fields are the pure
    library functions [filepath.Dir], [strings.Map] (over the code points
    of a string) and the [%d] verb. *)
Class WinAPI (OS : Type) := {
  time_Now : OS -> Time * OS;
  time_Sleep : Duration -> OS -> OS;
  mgr_Connect : OS -> error * OS;
  mgr_Disconnect : OS -> OS;
  mgr_CreateService : string -> string -> mgrConfig -> OS -> error * OS;
  mgr_OpenService : string -> OS -> error * OS;
  Service_Close : string -> OS -> OS;
  Service_Query : string -> OS -> result svc.Status * OS;
  Service_Start : string -> OS -> error * OS;
  Service_Control : string -> svc.Cmd -> OS -> result svc.Status * OS;
  Service_Delete : string -> OS -> error * OS;
  registry_OpenKey : string -> OS -> error * OS;
  registry_CreateKey : string -> string -> OS -> error * OS;
  Key_SetStringValue : string -> string -> string -> OS -> error * OS;
  Key_Close : string -> OS -> OS;
  os_Stat_IsNotExist : string -> OS -> bool * OS;
  os_Executable : OS -> result string * OS;
  os_WriteFile : string -> gmap string Service -> OS -> OS;
  filepath_Dir : string -> string;
  strings_Map : (Z -> Z) -> string -> string;
  fmt_d : Z -> string
}.

(** What the clock is assumed to do where a property needs it: it never runs
    backwards over a status query, and a sleep lasts at least as long as
    asked. [(time_Now o).1] is the instant a [time.Now()] returns in [o]. *)
Class ClockLaws (OS : Type) `{WinAPI OS} := {
  Now_keeps : forall o, (time_Now o).1 <= (time_Now (time_Now o).2).1;
  Query_keeps : forall n o,
    (time_Now o).1 <= (time_Now (Service_Query n o).2).1;
  Sleep_advances : forall d o,
    (time_Now o).1 + d <= (time_Now (time_Sleep d o)).1
}.

(** Tasks started with [go]. *)
Inductive Task :=
| TaskSaveServices
| TaskAutoStart (delay : Duration) (serviceName : string).

(** The calls made and the events emitted, in order. *)
Inductive Event :=
| EvConnect
| EvDisconnect
| EvCreateService (name binaryPath : string) (c : mgrConfig)
| EvOpenService (name : string)
| EvClose (name : string)
| EvQuery (name : string)
| EvStart (name : string)
| EvControl (name : string) (c : svc.Cmd)
| EvDelete (name : string)
| EvRegOpenKey (path : string)
| EvRegCreateKey (parent subKey : string)
| EvRegSetString (key valueName value : string)
| EvRegClose (key : string)
| EvStat (path : string)
| EvExecutable
| EvSleep (d : Duration)
| EvWriteFile (path : string) (snapshot : gmap string Service)
| EvPrintf (msg : string)
| EvEmitStatusChanged (serviceId status : string) (pid : Z)
| EvEmitServicesUpdated (l : list Service)
| EvGo (t : Task).

(** [WindowsServiceManager]; [ctx] is whether the context is set. *)
Record WindowsServiceManager := mkManager {
  dataFile : string;
  services : gmap string Service;
  statusCache : ServiceStatusCache;
  ctx : bool
}.

Definition set_services (m : gmap string Service)
    (w : WindowsServiceManager) : WindowsServiceManager :=
  mkManager (dataFile w) m (statusCache w) (ctx w).

Definition set_statusCache (c : ServiceStatusCache)
    (w : WindowsServiceManager) : WindowsServiceManager :=
  mkManager (dataFile w) (services w) c (ctx w).

(** The whole state a call of the manager runs in. *)
Record World (OS : Type) := mkWorld {
  os : OS;
  wsm : WindowsServiceManager;
  trace : list Event
}.
Arguments mkWorld {OS} os wsm trace.
Arguments os {OS} w.
Arguments wsm {OS} w.
Arguments trace {OS} w.

(** A loop with no bound of its own runs on fuel. *)
Inductive outcome (A : Type) :=
| Done (a : A)
| OutOfFuel.
Arguments Done {A} a.
Arguments OutOfFuel {A}.

(** ** The state monad of the manager *)

Definition M (OS A : Type) : Type := World OS -> A * World OS.

Definition ret {OS A} (a : A) : M OS A := fun w => (a, w).

Definition bind {OS A B} (m : M OS A) (k : A -> M OS B) : M OS B :=
  fun w => let (a, w1) := m w in k a w1.

Notation "x <- m ;; k" := (bind m (fun x => k))
  (at level 100, m at next level, right associativity).
Notation "m ;;; k" := (bind m (fun _ => k))
  (at level 100, right associativity).

Section Manager.

Context {OS : Type} `{WinAPI OS}.

(** A call to the system: run it on the system state, record it. *)
Definition call {A} (e : Event) (f : OS -> A * OS) : M OS A :=
  fun w => let (a, o) := f (os w) in
           (a, mkWorld o (wsm w) (trace w ++ [e])).

Definition call_ (e : Event) (f : OS -> OS) : M OS unit :=
  call e (fun o => (tt, f o)).

Definition emit (e : Event) : M OS unit :=
  fun w => (tt, mkWorld (os w) (wsm w) (trace w ++ [e])).

Definition Now : M OS Time :=
  fun w => let (t, o) := time_Now (os w) in
           (t, mkWorld o (wsm w) (trace w)).

Definition getManager : M OS WindowsServiceManager := fun w => (wsm w, w).

Definition modifyManager
    (f : WindowsServiceManager -> WindowsServiceManager) : M OS unit :=
  fun w => (tt, mkWorld (os w) (f (wsm w)) (trace w)).

(** A write through the pointer held in [wsm.services] under [id]. *)
Definition updateService (id : string) (f : Service -> Service)
    : M OS unit :=
  modifyManager (fun m => set_services (alter f id (services m)) m).

(** The cache operations of the manager read the clock themselves. *)
Definition statusCache_Get (serviceName : string)
    : M OS (option CachedServiceStatus) :=
  m <- getManager ;;
  match cache (statusCache m) !! serviceName with
  | None => ret None
  | Some _ =>
      now <- Now ;;
      ret (Cache_Get now serviceName (statusCache m))
  end.

Definition statusCache_Set (serviceName status : string) (pid : Z)
    : M OS unit :=
  now <- Now ;;
  modifyManager (fun m =>
    set_statusCache (Cache_Set now serviceName status pid (statusCache m)) m).

(** [emitServiceStatusChanged], [emitServicesUpdated]. *)
Definition emitServiceStatusChanged (serviceID status : string) (pid : Z)
    : M OS unit :=
  m <- getManager ;;
  if ctx m then emit (EvEmitStatusChanged serviceID status pid)
  else ret tt.

Definition emitServicesUpdated : M OS unit :=
  m <- getManager ;;
  if ctx m then emit (EvEmitServicesUpdated (map_to_list (services m)).*2)
  else ret tt.

(** [withSCM]: connect, run the operation, disconnect on the way out.
    The operation's result type is left open, [fail] builds the result
    for a failed connection: an operation that also sets a variable of
    its caller returns that variable's value next to its error. *)
Definition withSCM {A} (fail : string -> A) (operation : M OS A) : M OS A :=
  r <- call EvConnect mgr_Connect ;;
  match r with
  | Some err => ret (fail (Errorf "连接服务控制管理器失败: " err))
  | None =>
      x <- operation ;;
      call_ EvDisconnect mgr_Disconnect ;;;
      ret x
  end.

(** [waitForServiceState]: the loop, one unit of fuel per test of its
    condition, then the function. *)
Fixpoint waitLoop (fuel : nat) (windowsService : string)
    (targetState : svc.State) (deadline : Time) : M OS (outcome error) :=
  match fuel with
  | O => ret OutOfFuel
  | S fuel' =>
      now <- Now ;;
      if Time_Before now deadline then
        q <- call (EvQuery windowsService) (Service_Query windowsService) ;;
        match q with
        | Err err => ret (Done (Some (Errorf "查询服务状态失败: " err)))
        | Ok status =>
            if decide (svc.State_ status = targetState) then ret (Done None)
            else if bool_decide (targetState = svc.Running)
                    && bool_decide (svc.State_ status = svc.Stopped)
            then ret (Done (Some "服务启动失败"))
            else
              call_ (EvSleep (500 * Millisecond))
                    (time_Sleep (500 * Millisecond)) ;;;
              waitLoop fuel' windowsService targetState deadline
        end
      else ret (Done (Some "等待服务状态超时"))
  end.

Definition waitForServiceState (fuel : nat) (windowsService : string)
    (targetState : svc.State) (timeout : Duration) : M OS (outcome error) :=
  now <- Now ;;
  waitLoop fuel windowsService targetState (Time_Add now timeout).

(** [saveServices]: the snapshot of the registry goes to the data file,
    the result of the write is dropped. *)
Definition saveServices : M OS unit :=
  m <- getManager ;;
  call_ (EvWriteFile (dataFile m) (services m))
        (os_WriteFile (dataFile m) (services m)).

(** [setServiceRegistryValue]. *)
Definition servicesKey (serviceName : string) : string :=
  "SYSTEM\CurrentControlSet\Services\" +:+ serviceName.

Definition setServiceRegistryValue (serviceName subKey valueName value : string)
    : M OS error :=
  let parent := servicesKey serviceName in
  let setValue (key : string) : M OS error :=
    r <- call (EvRegSetString key valueName value)
              (Key_SetStringValue key valueName value) ;;
    call_ (EvRegClose key) (Key_Close key) ;;;
    match r with
    | Some err => ret (Some (Errorf "设置注册表值失败: " err))
    | None => ret None
    end in
  if decide (subKey <> EmptyString) then
    r <- call (EvRegOpenKey parent) (registry_OpenKey parent) ;;
    match r with
    | Some err => ret (Some (Errorf "打开服务注册表键失败: " err))
    | None =>
        r <- call (EvRegCreateKey parent subKey)
                  (registry_CreateKey parent subKey) ;;
        x <- match r with
             | Some err => ret (Some (Errorf "创建注册表子键失败: " err))
             | None => setValue (parent +:+ "\" +:+ subKey)
             end ;;
        call_ (EvRegClose parent) (Key_Close parent) ;;;
        ret x
    end
  else
    r <- call (EvRegOpenKey parent) (registry_OpenKey parent) ;;
    match r with
    | Some err => ret (Some (Errorf "打开服务注册表键失败: " err))
    | None => setValue parent
    end.

Definition setServiceWorkingDirectory (serviceName workingDir : string)
    : M OS error :=
  setServiceRegistryValue serviceName "Parameters" "AppDirectory" workingDir.

Definition setServiceImagePathDirect (serviceName imagePath : string)
    : M OS error :=
  setServiceRegistryValue serviceName EmptyString "ImagePath" imagePath.

(** [storeServiceConfigInRegistry], [createServiceWrapper]. *)
Definition storeServiceConfigInRegistry
    (serviceName exePath args workingDir : string) : M OS error :=
  r <- setServiceRegistryValue serviceName "Parameters" "ExePath" exePath ;;
  match r with
  | Some err => ret (Some (Errorf "设置ExePath失败: " err))
  | None =>
      r <- (if decide (args <> EmptyString)
            then setServiceRegistryValue serviceName "Parameters" "Args" args
            else ret None) ;;
      match r with
      | Some err => ret (Some (Errorf "设置Args失败: " err))
      | None =>
          r <- (if decide (workingDir <> EmptyString)
                then setServiceRegistryValue serviceName "Parameters"
                                             "WorkingDir" workingDir
                else ret None) ;;
          match r with
          | Some err => ret (Some (Errorf "设置WorkingDir失败: " err))
          | None => ret None
          end
      end
  end.

Definition createServiceWrapper (serviceName exePath args workingDir : string)
    : M OS (result string) :=
  r <- call EvExecutable os_Executable ;;
  match r with
  | Err err => ret (Err (Errorf "获取当前可执行文件路径失败: " err))
  | Ok currentExe =>
      r <- storeServiceConfigInRegistry serviceName exePath args workingDir ;;
      match r with
      | Some err => ret (Err (Errorf "存储服务配置失败: " err))
      | None =>
          ret (Ok (dquote +:+ currentExe +:+ dquote
                   +:+ " --service-wrapper " +:+ serviceName))
      end
  end.

(** [generateServiceName]. *)
Definition cleanRune (r : Z) : Z :=
  if ((97 <=? r) && (r <=? 122)) || ((65 <=? r) && (r <=? 90))
     || ((48 <=? r) && (r <=? 57))
  then r else 95.

Definition generateServiceName (displayName : string) : M OS string :=
  now <- Now ;;
  ret ("WSM_" +:+ strings_Map cleanRune displayName +:+ "_"
       +:+ fmt_d (Time_Unix now)).

(** [getServiceRealTimeStatus]. [int(status.ProcessId)] keeps the value:
    [int] has 64 bits where this program is built. *)
Definition getServiceRealTimeStatus (serviceName : string)
    : M OS (string * Z) :=
  c <- statusCache_Get serviceName ;;
  match c with
  | Some cachedStatus => ret (cStatus cachedStatus, cPID cachedStatus)
  | None =>
      r <- call (EvOpenService serviceName) (mgr_OpenService serviceName) ;;
      match r with
      | Some _ =>
          statusCache_Set serviceName "error" 0 ;;;
          ret ("error", 0)
      | None =>
          x <- (q <- call (EvQuery serviceName) (Service_Query serviceName) ;;
                match q with
                | Err _ =>
                    statusCache_Set serviceName "error" 0 ;;;
                    ret ("error", 0)
                | Ok status =>
                    let (statusStr, pid) :=
                      match svc.State_ status with
                      | svc.Running => ("running", svc.ProcessId status)
                      | svc.Stopped => ("stopped", 0)
                      | svc.StartPending => ("starting", 0)
                      | svc.StopPending => ("stopping", svc.ProcessId status)
                      | _ => ("error", 0)
                      end in
                    statusCache_Set serviceName statusStr pid ;;;
                    ret (statusStr, pid)
                end) ;;
          call_ (EvClose serviceName) (Service_Close serviceName) ;;;
          ret x
      end
  end.

(** [GetServices]: the body of the loop, the loop over the ids of the
    registry (in the order [map_to_list] gives; Go leaves it open), and
    the function. The list returned holds the pointers of the registry,
    hence the records as they are at the end. *)
Definition refreshService (id : string) : M OS unit :=
  sp <- getServiceRealTimeStatus id ;;
  updateService id (set_Status sp.1) ;;;
  updateService id (set_PID sp.2) ;;;
  now <- Now ;;
  updateService id (set_UpdatedAt now).

Fixpoint refreshServices (ids : list string) : M OS unit :=
  match ids with
  | [] => ret tt
  | id :: rest => refreshService id ;;; refreshServices rest
  end.

Definition GetServices : M OS (result (list Service)) :=
  m <- getManager ;;
  r <- withSCM (fun e => Some e)
         (refreshServices (map_to_list (services m)).*1 ;;; ret None) ;;
  match r with
  | Some err => ret (Err err)
  | None =>
      emit (EvGo TaskSaveServices) ;;;
      m <- getManager ;;
      ret (Ok (map_to_list (services m)).*2)
  end.

(** [CreateService]: its local variables [workingDir], [serviceConfig]
    and [binaryPath] first, as functions of the configuration. *)
Definition createWorkingDir (config : ServiceConfig) : string :=
  if decide (cfgWorkingDir config = EmptyString)
  then filepath_Dir (cfgExePath config)
  else cfgWorkingDir config.

Definition createServiceConfig (config : ServiceConfig) : mgrConfig :=
  mkConfig SERVICE_WIN32_OWN_PROCESS StartAutomatic ErrorNormal
    (cfgName config)
    (Errorf "由Windows服务管理器创建的服务: " (cfgName config)).

Definition createBinaryPath (config : ServiceConfig) : string :=
  if decide (cfgArgs config <> EmptyString)
  then dquote +:+ cfgExePath config +:+ dquote +:+ " " +:+ cfgArgs config
  else cfgExePath config.

(** The rest of the closure of [CreateService] once the OS service entry
    exists: the wrapper configuration, the image path, the working
    directory, and the record. *)
Definition setupCreatedService (serviceName : string) (config : ServiceConfig)
    : M OS (result Service) :=
  let workingDir := createWorkingDir config in
  r <- createServiceWrapper serviceName (cfgExePath config) (cfgArgs config)
         workingDir ;;
  match r with
  | Err err =>
      call (EvDelete serviceName) (Service_Delete serviceName) ;;;
      ret (Err (Errorf "创建服务包装器失败: " err))
  | Ok wrapperPath =>
      r <- setServiceImagePathDirect serviceName wrapperPath ;;
      match r with
      | Some err =>
          call (EvDelete serviceName) (Service_Delete serviceName) ;;;
          ret (Err (Errorf "设置服务路径失败: " err))
      | None =>
          r <- setServiceWorkingDirectory serviceName workingDir ;;
          match r with
          | Some err =>
              emit (EvPrintf (Errorf "警告：设置工作目录失败: " err))
          | None => ret tt
          end ;;;
          createdAt <- Now ;;
          updatedAt <- Now ;;
          ret (Ok (mkService serviceName (cfgName config)
                     (cfgExePath config) (cfgArgs config) workingDir
                     "stopped" 0 false createdAt updatedAt))
      end
  end.

(** What [CreateService] does with the record once the closure has
    succeeded. *)
Definition registerService (serviceName : string) (service : Service)
    : M OS (result Service) :=
  modifyManager (fun m =>
    set_services (<[serviceName := service]> (services m)) m) ;;;
  saveServices ;;;
  emitServicesUpdated ;;;
  emit (EvGo (TaskAutoStart (1 * Second) serviceName)) ;;;
  ret (Ok service).

Definition CreateService (config : ServiceConfig) : M OS (result Service) :=
  missing <- call (EvStat (cfgExePath config))
                  (os_Stat_IsNotExist (cfgExePath config)) ;;
  if missing : bool
  then ret (Err (Errorf "可执行文件不存在: " (cfgExePath config)))
  else
    serviceName <- generateServiceName (cfgName config) ;;
    m <- getManager ;;
    match services m !! serviceName with
    | Some _ => ret (Err (Errorf "服务名称已存在: " serviceName))
    | None =>
        r <- withSCM (fun e => Err e)
          (let serviceConfig := createServiceConfig config in
           let binaryPath := createBinaryPath config in
           r <- call (EvCreateService serviceName binaryPath serviceConfig)
                  (mgr_CreateService serviceName binaryPath serviceConfig) ;;
           match r with
           | Some err => ret (Err (Errorf "创建Windows服务失败: " err))
           | None =>
               x <- setupCreatedService serviceName config ;;
               call_ (EvClose serviceName) (Service_Close serviceName) ;;;
               ret x
           end) ;;
        match r with
        | Err err => ret (Err err)
        | Ok service => registerService serviceName service
        end
    end.

(** [StartService]. When the second query fails, [status] is the zero
    [svc.Status], whose [ProcessId] is 0. *)
Definition StartService (fuel : nat) (serviceID : string)
    : M OS (outcome error) :=
  m <- getManager ;;
  match services m !! serviceID with
  | None => ret (Done (Some (Errorf "服务不存在: " serviceID)))
  | Some _ =>
      withSCM (fun e => Done (Some e))
        (r <- call (EvOpenService serviceID) (mgr_OpenService serviceID) ;;
         match r with
         | Some err => ret (Done (Some (Errorf "打开服务失败: " err)))
         | None =>
             x <- (q <- call (EvQuery serviceID) (Service_Query serviceID) ;;
                   match q with
                   | Err err =>
                       ret (Done (Some (Errorf "查询服务状态失败: " err)))
                   | Ok status =>
                       if decide (svc.State_ status = svc.Running)
                       then ret (Done (Some "服务已经在运行"))
                       else
                         r <- call (EvStart serviceID)
                                   (Service_Start serviceID) ;;
                         match r with
                         | Some err =>
                             ret (Done (Some (Errorf "启动服务失败: " err)))
                         | None =>
                             wr <- waitForServiceState fuel serviceID
                                     svc.Running (30 * Second) ;;
                             match wr with
                             | OutOfFuel => ret OutOfFuel
                             | Done (Some err) =>
                                 updateService serviceID (set_Status "error") ;;;
                                 now <- Now ;;
                                 updateService serviceID (set_UpdatedAt now) ;;;
                                 saveServices ;;;
                                 ret (Done (Some err))
                             | Done None =>
                                 q <- call (EvQuery serviceID)
                                           (Service_Query serviceID) ;;
                                 let pid := match q with
                                            | Ok status => svc.ProcessId status
                                            | Err _ => 0
                                            end in
                                 updateService serviceID (set_Status "running") ;;;
                                 updateService serviceID (set_PID pid) ;;;
                                 now <- Now ;;
                                 updateService serviceID (set_UpdatedAt now) ;;;
                                 statusCache_Set serviceID "running" pid ;;;
                                 saveServices ;;;
                                 emitServiceStatusChanged serviceID "running" pid ;;;
                                 ret (Done None)
                             end
                         end
                   end) ;;
             call_ (EvClose serviceID) (Service_Close serviceID) ;;;
             ret x
         end)
  end.

(** [StopService]. *)
Definition StopService (fuel : nat) (serviceID : string)
    : M OS (outcome error) :=
  m <- getManager ;;
  match services m !! serviceID with
  | None => ret (Done (Some (Errorf "服务不存在: " serviceID)))
  | Some _ =>
      withSCM (fun e => Done (Some e))
        (r <- call (EvOpenService serviceID) (mgr_OpenService serviceID) ;;
         match r with
         | Some err => ret (Done (Some (Errorf "打开服务失败: " err)))
         | None =>
             x <- (q <- call (EvQuery serviceID) (Service_Query serviceID) ;;
                   match q with
                   | Err err =>
                       ret (Done (Some (Errorf "查询服务状态失败: " err)))
                   | Ok status =>
                       if decide (svc.State_ status = svc.Stopped)
                       then
                         updateService serviceID (set_Status "stopped") ;;;
                         updateService serviceID (set_PID 0) ;;;
                         now <- Now ;;
                         updateService serviceID (set_UpdatedAt now) ;;;
                         saveServices ;;;
                         ret (Done None)
                       else
                         r <- call (EvControl serviceID svc.Stop)
                                   (Service_Control serviceID svc.Stop) ;;
                         match r with
                         | Err err =>
                             ret (Done (Some (Errorf "发送停止信号失败: " err)))
                         | Ok _ =>
                             wr <- waitForServiceState fuel serviceID
                                     svc.Stopped (30 * Second) ;;
                             match wr with
                             | OutOfFuel => ret OutOfFuel
                             | Done (Some err) => ret (Done (Some err))
                             | Done None =>
                                 updateService serviceID (set_Status "stopped") ;;;
                                 updateService serviceID (set_PID 0) ;;;
                                 now <- Now ;;
                                 updateService serviceID (set_UpdatedAt now) ;;;
                                 statusCache_Set serviceID "stopped" 0 ;;;
                                 saveServices ;;;
                                 emitServiceStatusChanged serviceID "stopped" 0 ;;;
                                 ret (Done None)
                             end
                         end
                   end) ;;
             call_ (EvClose serviceID) (Service_Close serviceID) ;;;
             ret x
         end)
  end.

End Manager.

(** The calls made and events emitted between two worlds of one run. *)
Definition issued {OS : Type} (w w' : World OS) : list Event :=
  drop (length (trace w)) (trace w').

(** [n] rounds of the polling loop that end in its sleep. *)
Definition polls (windowsService : string) (n : nat) : list Event :=
  concat (replicate n [EvQuery windowsService; EvSleep (500 * Millisecond)]).

(** The ways [waitForServiceState] can end when it waits for [t]:
    the state is reached, the service stopped while it was to start, the
    deadline passed, or a query failed. *)
Definition wait_result (t : svc.State) (e : error) : Prop :=
  e = None
  \/ (e = Some "服务启动失败" /\ t = svc.Running)
  \/ e = Some "等待服务状态超时"
  \/ exists err, e = Some (Errorf "查询服务状态失败: " err).

(** A computation that only talks to the system: it leaves the manager
    as it is and adds to the trace. *)
Definition os_only {OS A : Type} (m : M OS A) : Prop :=
  forall w, wsm (m w).2 = wsm w /\ exists l, trace (m w).2 = trace w ++ l.

(** ** The wrapper supervisor ([wrapper.go])

    [Execute] talks to the OS over two channels: it receives change
    requests on [r] and sends statuses on [s]. The statuses sent are
    collected in order; what arrives from outside is given as a schedule:
    at each [select] a request is ready or none is, and between two
    steps the monitor goroutine may see the target exit. *)

Module Wrapper.

(** [exec.Cmd], as far as [startTargetProcess] fills it. *)
Record Cmd := mkCmd {
  Path : string;
  CmdArgs : list string;
  Dir : string;
  HideWindow : bool;
  Process : option Z
}.

Record EmbeddedServiceWrapper := mkWrapper {
  serviceName : string;
  config : ServiceConfig;
  process : option Cmd;
  isRunning : bool
}.

Definition NewEmbeddedServiceWrapper (serviceName : string)
    (config : ServiceConfig) : EmbeddedServiceWrapper :=
  mkWrapper serviceName config None false.

(** What happens to the target process, and the pauses of the loop. *)
Inductive Action :=
| ActKill (pid : Z)
| ActWait (pid : Z)
| ActGoMonitor
| ActSleep (d : Duration).

Inductive Sched :=
| Request (c : svc.ChangeRequest)
| NoRequest
| TargetExited.

(** The state [Execute] runs in: the wrapper, the statuses sent on [s],
    the actions taken. *)
Record State := mkState {
  esw : EmbeddedServiceWrapper;
  sent : list svc.Status;
  acts : list Action
}.

Definition send (x : svc.Status) (st : State) : State :=
  mkState (esw st) (sent st ++ [x]) (acts st).

Definition act (a : Action) (st : State) : State :=
  mkState (esw st) (sent st) (acts st ++ [a]).

Definition set_isRunning (b : bool) (st : State) : State :=
  mkState (mkWrapper (serviceName (esw st)) (config (esw st))
                     (process (esw st)) b)
          (sent st) (acts st).

Definition set_process (c : Cmd) (st : State) : State :=
  mkState (mkWrapper (serviceName (esw st)) (config (esw st))
                     (Some c) (isRunning (esw st)))
          (sent st) (acts st).

(** [Execute] returns [(svcSpecificEC, exitCode)], unless the schedule
    ends while the loop is still running. *)
Inductive Return :=
| Returned (svcSpecificEC : bool) (exitCode : Z)
| StillRunning.

Section Execute.

(** [strings.Fields], [filepath.Dir], and [exec.Cmd.Start]: the process
    id of the started target, or the error. *)
Variable strings_Fields : string -> list string.
Variable filepath_Dir : string -> string.
Variable Cmd_Start : Cmd -> result Z.

(** The command [startTargetProcess] builds before it starts it. *)
Definition targetCommand (cfg : ServiceConfig) : Cmd :=
  let args := if decide (cfgArgs cfg <> EmptyString)
              then strings_Fields (cfgArgs cfg) else [] in
  let workingDir := if decide (cfgWorkingDir cfg = EmptyString)
                    then filepath_Dir (cfgExePath cfg)
                    else cfgWorkingDir cfg in
  mkCmd (cfgExePath cfg) args workingDir true None.

Definition startTargetProcess (st : State) : State * error :=
  let cmd := targetCommand (config (esw st)) in
  match Cmd_Start cmd with
  | Err err => (set_process cmd st, Some (Errorf "启动目标程序失败: " err))
  | Ok pid =>
      (set_isRunning true
         (set_process (mkCmd (Path cmd) (CmdArgs cmd) (Dir cmd)
                             (HideWindow cmd) (Some pid)) st),
       None)
  end.

Definition stopTargetProcess (st : State) : State :=
  match process (esw st) with
  | Some cmd =>
      if isRunning (esw st) then
        let pid := default 0 (Process cmd) in
        set_isRunning false (act (ActWait pid) (act (ActKill pid) st))
      else st
  | None => st
  end.

(** The body of [monitorTargetProcess] after its [Wait] has returned. *)
Definition monitorTargetProcess (st : State) : State :=
  match process (esw st) with
  | Some _ => set_isRunning false st
  | None => st
  end.

(** The [for { select { ... } }] of [Execute]. *)
Fixpoint serviceLoop (sched : list Sched) (st : State) : State * Return :=
  match sched with
  | [] => (st, StillRunning)
  | TargetExited :: rest => serviceLoop rest (monitorTargetProcess st)
  | Request c :: rest =>
      match svc.Cmd_ c with
      | svc.Stop | svc.Shutdown =>
          let st := send (svc.mkStatus svc.StopPending 0 0) st in
          let st := stopTargetProcess st in
          let st := send (svc.mkStatus svc.Stopped 0 0) st in
          (st, Returned false 0)
      | svc.Interrogate =>
          serviceLoop rest (send (svc.CurrentStatus c) st)
      | _ => serviceLoop rest st
      end
  | NoRequest :: rest =>
      if negb (isRunning (esw st)) then
        (send (svc.mkStatus svc.Stopped 0 0) st, Returned false 0)
      else serviceLoop rest (act (ActSleep (1 * Second)) st)
  end.

Definition Execute (w : EmbeddedServiceWrapper) (sched : list Sched)
    : State * Return :=
  let st := send (svc.mkStatus svc.StartPending 0 0) (mkState w [] []) in
  let (st, err) := startTargetProcess st in
  match err with
  | Some _ => (send (svc.mkStatus svc.Stopped 0 0) st, Returned false 1)
  | None =>
      let st := send (svc.mkStatus svc.Running
                        (Z.lor svc.AcceptStop svc.AcceptShutdown) 0) st in
      let st := act ActGoMonitor st in
      serviceLoop sched st
  end.

End Execute.

(** A step of the schedule that leaves the loop running without a word
    to the OS: no request while the target runs, or a request that is
    only logged. *)
Definition quiet (e : Sched) : bool :=
  match e with
  | NoRequest => true
  | TargetExited => false
  | Request c =>
      match svc.Cmd_ c with
      | svc.Stop | svc.Shutdown | svc.Interrogate => false
      | _ => true
      end
  end.

Definition stops (c : svc.ChangeRequest) : bool :=
  bool_decide (svc.Cmd_ c = svc.Stop)
  || bool_decide (svc.Cmd_ c = svc.Shutdown).

(** A step that leaves the loop running: the target has not exited and
    the request, if any, asks for no stop. The statuses such steps make
    the loop send are the ones interrogate requests carry. *)
Definition calm (e : Sched) : bool :=
  match e with
  | NoRequest => true
  | TargetExited => false
  | Request c => negb (stops c)
  end.

Definition echo (e : Sched) : option svc.Status :=
  match e with
  | Request c =>
      match svc.Cmd_ c with
      | svc.Interrogate => Some (svc.CurrentStatus c)
      | _ => None
      end
  | _ => None
  end.

Definition echoes (pre : list Sched) : list svc.Status := omap echo pre.

(** A scripted target: a configuration, a process start that succeeds. *)
Definition demoWrapper : EmbeddedServiceWrapper :=
  NewEmbeddedServiceWrapper "WSM_demo_1700000000"
    (mkServiceConfig "demo" "C:\apps\demo.exe" "--sleep" EmptyString).

Definition demoFields (s : string) : list string := [s].
Definition demoDir (p : string) : string := "C:\apps".
Definition demoStart (c : Cmd) : result Z := Ok 4242.
Definition demoStartFails (c : Cmd) : result Z :=
  Err "The system cannot find the file specified.".

End Wrapper.

(** ** A scripted system

    An instance of the interface to run the manager on: the clock moves
    by one nanosecond at each reading and by the time asked at each sleep,
    status queries are answered from a script, and a call fails when
    [f_deny] says so. *)

Record Fake := mkFake {
  f_clock : Time;
  f_queries : list (result svc.Status);
  f_deny : Event -> bool;
  f_exe : string
}.

Definition f_answer (e : Event) (f : Fake) : error * Fake :=
  (if f_deny f e then Some "Access is denied." else None, f).

Definition f_query (f : Fake) : result svc.Status * Fake :=
  match f_queries f with
  | [] => (Err "The handle is invalid.", f)
  | q :: rest => (q, mkFake (f_clock f) rest (f_deny f) (f_exe f))
  end.

Definition f_sleep (d : Duration) (f : Fake) : Fake :=
  mkFake (f_clock f + Z.max 0 d) (f_queries f) (f_deny f) (f_exe f).

Fixpoint f_map (g : Z -> Z) (s : string) : string :=
  match s with
  | EmptyString => EmptyString
  | String a rest =>
      String (Ascii.ascii_of_N (Z.to_N (g (Z.of_N (Ascii.N_of_ascii a)))))
             (f_map g rest)
  end.

#[global] Instance Fake_WinAPI : WinAPI Fake := {|
  time_Now f := (f_clock f, mkFake (f_clock f + 1) (f_queries f) (f_deny f)
                                   (f_exe f));
  time_Sleep := f_sleep;
  mgr_Connect := f_answer EvConnect;
  mgr_Disconnect f := f;
  mgr_CreateService n b c := f_answer (EvCreateService n b c);
  mgr_OpenService n := f_answer (EvOpenService n);
  Service_Close _ f := f;
  Service_Query _ := f_query;
  Service_Start n := f_answer (EvStart n);
  Service_Control n c f :=
    if f_deny f (EvControl n c) then (Err "Access is denied.", f)
    else (Ok (svc.mkStatus svc.StopPending 0 0), f);
  Service_Delete n := f_answer (EvDelete n);
  registry_OpenKey p := f_answer (EvRegOpenKey p);
  registry_CreateKey p s := f_answer (EvRegCreateKey p s);
  Key_SetStringValue k n v := f_answer (EvRegSetString k n v);
  Key_Close _ f := f;
  os_Stat_IsNotExist p f := (f_deny f (EvStat p), f);
  os_Executable f :=
    if f_deny f EvExecutable then (Err "Access is denied.", f)
    else (Ok (f_exe f), f);
  os_WriteFile _ _ f := f;
  filepath_Dir _ := "C:\apps";
  strings_Map := f_map;
  fmt_d z := NilZero.string_of_int (Z.to_int z)
|}.

#[global] Instance Fake_ClockLaws : ClockLaws Fake.
Proof.
  split.
  - intros o. cbn. lia.
  - intros n o. cbn. unfold f_query. destruct (f_queries o); cbn; lia.
  - intros d o. cbn. lia.
Defined.

(** A manager with one service, as [StartService] leaves it once the
    service runs under process id 4242. *)
Definition demoService : Service :=
  mkService "WSM_demo_1700000000" "demo" "C:\apps\demo.exe" "--sleep"
            "C:\apps" "running" 4242 false 1700000000000000000
            1700000001000000000.

Definition demoManager : WindowsServiceManager :=
  mkManager "C:\Temp\windows_services_data.json"
            {[ "WSM_demo_1700000000" := demoService ]}
            NewServiceStatusCache true.

Definition demoConfig : ServiceConfig :=
  mkServiceConfig "demo" "C:\apps\demo.exe" "--sleep" EmptyString.

(** The system refuses to write the image path of a service. *)
Definition denyImagePath (e : Event) : bool :=
  match e with
  | EvRegSetString _ valueName _ => String.eqb valueName "ImagePath"
  | _ => false
  end.

Definition denyOpenService (e : Event) : bool :=
  match e with
  | EvOpenService _ => true
  | _ => false
  end.

(** The record a creation from [demoConfig] returns on the scripted
    system. *)
Definition demoCreated : Service :=
  mkService "WSM_demo_1700000100" "demo" "C:\apps\demo.exe" "--sleep"
            "C:\apps" "stopped" 0 false 1700000100000000001
            1700000100000000002.

Definition demoFake (queries : list (result svc.Status))
    (deny : Event -> bool) : Fake :=
  mkFake 1700000100000000000 queries deny "C:\apps\wsm.exe".

Definition demoWorld (queries : list (result svc.Status))
    (deny : Event -> bool) : World Fake :=
  mkWorld (demoFake queries deny) demoManager [].

(** ** The rest of the manager

    [DeleteService], [SetServiceAutoStart], [GetServiceAutoStart], and
    [GetServices] as the application calls it. *)

(** [mgr.Service.Config] and [mgr.Service.UpdateConfig], the two calls of
    [SetServiceAutoStart]. *)
Class WinAPIConfig (OS : Type) := {
  Service_Config : string -> OS -> result mgrConfig * OS;
  Service_UpdateConfig : string -> mgrConfig -> OS -> error * OS
}.

Definition set_AutoStart (b : bool) (r : Service) : Service :=
  mkService (ID r) (Name r) (ExePath r) (Args r) (WorkingDir r) (Status r)
            (PID r) b (CreatedAt r) (UpdatedAt r).

Definition set_StartType (t : StartType) (c : mgrConfig) : mgrConfig :=
  mkConfig (cfgServiceType c) t (cfgErrorControl c) (cfgDisplayName c)
           (cfgDescription c).

Section ManagerRest.

Context {OS : Type} `{WinAPI OS}.

Definition statusCache_Remove (serviceName : string) : M OS unit :=
  modifyManager (fun m =>
    set_statusCache (Cache_Remove serviceName (statusCache m)) m).

(** The stop [DeleteService] tries first: its result is dropped, only
    whether the wait came back matters to what follows. *)
Definition stopBeforeDelete (fuel : nat) (serviceID : string)
    (q : result svc.Status) : M OS bool :=
  match q with
  | Ok status =>
      if decide (svc.State_ status <> svc.Stopped) then
        call (EvControl serviceID svc.Stop)
             (Service_Control serviceID svc.Stop) ;;;
        wr <- waitForServiceState fuel serviceID svc.Stopped (30 * Second) ;;
        ret (match wr with Done _ => true | OutOfFuel => false end)
      else ret true
  | Err _ => ret true
  end.

(** [DeleteService]. *)
Definition DeleteService (fuel : nat) (serviceID : string)
    : M OS (outcome error) :=
  m <- getManager ;;
  match services m !! serviceID with
  | None => ret (Done (Some (Errorf "服务不存在: " serviceID)))
  | Some _ =>
      withSCM (fun e => Done (Some e))
        (r <- call (EvOpenService serviceID) (mgr_OpenService serviceID) ;;
         match r with
         | Some err => ret (Done (Some (Errorf "打开服务失败: " err)))
         | None =>
             x <- (q <- call (EvQuery serviceID) (Service_Query serviceID) ;;
                   back <- stopBeforeDelete fuel serviceID q ;;
                   if back : bool then
                     r <- call (EvDelete serviceID)
                               (Service_Delete serviceID) ;;
                     match r with
                     | Some err =>
                         ret (Done (Some (Errorf "删除服务失败: " err)))
                     | None =>
                         modifyManager (fun m =>
                           set_services (delete serviceID (services m)) m) ;;;
                         statusCache_Remove serviceID ;;;
                         saveServices ;;;
                         emitServicesUpdated ;;;
                         ret (Done None)
                     end
                   else ret OutOfFuel) ;;
             call_ (EvClose serviceID) (Service_Close serviceID) ;;;
             ret x
         end)
  end.

(** [GetServiceAutoStart]. *)
Definition GetServiceAutoStart (serviceID : string)
    (m : WindowsServiceManager) : bool :=
  match services m !! serviceID with
  | None => false
  | Some service => AutoStart service
  end.

(** [App.GetServices]: an error of the manager becomes the empty list. *)
Definition App_GetServices : M OS (list Service) :=
  r <- GetServices ;;
  match r with
  | Err _ => ret []
  | Ok services => ret services
  end.

(** A call the trace has no event for. *)
Definition ask {A} (f : OS -> A * OS) : M OS A :=
  fun w => let (a, o) := f (os w) in (a, mkWorld o (wsm w) (trace w)).

Context `{WinAPIConfig OS}.

(** [SetServiceAutoStart]. *)
Definition SetServiceAutoStart (serviceID : string) (enabled : bool)
    : M OS error :=
  m <- getManager ;;
  match services m !! serviceID with
  | None => ret (Some (Errorf "服务不存在: " serviceID))
  | Some _ =>
      withSCM (fun e => Some e)
        (r <- call (EvOpenService serviceID) (mgr_OpenService serviceID) ;;
         match r with
         | Some err => ret (Some (Errorf "打开服务失败: " err))
         | None =>
             x <- (c <- ask (Service_Config serviceID) ;;
                   match c with
                   | Err err => ret (Some (Errorf "获取服务配置失败: " err))
                   | Ok config =>
                       let config :=
                         set_StartType (if enabled : bool then StartAutomatic
                                        else StartManual) config in
                       r <- ask (Service_UpdateConfig serviceID config) ;;
                       match r with
                       | Some err =>
                           ret (Some (Errorf "更新服务配置失败: " err))
                       | None =>
                           updateService serviceID (set_AutoStart enabled) ;;;
                           now <- Now ;;
                           updateService serviceID (set_UpdatedAt now) ;;;
                           saveServices ;;;
                           ret None
                       end
                   end) ;;
             call_ (EvClose serviceID) (Service_Close serviceID) ;;;
             ret x
         end)
  end.

End ManagerRest.

(** The words [Status] takes, and the statuses that go with a process
    id. *)
Definition status_word (s : string) : Prop :=
  s = "running" \/ s = "stopped" \/ s = "starting" \/ s = "stopping"
  \/ s = "error".

Definition has_pid (s : string) : Prop := s = "running" \/ s = "stopping".

(** A status with its pid: a status word, and pid 0 unless the status
    goes with a process id. *)
Definition pair_ok (s : string) (pid : Z) : Prop :=
  status_word s /\ (~ has_pid s -> pid = 0).

Definition record_ok (r : Service) : Prop := pair_ok (Status r) (PID r).

Definition cache_ok (c : ServiceStatusCache) : Prop :=
  forall id e, cache c !! id = Some e -> pair_ok (cStatus e) (cPID e).

(** A computation that keeps the cache well formed. *)
Definition keeps_cache_ok {OS A : Type} (m : M OS A) : Prop :=
  forall w, cache_ok (statusCache (wsm w)) ->
            cache_ok (statusCache (wsm (m w).2)).

(** What a status refresh leaves alone in a record. *)
Definition identity (r : Service)
    : string * string * string * string * string * bool * Time :=
  (ID r, Name r, ExePath r, Args r, WorkingDir r, AutoStart r, CreatedAt r).

(** ** The wrapper's side of the registry

    [registry.OpenKey] with read access and [Key.GetStringValue], the
    calls of [LoadServiceConfigFromRegistry]. *)
Class RegistryRead (OS : Type) := {
  registry_OpenKeyRead : string -> OS -> error * OS;
  Key_GetStringValue : string -> string -> OS -> result string * OS
}.

Definition parametersKey (serviceName : string) : string :=
  "SYSTEM\CurrentControlSet\Services\" +:+ serviceName +:+ "\Parameters".

(** The value read, or the default when the read fails. *)
Definition orDefault (d : string) (r : result string) : string :=
  match r with
  | Ok v => v
  | Err _ => d
  end.

Section WrapperRegistry.

Context {OS : Type} `{WinAPI OS} `{RegistryRead OS}.

(** [LoadServiceConfigFromRegistry]. *)
Definition LoadServiceConfigFromRegistry (serviceName : string)
    : M OS (result ServiceConfig) :=
  let keyPath := parametersKey serviceName in
  r <- call (EvRegOpenKey keyPath) (registry_OpenKeyRead keyPath) ;;
  match r with
  | Some err => ret (Err (Errorf "打开服务配置注册表失败: " err))
  | None =>
      x <- (e <- ask (Key_GetStringValue keyPath "ExePath") ;;
            match e with
            | Err err => ret (Err (Errorf "读取ExePath失败: " err))
            | Ok exePath =>
                a <- ask (Key_GetStringValue keyPath "Args") ;;
                let args := orDefault EmptyString a in
                d <- ask (Key_GetStringValue keyPath "WorkingDir") ;;
                let workingDir := orDefault EmptyString d in
                n <- ask (Key_GetStringValue keyPath "DisplayName") ;;
                let displayName := orDefault serviceName n in
                ret (Ok (mkServiceConfig displayName exePath args workingDir))
            end) ;;
      call_ (EvRegClose keyPath) (Key_Close keyPath) ;;;
      ret x
  end.

End WrapperRegistry.

(** [IsServiceWrapperMode], on the arguments of the process. *)
Definition IsServiceWrapperMode (args : list string) : bool * string :=
  match args with
  | _ :: flag :: name :: _ =>
      if decide (flag = "--service-wrapper") then (true, name)
      else (false, EmptyString)
  | _ => (false, EmptyString)
  end.

(** The scripted system answers the two configuration calls: it reports
    an entry as [CreateService] makes it, and accepts an update unless
    [f_deny] refuses a parameter change. *)
#[global] Instance Fake_WinAPIConfig : WinAPIConfig Fake := {|
  Service_Config n f :=
    (Ok (mkConfig SERVICE_WIN32_OWN_PROCESS StartAutomatic ErrorNormal n
                  EmptyString), f);
  Service_UpdateConfig n c f :=
    (if f_deny f (EvControl n svc.ParamChange)
     then Some "Access is denied." else None, f)
|}.

(** The registry the scripted system lets the wrapper read holds the
    executable path of the demo target and no other value. *)
#[global] Instance Fake_RegistryRead : RegistryRead Fake := {|
  registry_OpenKeyRead p := f_answer (EvRegOpenKey p);
  Key_GetStringValue k n f :=
    (if String.eqb n "ExePath" then Ok "C:\apps\demo.exe"
     else Err "The system cannot find the file specified.", f)
|}.

(** Refusals of the scripted system. *)
Definition denyConnect (e : Event) : bool :=
  match e with
  | EvConnect => true
  | _ => false
  end.

Definition denyStat (e : Event) : bool :=
  match e with
  | EvStat _ => true
  | _ => false
  end.

Definition denyCreateService (e : Event) : bool :=
  match e with
  | EvCreateService _ _ _ => true
  | _ => false
  end.

Definition denyControl (e : Event) : bool :=
  match e with
  | EvControl _ _ => true
  | _ => false
  end.

Definition denyDelete (e : Event) : bool :=
  match e with
  | EvDelete _ => true
  | _ => false
  end.

Definition denyExecutable (e : Event) : bool :=
  match e with
  | EvExecutable => true
  | _ => false
  end.

Definition denyAppDirectory (e : Event) : bool :=
  match e with
  | EvRegSetString _ valueName _ => String.eqb valueName "AppDirectory"
  | _ => false
  end.

(** * Properties *)

(** ** Time and the status cache *)

Lemma Time_Sub_gtb (t u : Time) (d : Duration) :
  minDuration <= d < maxDuration ->
  (Time_Sub t u >? d) = (t - u >? d).
Proof.
  unfold Time_Sub, minDuration, maxDuration. intros Hd.
  destruct (Z.gtb_spec (t - u) (2 ^ 63 - 1));
    [| destruct (Z.ltb_spec (t - u) (- 2 ^ 63))];
    destruct (Z.gtb_spec (t - u) d); lia.
Qed.

Lemma five_seconds_in_range : minDuration <= 5 * Second < maxDuration.
Proof. unfold minDuration, maxDuration, Second. lia. Qed.

(** A sweep that deletes the entries picked by [expired], started from
    [acc], looked up at one key. *)
Lemma sweep_lookup (expired : CachedServiceStatus -> bool)
    (acc m : gmap string CachedServiceStatus) (k : string) :
  map_fold (fun serviceName status r =>
              if expired status then delete serviceName r else r) acc m !! k
  = match m !! k with
    | Some e => if expired e then None else acc !! k
    | None => acc !! k
    end.
Proof.
  revert k.
  apply (map_fold_weak_ind
           (fun r m => forall k,
              r !! k = match m !! k with
                       | Some e => if expired e then None else acc !! k
                       | None => acc !! k
                       end)).
  - intros k. by rewrite lookup_empty.
  - intros i x m' r Hi IH k.
    destruct (decide (i = k)) as [->|Hne].
    + rewrite lookup_insert_eq. destruct (expired x).
      * by rewrite lookup_delete_eq.
      * rewrite IH, Hi. done.
    + rewrite lookup_insert_ne by done.
      destruct (expired x); [rewrite lookup_delete_ne by done|]; apply IH.
Qed.

Lemma CleanExpired_lookup (now : Time) (c : ServiceStatusCache) (k : string) :
  cache (Cache_CleanExpired now c) !! k
  = match cache c !! k with
    | Some e => if Time_Sub now (cTimestamp e) >? ttl c then None else Some e
    | None => None
    end.
Proof.
  unfold Cache_CleanExpired; simpl.
  rewrite (sweep_lookup (fun e => Time_Sub now (cTimestamp e) >? ttl c)).
  destruct (cache c !! k) eqn:E; [|done]. by destruct (_ >? _).
Qed.

Section ManagerFacts.

Context {OS : Type} `{WinAPI OS}.

Lemma statusCache_Set_spec (name status : string) (pid : Z) (w : World OS) :
  statusCache_Set name status pid w
  = (tt, mkWorld (time_Now (os w)).2
           (set_statusCache
              (Cache_Set (time_Now (os w)).1 name status pid
                         (statusCache (wsm w))) (wsm w))
           (trace w)).
Proof.
  unfold statusCache_Set, bind, Now, modifyManager.
  by destruct (time_Now (os w)).
Qed.

(** Reading the cache changes neither the manager nor the trace. *)
Lemma statusCache_Get_keeps (name : string) (w : World OS) :
  wsm (statusCache_Get name w).2 = wsm w
  /\ trace (statusCache_Get name w).2 = trace w.
Proof.
  unfold statusCache_Get, bind, getManager, Now, ret.
  destruct (cache (statusCache (wsm w)) !! name); [|done].
  by destruct (time_Now (os w)).
Qed.

End ManagerFacts.

(** C8: the status cache has a fixed time-to-live of five seconds; a [Set]
    followed by a [Get] at most five seconds later returns the status and
    pid set, with found = true; [Get] returns found = false exactly when
    the id is absent or the entry is older than five seconds, and leaves
    the cache as it is; [CleanExpired] keeps exactly the entries that are
    not older than five seconds. *)
Theorem C8_status_cache {OS : Type} `{WinAPI OS} (c : ServiceStatusCache) :
  ttl c = 5 * Second ->
  ttl NewServiceStatusCache = 5 * Second
  /\ (forall now id s p, ttl (Cache_Set now id s p c) = 5 * Second)
  /\ (forall now, ttl (Cache_CleanExpired now c) = 5 * Second)
  /\ (forall t1 t2 id s p,
        t2 - t1 <= 5 * Second ->
        Cache_Get t2 id (Cache_Set t1 id s p c) = Some (mkCached s p t1))
  /\ (forall now id,
        Cache_Get now id c = None <->
        cache c !! id = None
        \/ exists e, cache c !! id = Some e
                     /\ now - cTimestamp e > 5 * Second)
  /\ (forall now id e,
        Cache_Get now id c = Some e <->
        cache c !! id = Some e /\ now - cTimestamp e <= 5 * Second)
  /\ (forall (w : World OS) id,
        statusCache (wsm w) = c ->
        statusCache (wsm (statusCache_Get id w).2) = c)
  /\ (forall now id e,
        cache (Cache_CleanExpired now c) !! id = Some e <->
        cache c !! id = Some e /\ now - cTimestamp e <= 5 * Second).
Proof.
  intros Httl.
  assert (Hgt : forall t u, (Time_Sub t u >? ttl c) = (t - u >? 5 * Second)).
  { intros. rewrite Httl. apply Time_Sub_gtb, five_seconds_in_range. }
  repeat split; try done.
  - intros t1 t2 id s p Hle. unfold Cache_Get, Cache_Set; simpl.
    rewrite lookup_insert_eq; simpl. rewrite Hgt.
    destruct (Z.gtb_spec (t2 - t1) (5 * Second)); [lia|done].
  - unfold Cache_Get. destruct (cache c !! id) as [e|] eqn:E; [|by left].
    rewrite Hgt. destruct (Z.gtb_spec (now - cTimestamp e) (5 * Second));
      [|done]. intros _. right. exists e. split; [done|lia].
  - unfold Cache_Get. intros [->|(e & -> & Hold)]; [done|].
    rewrite Hgt. destruct (Z.gtb_spec (now - cTimestamp e) (5 * Second));
      [done|lia].
  - revert H0. unfold Cache_Get.
    destruct (cache c !! id) as [e'|]; [|done].
    destruct (_ >? _); [done|]. by intros [= ->].
  - revert H0. unfold Cache_Get.
    destruct (cache c !! id) as [e'|]; [|done]. rewrite Hgt.
    destruct (Z.gtb_spec (now - cTimestamp e') (5 * Second)); [done|].
    intros [= ->]. lia.
  - intros [Hin Hage]. unfold Cache_Get. rewrite Hin, Hgt.
    destruct (Z.gtb_spec (now - cTimestamp e) (5 * Second)); [lia|done].
  - intros w id <-. by rewrite (proj1 (statusCache_Get_keeps id w)).
  - revert H0. rewrite CleanExpired_lookup.
    destruct (cache c !! id) as [e'|]; [|done].
    destruct (_ >? _); [done|]. by intros [= ->].
  - revert H0. rewrite CleanExpired_lookup.
    destruct (cache c !! id) as [e'|]; [|done]. rewrite Hgt.
    destruct (Z.gtb_spec (now - cTimestamp e') (5 * Second)); [done|].
    intros [= ->]. lia.
  - intros [Hin Hage]. rewrite CleanExpired_lookup, Hin, Hgt.
    destruct (Z.gtb_spec (now - cTimestamp e) (5 * Second)); [lia|done].
Qed.

(** At the fresh cache: a status set at one instant is found three
    seconds later. *)
Lemma C8_status_cache_witness :
  Cache_Get 1700000003000000000 "WSM_demo_1700000000"
    (Cache_Set 1700000000000000000 "WSM_demo_1700000000" "running" 123
               NewServiceStatusCache)
  = Some (mkCached "running" 123 1700000000000000000).
Proof.
  destruct (@C8_status_cache Fake _ NewServiceStatusCache eq_refl)
    as (_ & _ & _ & Hget & _).
  apply Hget. unfold Second. lia.
Defined.

(** ** Status queries *)

Section StatusQuery.

Context {OS : Type} `{WinAPI OS}.

(** [getServiceRealTimeStatus] when the cache has no fresh entry and the
    OS answers the query. *)
Lemma getServiceRealTimeStatus_fresh (serviceName : string) (w w1 : World OS)
    (o2 o3 : OS) (status : svc.Status) :
  statusCache_Get serviceName w = (None, w1) ->
  mgr_OpenService serviceName (os w1) = (None, o2) ->
  Service_Query serviceName o2 = (Ok status, o3) ->
  getServiceRealTimeStatus serviceName w
  = (statusOfState status,
     mkWorld (Service_Close serviceName (time_Now o3).2)
       (set_statusCache
          (Cache_Set (time_Now o3).1 serviceName (statusOfState status).1
             (statusOfState status).2 (statusCache (wsm w1))) (wsm w1))
       (trace w1 ++ [EvOpenService serviceName; EvQuery serviceName;
                     EvClose serviceName])).
Proof.
  intros Hget Hopen Hquery.
  unfold getServiceRealTimeStatus, bind. rewrite Hget.
  unfold call_, call. rewrite Hopen. cbn [os]. rewrite Hquery.
  unfold statusOfState.
  destruct (svc.State_ status); rewrite statusCache_Set_spec; cbn;
    by rewrite <- !app_assoc.
Qed.

(** [getServiceRealTimeStatus] when the cache has no fresh entry and the
    service cannot be opened, or its state cannot be queried. *)
Lemma getServiceRealTimeStatus_open_fails (serviceName : string)
    (w w1 : World OS) (o2 : OS) (e : string) :
  statusCache_Get serviceName w = (None, w1) ->
  mgr_OpenService serviceName (os w1) = (Some e, o2) ->
  getServiceRealTimeStatus serviceName w
  = (("error", 0),
     mkWorld (time_Now o2).2
       (set_statusCache
          (Cache_Set (time_Now o2).1 serviceName "error" 0
                     (statusCache (wsm w1))) (wsm w1))
       (trace w1 ++ [EvOpenService serviceName])).
Proof.
  intros Hget Hopen.
  unfold getServiceRealTimeStatus, bind. rewrite Hget.
  unfold call. rewrite Hopen. by rewrite statusCache_Set_spec.
Qed.

Lemma getServiceRealTimeStatus_query_fails (serviceName : string)
    (w w1 : World OS) (o2 o3 : OS) (e : string) :
  statusCache_Get serviceName w = (None, w1) ->
  mgr_OpenService serviceName (os w1) = (None, o2) ->
  Service_Query serviceName o2 = (Err e, o3) ->
  getServiceRealTimeStatus serviceName w
  = (("error", 0),
     mkWorld (Service_Close serviceName (time_Now o3).2)
       (set_statusCache
          (Cache_Set (time_Now o3).1 serviceName "error" 0
                     (statusCache (wsm w1))) (wsm w1))
       (trace w1 ++ [EvOpenService serviceName; EvQuery serviceName;
                     EvClose serviceName])).
Proof.
  intros Hget Hopen Hquery.
  unfold getServiceRealTimeStatus, bind. rewrite Hget.
  unfold call_, call. rewrite Hopen. cbn [os]. rewrite Hquery.
  rewrite statusCache_Set_spec; cbn. by rewrite <- !app_assoc.
Qed.

(** What [refreshService] writes into the registry. *)
Lemma refreshService_services (id : string) (w : World OS) :
  exists t,
    services (wsm (refreshService id w).2)
    = alter (fun r => set_UpdatedAt t
                        (set_PID (getServiceRealTimeStatus id w).1.2
                           (set_Status (getServiceRealTimeStatus id w).1.1 r)))
            id (services (wsm (getServiceRealTimeStatus id w).2)).
Proof.
  unfold refreshService, bind, updateService, modifyManager, Now.
  destruct (getServiceRealTimeStatus id w) as [[s p] w1]; cbn.
  destruct (time_Now (os w1)) as [t o]; cbn.
  exists t. by rewrite !alter_alter_eq.
Qed.

End StatusQuery.

(** C4: when the status query reaches the OS and the OS reports a state,
    running maps to "running" with the observed pid, stopped to "stopped"
    with pid 0, start-pending to "starting" with pid 0, stop-pending to
    "stopping" with the observed pid, any other state to "error" with
    pid 0. *)
Theorem C4_query_maps_states {OS : Type} `{WinAPI OS} (serviceName : string)
    (w w1 : World OS) (o2 o3 : OS) (status : svc.Status) :
  statusCache_Get serviceName w = (None, w1) ->
  mgr_OpenService serviceName (os w1) = (None, o2) ->
  Service_Query serviceName o2 = (Ok status, o3) ->
  let r := (getServiceRealTimeStatus serviceName w).1 in
  (svc.State_ status = svc.Running ->
     r = ("running", svc.ProcessId status))
  /\ (svc.State_ status = svc.Stopped -> r = ("stopped", 0))
  /\ (svc.State_ status = svc.StartPending -> r = ("starting", 0))
  /\ (svc.State_ status = svc.StopPending ->
        r = ("stopping", svc.ProcessId status))
  /\ (svc.State_ status <> svc.Running ->
      svc.State_ status <> svc.Stopped ->
      svc.State_ status <> svc.StartPending ->
      svc.State_ status <> svc.StopPending -> r = ("error", 0)).
Proof.
  intros Hget Hopen Hquery r. subst r.
  rewrite (getServiceRealTimeStatus_fresh _ _ _ _ _ _ Hget Hopen Hquery).
  unfold statusOfState; cbn [fst].
  destruct (svc.State_ status); repeat split; intros; congruence.
Qed.

(** The demo service seen stop-pending under pid 4242, with an empty
    cache. *)
Lemma C4_query_maps_states_witness :
  (getServiceRealTimeStatus "WSM_demo_1700000000"
     (demoWorld [Ok (svc.mkStatus svc.StopPending 0 4242)]
                (fun _ => false))).1
  = ("stopping", 4242).
Proof.
  pose (w := demoWorld [Ok (svc.mkStatus svc.StopPending 0 4242)]
                       (fun _ => false)).
  refine (proj1 (proj2 (proj2 (proj2
    (C4_query_maps_states "WSM_demo_1700000000" w w
       (demoFake [Ok (svc.mkStatus svc.StopPending 0 4242)] (fun _ => false))
       (demoFake [] (fun _ => false))
       (svc.mkStatus svc.StopPending 0 4242) _ _ _)))) _);
    reflexivity.
Defined.

(** C9: when the service cannot be opened or its state cannot be queried,
    [getServiceRealTimeStatus] returns status "error" with pid 0, no
    error, and leaves the registry as it is; the refresh of [GetServices]
    then keeps the entry, with status "error" and pid 0. *)
Theorem C9_query_failure_is_error_status {OS : Type} `{WinAPI OS}
    (serviceName : string) (rec : Service) (w w1 : World OS) :
  services (wsm w) !! serviceName = Some rec ->
  statusCache_Get serviceName w = (None, w1) ->
  ((exists e o2, mgr_OpenService serviceName (os w1) = (Some e, o2))
   \/ (exists o2 e o3,
         mgr_OpenService serviceName (os w1) = (None, o2)
         /\ Service_Query serviceName o2 = (Err e, o3))) ->
  (getServiceRealTimeStatus serviceName w).1 = ("error", 0)
  /\ services (wsm (getServiceRealTimeStatus serviceName w).2)
     = services (wsm w)
  /\ exists t,
       services (wsm (refreshService serviceName w).2)
       = <[serviceName :=
             set_UpdatedAt t (set_PID 0 (set_Status "error" rec))]>
           (services (wsm w)).
Proof.
  intros Hrec Hget Hfail.
  assert (Hw1 : wsm w1 = wsm w).
  { pose proof (proj1 (statusCache_Get_keeps serviceName w)) as K.
    by rewrite Hget in K. }
  assert (Hres : (getServiceRealTimeStatus serviceName w).1 = ("error", 0)
                 /\ services (wsm (getServiceRealTimeStatus serviceName w).2)
                    = services (wsm w)).
  { destruct Hfail as [(e & o2 & Hopen)|(o2 & e & o3 & Hopen & Hquery)].
    - rewrite (getServiceRealTimeStatus_open_fails _ _ _ _ _ Hget Hopen).
      cbn. by rewrite Hw1.
    - rewrite (getServiceRealTimeStatus_query_fails _ _ _ _ _ _
                 Hget Hopen Hquery).
      cbn. by rewrite Hw1. }
  destruct Hres as [Hr Hs]. repeat split; [done|done|].
  destruct (refreshService_services serviceName w) as [t Ht].
  exists t. rewrite Ht, Hr, Hs. cbn.
  by rewrite (alter_alt_Some _ _ _ _ Hrec).
Qed.

(** The demo service when the OS refuses to open it. *)
Lemma C9_query_failure_is_error_status_witness :
  (getServiceRealTimeStatus "WSM_demo_1700000000"
     (demoWorld [] denyOpenService)).1
  = ("error", 0).
Proof.
  pose (deny := denyOpenService).
  refine (proj1
    (C9_query_failure_is_error_status "WSM_demo_1700000000" demoService
       (demoWorld [] deny) (demoWorld [] deny) _ _ _)).
  - reflexivity.
  - reflexivity.
  - left. exists "Access is denied.", (demoFake [] deny). reflexivity.
Defined.

(** ** Computations that only talk to the system *)

Section OsOnly.

Context {OS : Type} `{WinAPI OS}.

Lemma os_only_ret {A} (a : A) : os_only (ret (OS := OS) a).
Proof. intros w. split; [done|]. exists []. by rewrite app_nil_r. Qed.

Lemma os_only_bind {A B} (m : M OS A) (k : A -> M OS B) :
  os_only m -> (forall a, os_only (k a)) -> os_only (bind m k).
Proof.
  intros Hm Hk w. unfold bind.
  destruct (Hm w) as (Hw & l & Hl). destruct (m w) as [a w1]; cbn in *.
  destruct (Hk a w1) as (Hw1 & l1 & Hl1). split; [congruence|].
  exists (l ++ l1). by rewrite Hl1, Hl, app_assoc.
Qed.

Lemma os_only_call {A} (e : Event) (f : OS -> A * OS) : os_only (call e f).
Proof.
  intros w. unfold call. destruct (f (os w)). split; [done|]. by exists [e].
Qed.

Lemma os_only_call_ (e : Event) (f : OS -> OS) : os_only (call_ e f).
Proof. apply os_only_call. Qed.

Lemma os_only_emit (e : Event) : os_only (emit (OS := OS) e).
Proof. intros w. split; [done|]. by exists [e]. Qed.

Lemma os_only_Now : os_only Now.
Proof.
  intros w. unfold Now. destruct (time_Now (os w)). split; [done|].
  exists []. by rewrite app_nil_r.
Qed.

End OsOnly.

Ltac os_only_step :=
  first
    [ apply os_only_ret | apply os_only_call_ | apply os_only_call
    | apply os_only_emit | apply os_only_Now
    | apply os_only_bind; [|intros ?]
    | match goal with
      | |- os_only (match ?x with _ => _ end) => destruct x
      end ].

Section OsOnlyCalls.

Context {OS : Type} `{WinAPI OS}.

Lemma os_only_setServiceRegistryValue (n k v x : string) :
  os_only (setServiceRegistryValue n k v x).
Proof. unfold setServiceRegistryValue. repeat os_only_step. Qed.

Lemma os_only_storeServiceConfigInRegistry (n e a d : string) :
  os_only (storeServiceConfigInRegistry n e a d).
Proof.
  unfold storeServiceConfigInRegistry.
  repeat first [apply os_only_setServiceRegistryValue | os_only_step].
Qed.

Lemma os_only_createServiceWrapper (n e a d : string) :
  os_only (createServiceWrapper n e a d).
Proof.
  unfold createServiceWrapper.
  repeat first [apply os_only_storeServiceConfigInRegistry | os_only_step].
Qed.

Lemma os_only_waitLoop (fuel : nat) (n : string) (t : svc.State)
    (deadline : Time) :
  os_only (waitLoop fuel n t deadline).
Proof.
  induction fuel as [|fuel IH]; cbn [waitLoop]; [apply os_only_ret|].
  repeat first [apply IH | os_only_step].
Qed.

Lemma os_only_waitForServiceState (fuel : nat) (n : string) (t : svc.State)
    (d : Duration) :
  os_only (waitForServiceState fuel n t d).
Proof.
  unfold waitForServiceState.
  repeat first [apply os_only_waitLoop | os_only_step].
Qed.

End OsOnlyCalls.

(** ** Start and stop *)

Lemma issued_app {OS : Type} (w w' : World OS) (l : list Event) :
  trace w' = trace w ++ l -> issued w w' = l.
Proof. unfold issued. intros ->. by rewrite drop_app_length. Qed.

Ltac not_in_list :=
  let Hin := fresh "Hin" in
  intros Hin;
  repeat (apply elem_of_cons in Hin as [Hin|Hin]; [discriminate|]);
  by apply elem_of_nil in Hin.

(** C6: [StartService] on a registered service that the OS reports
    running returns the already-running error; the calls it makes are
    connect, open, query, close and disconnect, so no start request is
    issued; the manager, with the record of the service, is as before. *)
Theorem C6_start_already_running {OS : Type} `{WinAPI OS} (fuel : nat)
    (serviceID : string) (rec : Service) (w : World OS) (o1 o2 o3 : OS)
    (status : svc.Status) :
  services (wsm w) !! serviceID = Some rec ->
  mgr_Connect (os w) = (None, o1) ->
  mgr_OpenService serviceID o1 = (None, o2) ->
  Service_Query serviceID o2 = (Ok status, o3) ->
  svc.State_ status = svc.Running ->
  let r := StartService fuel serviceID w in
  r.1 = Done (Some "服务已经在运行")
  /\ issued w r.2 = [EvConnect; EvOpenService serviceID; EvQuery serviceID;
                     EvClose serviceID; EvDisconnect]
  /\ (EvStart serviceID ∉ issued w r.2)
  /\ wsm r.2 = wsm w
  /\ services (wsm r.2) !! serviceID = Some rec
  /\ os r.2 = mgr_Disconnect (Service_Close serviceID o3).
Proof.
  intros Hrec Hconn Hopen Hquery Hrun r.
  assert (Hr : r = (Done (Some "服务已经在运行"),
                    mkWorld (mgr_Disconnect (Service_Close serviceID o3))
                      (wsm w)
                      (trace w ++ [EvConnect; EvOpenService serviceID;
                                   EvQuery serviceID; EvClose serviceID;
                                   EvDisconnect]))).
  { subst r. unfold StartService, bind, getManager. rewrite Hrec.
    unfold withSCM, bind, call_, call. rewrite Hconn. cbn [os].
    rewrite Hopen. cbn [os]. rewrite Hquery.
    rewrite decide_True by done. cbn. by rewrite <- !app_assoc. }
  rewrite Hr. cbn [fst snd wsm os].
  unfold issued; cbn [trace]; rewrite drop_app_length.
  repeat split; try done. not_in_list.
Qed.

(** The demo service, reported running by the OS. *)
Lemma C6_start_already_running_witness :
  (StartService 61 "WSM_demo_1700000000"
     (demoWorld [Ok (svc.mkStatus svc.Running 5 4242)] (fun _ => false))).1
  = Done (Some "服务已经在运行").
Proof.
  pose (f := demoFake [] (fun _ => false)).
  refine (proj1
    (C6_start_already_running 61 "WSM_demo_1700000000" demoService
       (demoWorld [Ok (svc.mkStatus svc.Running 5 4242)] (fun _ => false))
       (demoFake [Ok (svc.mkStatus svc.Running 5 4242)] (fun _ => false))
       (demoFake [Ok (svc.mkStatus svc.Running 5 4242)] (fun _ => false))
       f (svc.mkStatus svc.Running 5 4242) _ _ _ _ _));
    reflexivity.
Defined.

(** C5: [StopService] on a registered service that the OS reports stopped
    succeeds; the calls it makes are connect, open, query, the write of
    the snapshot, close and disconnect, so no stop control is sent and no
    event is emitted; the record of the service is refreshed to status
    "stopped", pid 0 and the current time as [UpdatedAt], nothing else in
    the manager changes, and a record that was already stopped with pid 0
    changes in [UpdatedAt] only. *)
Theorem C5_stop_already_stopped {OS : Type} `{WinAPI OS} (fuel : nat)
    (serviceID : string) (rec : Service) (w : World OS) (o1 o2 o3 : OS)
    (status : svc.Status) :
  services (wsm w) !! serviceID = Some rec ->
  mgr_Connect (os w) = (None, o1) ->
  mgr_OpenService serviceID o1 = (None, o2) ->
  Service_Query serviceID o2 = (Ok status, o3) ->
  svc.State_ status = svc.Stopped ->
  let r := StopService fuel serviceID w in
  let now := (time_Now o3).1 in
  let rec' := set_UpdatedAt now (set_PID 0 (set_Status "stopped" rec)) in
  r.1 = Done None
  /\ issued w r.2
     = [EvConnect; EvOpenService serviceID; EvQuery serviceID;
        EvWriteFile (dataFile (wsm w)) (<[serviceID := rec']> (services (wsm w)));
        EvClose serviceID; EvDisconnect]
  /\ (forall c, EvControl serviceID c ∉ issued w r.2)
  /\ services (wsm r.2) = <[serviceID := rec']> (services (wsm w))
  /\ statusCache (wsm r.2) = statusCache (wsm w)
  /\ set_PID 0 (set_Status "stopped" rec')
     = rec'
  /\ (Status rec = "stopped" -> PID rec = 0 -> rec' = set_UpdatedAt now rec).
Proof.
  intros Hrec Hconn Hopen Hquery Hstop r now rec'.
  assert (Hr : r = (Done None,
                    mkWorld (mgr_Disconnect
                               (Service_Close serviceID
                                  (os_WriteFile (dataFile (wsm w))
                                     (<[serviceID := rec']> (services (wsm w)))
                                     (time_Now o3).2)))
                      (set_services (<[serviceID := rec']> (services (wsm w)))
                                    (wsm w))
                      (trace w ++ [EvConnect; EvOpenService serviceID;
                                   EvQuery serviceID;
                                   EvWriteFile (dataFile (wsm w))
                                     (<[serviceID := rec']> (services (wsm w)));
                                   EvClose serviceID; EvDisconnect]))).
  { subst r rec' now. unfold StopService, bind, getManager. rewrite Hrec.
    unfold withSCM, bind, call_, call. rewrite Hconn. cbn [os].
    rewrite Hopen. cbn [os]. rewrite Hquery.
    rewrite decide_True by done.
    unfold updateService, modifyManager, saveServices, bind, getManager,
      call_, call, Now, ret. cbn.
    destruct (time_Now o3) as [t o4]; cbn.
    rewrite !alter_alter_eq, (alter_alt_Some _ _ _ _ Hrec).
    cbn. by rewrite <- !app_assoc. }
  rewrite Hr. cbn [fst snd wsm os services statusCache set_services].
  unfold issued; cbn [trace]; rewrite drop_app_length.
  repeat split; try done.
  - intros c. not_in_list.
  - intros Hs Hp. subst rec'. destruct rec; cbn in *. by subst.
Qed.

(** The demo service, reported stopped by the OS. *)
Lemma C5_stop_already_stopped_witness :
  (StopService 61 "WSM_demo_1700000000"
     (demoWorld [Ok (svc.mkStatus svc.Stopped 0 0)] (fun _ => false))).1
  = Done None.
Proof.
  pose (f := demoFake [] (fun _ => false)).
  refine (proj1
    (C5_stop_already_stopped 61 "WSM_demo_1700000000" demoService
       (demoWorld [Ok (svc.mkStatus svc.Stopped 0 0)] (fun _ => false))
       (demoFake [Ok (svc.mkStatus svc.Stopped 0 0)] (fun _ => false))
       (demoFake [Ok (svc.mkStatus svc.Stopped 0 0)] (fun _ => false))
       f (svc.mkStatus svc.Stopped 0 0) _ _ _ _ _));
    reflexivity.
Defined.

(** ** The pid of a record whose start fails *)

(** Whatever the system does: when the wait for the running state fails,
    [StartService] sets the status of the record to "error" and leaves
    its pid as it was. *)
Lemma StartService_wait_fails {OS : Type} `{WinAPI OS} (fuel : nat)
    (serviceID : string) (rec : Service) (w w5 : World OS)
    (o1 o2 o3 o4 : OS) (status : svc.Status) (err : string) :
  services (wsm w) !! serviceID = Some rec ->
  mgr_Connect (os w) = (None, o1) ->
  mgr_OpenService serviceID o1 = (None, o2) ->
  Service_Query serviceID o2 = (Ok status, o3) ->
  svc.State_ status <> svc.Running ->
  Service_Start serviceID o3 = (None, o4) ->
  waitForServiceState fuel serviceID svc.Running (30 * Second)
    (mkWorld o4 (wsm w)
       (trace w ++ [EvConnect; EvOpenService serviceID; EvQuery serviceID;
                    EvStart serviceID]))
  = (Done (Some err), w5) ->
  let r := StartService fuel serviceID w in
  r.1 = Done (Some err)
  /\ services (wsm r.2)
     = <[serviceID := set_UpdatedAt (time_Now (os w5)).1
                        (set_Status "error" rec)]> (services (wsm w))
  /\ PID <$> services (wsm r.2) !! serviceID = Some (PID rec).
Proof.
  intros Hrec Hconn Hopen Hquery Hrun Hstart Hwait r.
  assert (Hw5 : wsm w5 = wsm w).
  { pose proof (proj1 (os_only_waitForServiceState fuel serviceID
                         svc.Running (30 * Second)
                         (mkWorld o4 (wsm w)
                            (trace w ++ [EvConnect; EvOpenService serviceID;
                                         EvQuery serviceID;
                                         EvStart serviceID])))) as K.
    rewrite Hwait in K. exact K. }
  assert (Hr : exists w',
             r = (Done (Some err), w')
             /\ services (wsm w')
                = <[serviceID := set_UpdatedAt (time_Now (os w5)).1
                                   (set_Status "error" rec)]>
                    (services (wsm w))).
  { subst r. unfold StartService.
    unfold bind at 1. unfold getManager at 1. rewrite Hrec.
    unfold withSCM.
    unfold bind at 1. unfold call at 1. rewrite Hconn.
    unfold bind at 1. unfold bind at 1. unfold call at 1. cbn [os].
    rewrite Hopen.
    unfold bind at 1. unfold bind at 1. unfold call at 1. cbn [os].
    rewrite Hquery. rewrite decide_False by done.
    unfold bind at 1. unfold call at 1. cbn [os]. rewrite Hstart.
    cbn [wsm trace]. rewrite <- !app_assoc. cbn [app].
    unfold bind at 1. rewrite Hwait.
    unfold updateService, modifyManager, saveServices, bind, getManager,
      call_, call, Now, ret.
    cbn [os wsm trace]. destruct (time_Now (os w5)) as [t o6].
    cbn [fst snd wsm services set_services].
    eexists. split; [reflexivity|]. cbn [wsm services].
    by rewrite Hw5, !alter_alter_eq, (alter_alt_Some _ _ _ _ Hrec). }
  destruct Hr as (w' & -> & Hr2). cbn [fst snd].
  split; [done|]. split; [done|].
  by rewrite Hr2, lookup_insert_eq.
Qed.

(** C1, at a failing input: the demo service is recorded as running under
    pid 4242 while the OS reports it stopped (its target has exited); the
    start request is accepted and the service is seen stopped again at
    the first poll. [StartService] returns the start-failure error and
    sets the status of the record to "error", and the record still holds
    pid 4242. *)
Theorem C1_StartService_error_keeps_pid :
  let id := "WSM_demo_1700000000" in
  let stopped := Ok (svc.mkStatus svc.Stopped 0 0) in
  let w := demoWorld [stopped; stopped] (fun _ => false) in
  let r := StartService 61 id w in
  Status <$> services (wsm w) !! id = Some "running"
  /\ PID <$> services (wsm w) !! id = Some 4242
  /\ r.1 = Done (Some "服务启动失败")
  /\ Status <$> services (wsm r.2) !! id = Some "error"
  /\ PID <$> services (wsm r.2) !! id = Some 4242.
Proof. vm_compute. repeat split; reflexivity. Qed.

(** ** Creation *)

Section Creation.

Context {OS : Type} `{WinAPI OS}.

Lemma generateServiceName_spec (displayName : string) (w : World OS) :
  generateServiceName displayName w
  = ("WSM_" +:+ strings_Map cleanRune displayName +:+ "_"
       +:+ fmt_d (Time_Unix (time_Now (os w)).1),
     mkWorld (time_Now (os w)).2 (wsm w) (trace w)).
Proof.
  unfold generateServiceName, bind, Now, ret. by destruct (time_Now (os w)).
Qed.

Lemma os_only_setServiceImagePathDirect (n p : string) :
  os_only (setServiceImagePathDirect n p).
Proof. apply os_only_setServiceRegistryValue. Qed.

Lemma os_only_setServiceWorkingDirectory (n p : string) :
  os_only (setServiceWorkingDirectory n p).
Proof. apply os_only_setServiceRegistryValue. Qed.

Lemma os_only_setupCreatedService (n : string) (config : ServiceConfig) :
  os_only (setupCreatedService n config).
Proof.
  unfold setupCreatedService.
  repeat first [ apply os_only_createServiceWrapper
               | apply os_only_setServiceImagePathDirect
               | apply os_only_setServiceWorkingDirectory
               | os_only_step ].
Qed.

(** The two failures after which the closure deletes the entry. *)
Lemma setupCreatedService_wrapper_fails (serviceName : string)
    (config : ServiceConfig) (w3 w4 : World OS) (e : string) :
  createServiceWrapper serviceName (cfgExePath config) (cfgArgs config)
    (createWorkingDir config) w3 = (Err e, w4) ->
  setupCreatedService serviceName config w3
  = (Err (Errorf "创建服务包装器失败: " e),
     mkWorld (Service_Delete serviceName (os w4)).2 (wsm w4)
             (trace w4 ++ [EvDelete serviceName])).
Proof.
  intros Hwrap. unfold setupCreatedService, bind. rewrite Hwrap.
  unfold call. by destruct (Service_Delete serviceName (os w4)).
Qed.

Lemma setupCreatedService_imagepath_fails (serviceName : string)
    (config : ServiceConfig) (w3 w4 w5 : World OS) (p e : string) :
  createServiceWrapper serviceName (cfgExePath config) (cfgArgs config)
    (createWorkingDir config) w3 = (Ok p, w4) ->
  setServiceImagePathDirect serviceName p w4 = (Some e, w5) ->
  setupCreatedService serviceName config w3
  = (Err (Errorf "设置服务路径失败: " e),
     mkWorld (Service_Delete serviceName (os w5)).2 (wsm w5)
             (trace w5 ++ [EvDelete serviceName])).
Proof.
  intros Hwrap Hpath. unfold setupCreatedService, bind.
  rewrite Hwrap, Hpath.
  unfold call. by destruct (Service_Delete serviceName (os w5)).
Qed.

(** A record that the closure returns has the name it was given and is
    not marked for automatic start. *)
Lemma setupCreatedService_Ok (serviceName : string) (config : ServiceConfig)
    (w3 w4 : World OS) (service : Service) :
  setupCreatedService serviceName config w3 = (Ok service, w4) ->
  ID service = serviceName /\ AutoStart service = false
  /\ Status service = "stopped" /\ PID service = 0.
Proof.
  unfold setupCreatedService, bind.
  destruct (createServiceWrapper _ _ _ _ w3) as [[p|e] wa].
  2:{ unfold call. destruct (Service_Delete _ _). discriminate. }
  destruct (setServiceImagePathDirect _ _ wa) as [[e|] wb].
  { unfold call. destruct (Service_Delete _ _). discriminate. }
  destruct (setServiceWorkingDirectory _ _ wb) as [[e|] wc];
    unfold emit, ret, Now; cbn;
    repeat match goal with
           | |- context [time_Now ?o] => destruct (time_Now o); cbn
           end;
    intros [= <- <-]; done.
Qed.

(** [CreateService] once the OS has created the service entry. *)
Lemma CreateService_created (config : ServiceConfig) (w w1 : World OS)
    (o0 o2 o3 : OS) (serviceName : string) :
  os_Stat_IsNotExist (cfgExePath config) (os w) = (false, o0) ->
  generateServiceName (cfgName config)
    (mkWorld o0 (wsm w) (trace w ++ [EvStat (cfgExePath config)]))
  = (serviceName, w1) ->
  services (wsm w) !! serviceName = None ->
  mgr_Connect (os w1) = (None, o2) ->
  mgr_CreateService serviceName (createBinaryPath config)
    (createServiceConfig config) o2 = (None, o3) ->
  let w3 := mkWorld o3 (wsm w)
              (trace w ++ [EvStat (cfgExePath config); EvConnect;
                           EvCreateService serviceName
                             (createBinaryPath config)
                             (createServiceConfig config)]) in
  let x := (setupCreatedService serviceName config w3).1 in
  let w4 := (setupCreatedService serviceName config w3).2 in
  let w5 := mkWorld (mgr_Disconnect (Service_Close serviceName (os w4)))
              (wsm w4)
              (trace w4 ++ [EvClose serviceName; EvDisconnect]) in
  CreateService config w
  = match x with
    | Err err => (Err err, w5)
    | Ok service => registerService serviceName service w5
    end.
Proof.
  intros Hstat Hname Hfree Hconn Hcreate w3 x w4 w5.
  rewrite generateServiceName_spec in Hname. cbn [os wsm trace] in Hname.
  injection Hname as Hn Hw1. subst w1. cbn [os] in Hconn.
  unfold CreateService.
  unfold bind at 1. unfold call at 1. rewrite Hstat.
  unfold bind at 1. rewrite generateServiceName_spec. cbn [os wsm trace].
  unfold bind at 1. unfold getManager at 1. cbn [wsm]. rewrite Hn, Hfree.
  unfold bind at 1. unfold withSCM.
  unfold bind at 1. unfold call at 1. cbn [os]. rewrite Hconn.
  unfold bind at 1. unfold bind at 1. unfold call at 1. cbn [os wsm trace].
  rewrite Hcreate. cbn [wsm trace].
  rewrite <- !app_assoc. cbn [app]. fold w3.
  unfold bind at 1. subst x w4 w5.
  destruct (setupCreatedService serviceName config w3) as [x w4].
  cbn [fst snd]. unfold bind, call_, call, ret. cbn [os wsm trace].
  rewrite <- !app_assoc. cbn [app]. by destruct x.
Qed.

End Creation.

Section CreationInversion.

Context {OS : Type} `{WinAPI OS}.

(** A successful [CreateService] has been through every step. *)
Lemma CreateService_Ok_inv (config : ServiceConfig) (w w' : World OS)
    (service : Service) :
  CreateService config w = (Ok service, w') ->
  exists serviceName w3 w4,
    trace w3 = trace w ++ [EvStat (cfgExePath config); EvConnect;
                           EvCreateService serviceName
                             (createBinaryPath config)
                             (createServiceConfig config)]
    /\ wsm w3 = wsm w
    /\ setupCreatedService serviceName config w3 = (Ok service, w4)
    /\ registerService serviceName service
         (mkWorld (mgr_Disconnect (Service_Close serviceName (os w4)))
                  (wsm w4)
                  (trace w4 ++ [EvClose serviceName; EvDisconnect]))
       = (Ok service, w').
Proof.
  unfold CreateService.
  unfold bind at 1. unfold call at 1.
  destruct (os_Stat_IsNotExist _ _) as [[|] o0]; [discriminate|].
  unfold bind at 1. rewrite generateServiceName_spec. cbn [os wsm trace].
  set (serviceName := "WSM_" +:+ _).
  unfold bind at 1. unfold getManager at 1. cbn [wsm].
  destruct (services (wsm w) !! serviceName); [discriminate|].
  unfold bind at 1. unfold withSCM.
  unfold bind at 1. unfold call at 1. cbn [os].
  destruct (mgr_Connect _) as [[e|] o2]; [discriminate|].
  unfold bind at 1. unfold bind at 1. unfold call at 1. cbn [os wsm trace].
  destruct (mgr_CreateService _ _ _ _) as [[e|] o3]; [discriminate|].
  cbn [wsm trace]. rewrite <- !app_assoc. cbn [app].
  unfold bind at 1.
  match goal with
  | |- context [setupCreatedService serviceName config ?x] =>
      set (w3 := x)
  end.
  destruct (setupCreatedService serviceName config w3) as [x w4] eqn:Hsetup.
  unfold bind at 1. unfold call_, call, ret. cbn [os wsm trace].
  unfold bind at 1. cbn [os wsm trace].
  rewrite <- !app_assoc. cbn [app].
  destruct x as [service'|e]; [|discriminate].
  intros Hreg. exists serviceName, w3, w4. split; [done|]. split; [done|].
  assert (service' = service) as ->.
  { revert Hreg. unfold registerService, bind, ret.
    repeat match goal with
           | |- context [let (_, _) := ?x in _] => destruct x
           end.
    by intros [= ->]. }
  done.
Qed.

Lemma registerService_spec (serviceName : string) (service : Service)
    (w : World OS) :
  (registerService serviceName service w).1 = Ok service
  /\ services (wsm (registerService serviceName service w).2)
     = <[serviceName := service]> (services (wsm w))
  /\ exists l,
       trace (registerService serviceName service w).2
       = trace w ++ l ++ [EvGo (TaskAutoStart (1 * Second) serviceName)].
Proof.
  unfold registerService, bind, modifyManager, saveServices,
    emitServicesUpdated, bind, getManager, call_, call, emit, ret.
  cbn. destruct (ctx (wsm w)); cbn.
  - repeat split. eexists [_; _]. by rewrite <- !app_assoc.
  - repeat split. eexists [_]. by rewrite <- !app_assoc.
Qed.

End CreationInversion.

(** C7: once the OS has created the service entry, if storing the wrapper
    configuration fails, or setting the image path fails, [CreateService]
    returns the error after a delete of the entry just created (followed
    only by the close of the handle and the disconnect), and the
    registry of the manager is as before: no record is added. *)
Theorem C7_create_rolls_back {OS : Type} `{WinAPI OS}
    (config : ServiceConfig) (w w1 : World OS) (o0 o2 o3 : OS)
    (serviceName : string) :
  os_Stat_IsNotExist (cfgExePath config) (os w) = (false, o0) ->
  generateServiceName (cfgName config)
    (mkWorld o0 (wsm w) (trace w ++ [EvStat (cfgExePath config)]))
  = (serviceName, w1) ->
  services (wsm w) !! serviceName = None ->
  mgr_Connect (os w1) = (None, o2) ->
  mgr_CreateService serviceName (createBinaryPath config)
    (createServiceConfig config) o2 = (None, o3) ->
  let created := [EvStat (cfgExePath config); EvConnect;
                  EvCreateService serviceName (createBinaryPath config)
                    (createServiceConfig config)] in
  let w3 := mkWorld o3 (wsm w) (trace w ++ created) in
  forall (w4 : World OS) (msg : string),
    ((exists e,
        createServiceWrapper serviceName (cfgExePath config) (cfgArgs config)
          (createWorkingDir config) w3 = (Err e, w4)
        /\ msg = Errorf "创建服务包装器失败: " e)
     \/ (exists p wa e,
           createServiceWrapper serviceName (cfgExePath config)
             (cfgArgs config) (createWorkingDir config) w3 = (Ok p, wa)
           /\ setServiceImagePathDirect serviceName p wa = (Some e, w4)
           /\ msg = Errorf "设置服务路径失败: " e)) ->
    let r := CreateService config w in
    r.1 = Err msg
    /\ (exists l, issued w r.2
                  = created ++ l ++ [EvDelete serviceName;
                                     EvClose serviceName; EvDisconnect])
    /\ os r.2 = mgr_Disconnect
                  (Service_Close serviceName
                     (Service_Delete serviceName (os w4)).2)
    /\ services (wsm r.2) = services (wsm w)
    /\ services (wsm r.2) !! serviceName = None.
Proof.
  intros Hstat Hname Hfree Hconn Hcreate created w3 w4 msg Hfail r.
  subst r. rewrite (CreateService_created _ _ _ _ _ _ _ Hstat Hname Hfree
                      Hconn Hcreate).
  fold created. fold w3.
  assert (Hsetup : setupCreatedService serviceName config w3
                   = (Err msg,
                      mkWorld (Service_Delete serviceName (os w4)).2 (wsm w4)
                              (trace w4 ++ [EvDelete serviceName]))
                   /\ wsm w4 = wsm w
                   /\ exists l, trace w4 = trace w ++ created ++ l).
  { destruct Hfail as [(e & Hwrap & ->)|(p & wa & e & Hwrap & Hpath & ->)].
    - split; [by apply setupCreatedService_wrapper_fails|].
      destruct (os_only_createServiceWrapper serviceName (cfgExePath config)
                  (cfgArgs config) (createWorkingDir config) w3)
        as (Hw & l & Hl).
      rewrite Hwrap in Hw, Hl. cbn in Hw, Hl. split; [done|].
      exists l. by rewrite Hl, <- app_assoc.
    - split; [by eapply setupCreatedService_imagepath_fails|].
      destruct (os_only_createServiceWrapper serviceName (cfgExePath config)
                  (cfgArgs config) (createWorkingDir config) w3)
        as (Hw & l & Hl).
      destruct (os_only_setServiceImagePathDirect serviceName p wa)
        as (Hw' & l' & Hl').
      rewrite Hwrap in Hw, Hl. rewrite Hpath in Hw', Hl'.
      cbn in Hw, Hl, Hw', Hl'. split; [congruence|].
      exists (l ++ l'). by rewrite Hl', Hl, <- !app_assoc. }
  destruct Hsetup as (-> & Hw4 & l & Hl). cbn [fst snd os wsm trace].
  rewrite Hw4. repeat split; try done.
  exists l. unfold issued. cbn [trace].
  rewrite Hl, <- !app_assoc. by rewrite drop_app_length.
Qed.

(** A creation whose image path cannot be written. *)
Lemma C7_create_rolls_back_witness :
  (CreateService demoConfig (demoWorld [] denyImagePath)).1
  = Err "设置服务路径失败: 设置注册表值失败: Access is denied.".
Proof.
  pose (w := demoWorld [] denyImagePath).
  pose (o0 := (os_Stat_IsNotExist (cfgExePath demoConfig) (os w)).2).
  pose (gn := generateServiceName (cfgName demoConfig)
                (mkWorld o0 (wsm w)
                   (trace w ++ [EvStat (cfgExePath demoConfig)]))).
  pose (o2 := (mgr_Connect (os gn.2)).2).
  pose (o3 := (mgr_CreateService gn.1 (createBinaryPath demoConfig)
                 (createServiceConfig demoConfig) o2).2).
  pose (w3 := mkWorld o3 (wsm w)
                (trace w ++ [EvStat (cfgExePath demoConfig); EvConnect;
                             EvCreateService gn.1
                               (createBinaryPath demoConfig)
                               (createServiceConfig demoConfig)])).
  pose (cw := createServiceWrapper gn.1 (cfgExePath demoConfig)
                (cfgArgs demoConfig) (createWorkingDir demoConfig) w3).
  pose (p := match cw.1 with Ok p => p | Err _ => EmptyString end).
  pose (w4 := (setServiceImagePathDirect gn.1 p cw.2).2).
  refine (proj1
    (C7_create_rolls_back demoConfig w gn.2 o0 o2 o3 gn.1 _ _ _ _ _ w4
       "设置服务路径失败: 设置注册表值失败: Access is denied." _)).
  - vm_compute; reflexivity.
  - vm_compute; reflexivity.
  - vm_compute; reflexivity.
  - vm_compute; reflexivity.
  - vm_compute; reflexivity.
  - right. exists p, cw.2, "设置注册表值失败: Access is denied.".
    split; [|split]; vm_compute; reflexivity.
Defined.

(** C10: the record that a successful [CreateService] returns and stores
    has [AutoStart = false] (with status "stopped" and pid 0), although
    the OS service entry was created with the automatic start type, and
    the last thing the call does is to start the task that sleeps one
    second and then starts the service. *)
Theorem C10_created_record_not_autostart {OS : Type} `{WinAPI OS}
    (config : ServiceConfig) (w w' : World OS) (service : Service) :
  CreateService config w = (Ok service, w') ->
  AutoStart service = false
  /\ Status service = "stopped" /\ PID service = 0
  /\ (exists binaryPath c,
        EvCreateService (ID service) binaryPath c ∈ issued w w'
        /\ cfgStartType c = StartAutomatic)
  /\ (exists l,
        issued w w'
        = l ++ [EvGo (TaskAutoStart (1 * Second) (ID service))])
  /\ services (wsm w') !! ID service = Some service.
Proof.
  intros Hcreate.
  destruct (CreateService_Ok_inv _ _ _ _ Hcreate)
    as (serviceName & w3 & w4 & Htr3 & Hw3 & Hsetup & Hreg).
  destruct (setupCreatedService_Ok _ _ _ _ _ Hsetup)
    as (Hid & Hauto & Hst & Hpid).
  destruct (os_only_setupCreatedService serviceName config w3)
    as (_ & l4 & Hl4).
  rewrite Hsetup in Hl4. cbn [snd] in Hl4.
  match type of Hreg with
  | registerService _ _ ?x = _ => set (w5 := x) in *
  end.
  destruct (registerService_spec serviceName service w5)
    as (_ & Hsvc & l5 & Hl5).
  rewrite Hreg in Hsvc, Hl5. cbn [snd] in Hsvc, Hl5.
  assert (Htr : trace w'
                = trace w
                  ++ ([EvStat (cfgExePath config); EvConnect;
                       EvCreateService serviceName (createBinaryPath config)
                         (createServiceConfig config)]
                      ++ l4 ++ [EvClose serviceName; EvDisconnect] ++ l5)
                  ++ [EvGo (TaskAutoStart (1 * Second) serviceName)]).
  { rewrite Hl5. subst w5. cbn [trace]. rewrite Hl4, Htr3.
    by rewrite <- !app_assoc. }
  rewrite Hid. repeat split; try done.
  - exists (createBinaryPath config), (createServiceConfig config).
    split; [|done]. unfold issued. rewrite Htr, <- !app_assoc.
    rewrite drop_app_length. cbn [app].
    apply elem_of_cons. right. apply elem_of_cons. right.
    apply elem_of_cons. by left.
  - eexists. unfold issued. rewrite Htr, drop_app_length. reflexivity.
  - rewrite Hsvc. apply lookup_insert_eq.
Qed.

(** A creation on the scripted system. *)
Lemma C10_created_record_not_autostart_witness :
  (CreateService demoConfig (demoWorld [] (fun _ => false))).1
  = Ok demoCreated
  /\ AutoStart demoCreated = false.
Proof.
  pose (w := demoWorld [] (fun _ => false)).
  split; [vm_compute; reflexivity|].
  refine (proj1
    (C10_created_record_not_autostart demoConfig w
       (CreateService demoConfig w).2 demoCreated _)).
  vm_compute; reflexivity.
Defined.

(** ** Waiting for a state *)

Section WaitForState.

Context {OS : Type} `{ClockLaws OS}.

(** One round of the loop, case by case. *)
Lemma waitLoop_expired (fuel : nat) (n : string) (t : svc.State)
    (deadline : Time) (w : World OS) :
  deadline <= (time_Now (os w)).1 ->
  waitLoop (S fuel) n t deadline w
  = (Done (Some "等待服务状态超时"),
     mkWorld (time_Now (os w)).2 (wsm w) (trace w)).
Proof.
  intros Hlate. cbn [waitLoop]. unfold bind, Now, Time_Before.
  destruct (time_Now (os w)) as [now o1]; cbn [fst snd os wsm trace] in *.
  by destruct (Z.ltb_spec now deadline); [lia|].
Qed.

Lemma waitLoop_query_failed (fuel : nat) (n : string) (t : svc.State)
    (deadline : Time) (w : World OS) (o2 : OS) (err : string) :
  (time_Now (os w)).1 < deadline ->
  Service_Query n (time_Now (os w)).2 = (Err err, o2) ->
  waitLoop (S fuel) n t deadline w
  = (Done (Some (Errorf "查询服务状态失败: " err)),
     mkWorld o2 (wsm w) (trace w ++ [EvQuery n])).
Proof.
  intros Hearly Hq. cbn [waitLoop]. unfold bind, Now, Time_Before, call.
  destruct (time_Now (os w)) as [now o1]; cbn [fst snd os wsm trace] in *.
  destruct (Z.ltb_spec now deadline); [|lia]. cbn [os wsm trace].
  by rewrite Hq.
Qed.

Lemma waitLoop_reached (fuel : nat) (n : string) (t : svc.State)
    (deadline : Time) (w : World OS) (o2 : OS) (status : svc.Status) :
  (time_Now (os w)).1 < deadline ->
  Service_Query n (time_Now (os w)).2 = (Ok status, o2) ->
  svc.State_ status = t ->
  waitLoop (S fuel) n t deadline w
  = (Done None, mkWorld o2 (wsm w) (trace w ++ [EvQuery n])).
Proof.
  intros Hearly Hq Hst. cbn [waitLoop]. unfold bind, Now, Time_Before, call.
  destruct (time_Now (os w)) as [now o1]; cbn [fst snd os wsm trace] in *.
  destruct (Z.ltb_spec now deadline); [|lia]. cbn [os wsm trace].
  rewrite Hq.
  by rewrite decide_True.
Qed.

Lemma waitLoop_start_failed (fuel : nat) (n : string) (deadline : Time)
    (w : World OS) (o2 : OS) (status : svc.Status) :
  (time_Now (os w)).1 < deadline ->
  Service_Query n (time_Now (os w)).2 = (Ok status, o2) ->
  svc.State_ status = svc.Stopped ->
  waitLoop (S fuel) n svc.Running deadline w
  = (Done (Some "服务启动失败"),
     mkWorld o2 (wsm w) (trace w ++ [EvQuery n])).
Proof.
  intros Hearly Hq Hst. cbn [waitLoop]. unfold bind, Now, Time_Before, call.
  destruct (time_Now (os w)) as [now o1]; cbn [fst snd os wsm trace] in *.
  destruct (Z.ltb_spec now deadline); [|lia]. cbn [os wsm trace].
  rewrite Hq, Hst.
  by rewrite decide_False.
Qed.

Lemma waitLoop_again (fuel : nat) (n : string) (t : svc.State)
    (deadline : Time) (w : World OS) (o2 : OS) (status : svc.Status) :
  (time_Now (os w)).1 < deadline ->
  Service_Query n (time_Now (os w)).2 = (Ok status, o2) ->
  svc.State_ status <> t ->
  ~ (t = svc.Running /\ svc.State_ status = svc.Stopped) ->
  waitLoop (S fuel) n t deadline w
  = waitLoop fuel n t deadline
      (mkWorld (time_Sleep (500 * Millisecond) o2) (wsm w)
               (trace w ++ [EvQuery n; EvSleep (500 * Millisecond)])).
Proof.
  intros Hearly Hq Hst Hnf. cbn [waitLoop].
  unfold bind at 1. unfold Now at 1. unfold Time_Before.
  destruct (time_Now (os w)) as [now o1]; cbn [fst snd os wsm trace] in *.
  destruct (Z.ltb_spec now deadline); [|lia].
  unfold bind at 1. unfold call at 1. cbn [os]. rewrite Hq.
  rewrite decide_False by done.
  destruct (bool_decide (t = svc.Running)
            && bool_decide (svc.State_ status = svc.Stopped)) eqn:E.
  { apply andb_prop in E as [E1 E2].
    apply bool_decide_eq_true in E1, E2. by destruct Hnf. }
  unfold bind, call_, call. cbn [fst snd os wsm trace]. by rewrite <- app_assoc.
Qed.

(** With at most [k] half seconds left to the deadline, the loop returns
    within [k] sleeps. *)
Lemma waitLoop_returns (k : nat) :
  forall (fuel : nat) (n : string) (t : svc.State) (deadline : Time)
         (w : World OS),
    (k < fuel)%nat ->
    deadline - (time_Now (os w)).1 <= Z.of_nat k * (500 * Millisecond) ->
    exists e w' m,
      waitLoop fuel n t deadline w = (Done e, w')
      /\ (m <= k)%nat
      /\ (trace w' = trace w ++ polls n m
          \/ trace w' = trace w ++ polls n m ++ [EvQuery n])
      /\ wait_result t e.
Proof.
  induction k as [|k IH]; intros fuel n t deadline w Hfuel Hleft;
    (destruct fuel as [|fuel]; [lia|]).
  - exists (Some "等待服务状态超时"), (mkWorld (time_Now (os w)).2 (wsm w) (trace w)), 0%nat.
    split; [apply waitLoop_expired; lia|]. split; [lia|].
    split; [left; cbn; by rewrite app_nil_r|]. right. right. by left.
  - destruct (Z_lt_le_dec (time_Now (os w)).1 deadline) as [Hearly|Hlate].
    2:{ exists (Some "等待服务状态超时"),
          (mkWorld (time_Now (os w)).2 (wsm w) (trace w)), 0%nat.
        split; [by apply waitLoop_expired|]. split; [lia|].
        split; [left; cbn; by rewrite app_nil_r|]. right. right. by left. }
    destruct (Service_Query n (time_Now (os w)).2) as [[status|err] o2] eqn:Hq.
    2:{ exists (Some (Errorf "查询服务状态失败: " err)),
          (mkWorld o2 (wsm w) (trace w ++ [EvQuery n])), 0%nat.
        split; [by apply waitLoop_query_failed|]. split; [lia|].
        split; [by right|]. right. right. right. by exists err. }
    destruct (decide (svc.State_ status = t)) as [Hst|Hst].
    { exists None, (mkWorld o2 (wsm w) (trace w ++ [EvQuery n])), 0%nat.
      split; [by eapply waitLoop_reached|]. split; [lia|].
      split; [by right|]. by left. }
    destruct (decide (t = svc.Running /\ svc.State_ status = svc.Stopped))
      as [[-> Hstop]|Hnf].
    { exists (Some "服务启动失败"),
        (mkWorld o2 (wsm w) (trace w ++ [EvQuery n])), 0%nat.
      split; [by eapply waitLoop_start_failed|]. split; [lia|].
      split; [by right|]. right. by left. }
    rewrite (waitLoop_again _ _ _ _ _ _ _ Hearly Hq Hst Hnf).
    set (w3 := mkWorld _ _ _).
    destruct (IH fuel n t deadline w3) as (e & w' & m & Hrun & Hm & Htr & He).
    { lia. }
    { subst w3. cbn [os].
      pose proof (Now_keeps (os w)) as K1.
      pose proof (Query_keeps n (time_Now (os w)).2) as K2.
      pose proof (Sleep_advances (500 * Millisecond) o2) as K3.
      rewrite Hq in K2. cbn [snd] in K2. lia. }
    exists e, w', (S m). split; [done|]. split; [lia|]. split; [|done].
    subst w3. cbn [trace] in Htr. cbn [polls replicate concat].
    destruct Htr as [-> | ->]; [left|right]; by rewrite <- !app_assoc.
Qed.


Lemma waitForServiceState_unfold (fuel : nat) (n : string) (t : svc.State)
    (d : Duration) (w : World OS) :
  waitForServiceState fuel n t d w
  = waitLoop fuel n t (Time_Add (time_Now (os w)).1 d)
      (mkWorld (time_Now (os w)).2 (wsm w) (trace w)).
Proof.
  unfold waitForServiceState, bind, Now. by destruct (time_Now (os w)).
Qed.

End WaitForState.

(** C3: [waitForServiceState] with the 30-second timeout is the polling
    loop with the deadline 30 seconds after the clock reading. A round of
    the loop returns the timeout error when the clock has reached the
    deadline; otherwise it queries the state, returns success when it is
    the target state, returns the start-failure error (another error
    than the timeout error) when the target is running and the state is
    stopped, and else sleeps 500 ms and goes round again. With a clock
    that does not run backwards and a sleep that lasts as long as asked,
    it returns after at most 60 rounds of query and sleep. *)
Theorem C3_wait_for_state {OS : Type} `{ClockLaws OS} (fuel : nat)
    (n : string) (t : svc.State) (w : World OS) :
  (60 < fuel)%nat ->
  let deadline := Time_Add (time_Now (os w)).1 (30 * Second) in
  waitForServiceState fuel n t (30 * Second) w
  = waitLoop fuel n t deadline
      (mkWorld (time_Now (os w)).2 (wsm w) (trace w))
  /\ (exists e w' m,
        waitForServiceState fuel n t (30 * Second) w = (Done e, w')
        /\ (m <= 60)%nat
        /\ (issued w w' = polls n m
            \/ issued w w' = polls n m ++ [EvQuery n])
        /\ wait_result t e)
  /\ (forall f w1,
        deadline <= (time_Now (os w1)).1 ->
        (waitLoop (S f) n t deadline w1).1 = Done (Some "等待服务状态超时"))
  /\ (forall f w1 o2 status,
        (time_Now (os w1)).1 < deadline ->
        Service_Query n (time_Now (os w1)).2 = (Ok status, o2) ->
        svc.State_ status = t ->
        (waitLoop (S f) n t deadline w1).1 = Done None)
  /\ (forall f w1 o2 status,
        (time_Now (os w1)).1 < deadline ->
        Service_Query n (time_Now (os w1)).2 = (Ok status, o2) ->
        t = svc.Running ->
        svc.State_ status = svc.Stopped ->
        (waitLoop (S f) n t deadline w1).1 = Done (Some "服务启动失败"))
  /\ (forall f w1 o2 status,
        (time_Now (os w1)).1 < deadline ->
        Service_Query n (time_Now (os w1)).2 = (Ok status, o2) ->
        svc.State_ status <> t ->
        ~ (t = svc.Running /\ svc.State_ status = svc.Stopped) ->
        waitLoop (S f) n t deadline w1
        = waitLoop f n t deadline
            (mkWorld (time_Sleep (500 * Millisecond) o2) (wsm w1)
                     (trace w1 ++ [EvQuery n; EvSleep (500 * Millisecond)])))
  /\ "服务启动失败" <> "等待服务状态超时".
Proof.
  intros Hfuel deadline.
  split; [apply waitForServiceState_unfold|].
  split.
  { rewrite waitForServiceState_unfold. fold deadline.
    set (w0 := mkWorld _ _ _).
    destruct (waitLoop_returns 60 fuel n t deadline w0)
      as (e & w' & m & Hrun & Hm & Htr & He); [done| |].
    { subst w0 deadline. cbn [os]. unfold Time_Add.
      pose proof (Now_keeps (os w)) as K.
      unfold Second, Millisecond. lia. }
    exists e, w', m. split; [done|]. split; [done|]. split; [|done].
    unfold issued. subst w0. cbn [trace] in Htr.
    destruct Htr as [-> | ->]; [left|right]; by rewrite drop_app_length. }
  split.
  { intros f w1 Hlate. by rewrite waitLoop_expired. }
  split.
  { intros f w1 o2 status Hearly Hq Hst.
    by rewrite (waitLoop_reached _ _ _ _ _ _ _ Hearly Hq Hst). }
  split.
  { intros f w1 o2 status Hearly Hq -> Hst.
    by rewrite (waitLoop_start_failed _ _ _ _ _ _ Hearly Hq Hst). }
  split.
  { intros f w1 o2 status Hearly Hq Hst Hnf.
    by apply (waitLoop_again _ _ _ _ _ _ status). }
  discriminate.
Qed.

(** The demo service seen start-pending, then running. *)
Lemma C3_wait_for_state_witness :
  exists e,
    (waitForServiceState 61 "WSM_demo_1700000000" svc.Running (30 * Second)
       (demoWorld [Ok (svc.mkStatus svc.StartPending 0 0);
                   Ok (svc.mkStatus svc.Running 5 4242)]
                  (fun _ => false))).1
    = Done e.
Proof.
  destruct (C3_wait_for_state 61 "WSM_demo_1700000000" svc.Running
              (demoWorld [Ok (svc.mkStatus svc.StartPending 0 0);
                          Ok (svc.mkStatus svc.Running 5 4242)]
                         (fun _ => false)))
    as (_ & (e & w' & m & Hrun & _) & _); [lia|].
  exists e. by rewrite Hrun.
Defined.

(** ** The wrapper supervisor *)

Section WrapperFacts.

Import Wrapper.

Variable strings_Fields : string -> list string.
Variable filepath_Dir : string -> string.
Variable Cmd_Start : Cmd -> result Z.

(** While the target runs and no stop is asked for, the loop goes on;
    it sends the status of each interrogate request back and nothing
    else. *)
Lemma serviceLoop_calm (pre rest : list Sched) :
  forall st,
    forallb calm pre = true ->
    isRunning (esw st) = true ->
    exists l,
      serviceLoop (pre ++ rest) st
      = serviceLoop rest
          (mkState (esw st) (sent st ++ echoes pre) (acts st ++ l)).
Proof.
  induction pre as [|e pre IH]; intros st Hcalm Hrun.
  - exists []. cbn. rewrite !app_nil_r. by destruct st.
  - cbn [forallb] in Hcalm. apply andb_prop in Hcalm as [He Hpre].
    destruct e as [c| |]; [| |done].
    + unfold calm, stops in He. cbn [app serviceLoop].
      unfold echoes. cbn [omap echo].
      destruct (svc.Cmd_ c) eqn:Ec; try (vm_compute in He; discriminate).
      all: cbn [omap list_omap echo]; rewrite Ec.
      all: first
        [ destruct (IH st Hpre Hrun) as [l Hl]; rewrite Hl; exists l;
          reflexivity
        | destruct (IH (send (svc.CurrentStatus c) st) Hpre Hrun) as [l Hl];
          rewrite Hl; exists l; cbn; by rewrite <- app_assoc ].
    + cbn [app serviceLoop]. rewrite Hrun. cbn [negb].
      destruct (IH (act (ActSleep (1 * Second)) st) Hpre Hrun) as [l Hl].
      rewrite Hl. exists (ActSleep (1 * Second) :: l). cbn.
      by rewrite <- app_assoc.
Qed.


(** [Execute] when the target starts. *)
Lemma Execute_started (w : EmbeddedServiceWrapper) (sched : list Sched)
    (pid : Z) :
  Cmd_Start (targetCommand strings_Fields filepath_Dir (config w)) = Ok pid ->
  Execute strings_Fields filepath_Dir Cmd_Start w sched
  = serviceLoop sched
      (mkState
         (mkWrapper (serviceName w) (config w)
            (Some (mkCmd (cfgExePath (config w))
                     (CmdArgs (targetCommand strings_Fields filepath_Dir
                                 (config w)))
                     (Dir (targetCommand strings_Fields filepath_Dir
                             (config w)))
                     true (Some pid)))
            true)
         [svc.mkStatus svc.StartPending 0 0;
          svc.mkStatus svc.Running
            (Z.lor svc.AcceptStop svc.AcceptShutdown) 0]
         [ActGoMonitor]).
Proof.
  intros Hstart. unfold Execute, startTargetProcess. cbn [esw send].
  rewrite Hstart. reflexivity.
Qed.

End WrapperFacts.



(** * Further properties *)

(** ** The status cache: remove, clear, overwrite, sweep *)

(** X1: after [Remove] of an id, [Get] does not find it, whatever the
    time, and finds every other id as before; after [Clear], [Get] finds
    nothing; neither changes the time-to-live. *)
Theorem X1_cache_Remove_Clear (c : ServiceStatusCache) (id : string) :
  (forall now, Cache_Get now id (Cache_Remove id c) = None)
  /\ (forall now id', id' <> id ->
        Cache_Get now id' (Cache_Remove id c) = Cache_Get now id' c)
  /\ (forall now id', Cache_Get now id' (Cache_Clear c) = None)
  /\ ttl (Cache_Remove id c) = ttl c
  /\ ttl (Cache_Clear c) = ttl c.
Proof.
  split; [|split; [|split; [|split]]]; try reflexivity.
  - intros now. unfold Cache_Get, Cache_Remove; cbn.
    by rewrite lookup_delete_eq.
  - intros now id' Hne. unfold Cache_Get, Cache_Remove; cbn.
    by rewrite lookup_delete_ne.
Qed.

(** X2: [Set] replaces what the cache held for the id (a second [Set]
    makes the first one as if it had not happened) and leaves the entry
    of every other id as it was. *)
Theorem X2_cache_Set_overwrites (c : ServiceStatusCache) (id : string)
    (t1 t2 : Time) (s1 s2 : string) (p1 p2 : Z) :
  Cache_Set t2 id s2 p2 (Cache_Set t1 id s1 p1 c) = Cache_Set t2 id s2 p2 c
  /\ (forall now id', id' <> id ->
        Cache_Get now id' (Cache_Set t1 id s1 p1 c) = Cache_Get now id' c).
Proof.
  split.
  - unfold Cache_Set; cbn. by rewrite insert_insert_eq.
  - intros now id' Hne. unfold Cache_Get, Cache_Set; cbn.
    by rewrite lookup_insert_ne.
Qed.

Lemma Time_Sub_mono (t t' u : Time) : t <= t' -> Time_Sub t u <= Time_Sub t' u.
Proof.
  unfold Time_Sub, maxDuration, minDuration. intros Hle.
  repeat match goal with
         | |- context [?a >? ?b] => destruct (Z.gtb_spec a b)
         | |- context [?a <? ?b] => destruct (Z.ltb_spec a b)
         end; lia.
Qed.

(** X3: a sweep is invisible to readers and sweeps compose. At the time
    of the sweep and at any later time, [Get] returns after
    [CleanExpired] what it returned without it; the sweep only drops
    entries; and a sweep followed by a later sweep leaves what the later
    sweep alone leaves, so the periodic sweeps of the cleanup routine
    never drop an entry that a reader could still get. *)
Theorem X3_cache_sweep_invisible (c : ServiceStatusCache) (now now' : Time)
    (id : string) :
  now <= now' ->
  Cache_Get now' id (Cache_CleanExpired now c) = Cache_Get now' id c
  /\ (forall e, cache (Cache_CleanExpired now c) !! id = Some e ->
                cache c !! id = Some e)
  /\ cache (Cache_CleanExpired now' (Cache_CleanExpired now c)) !! id
     = cache (Cache_CleanExpired now' c) !! id.
Proof.
  intros Hle. split; [|split].
  - unfold Cache_Get. rewrite CleanExpired_lookup.
    change (ttl (Cache_CleanExpired now c)) with (ttl c).
    destruct (cache c !! id) as [e|]; [|done].
    destruct (Z.gtb_spec (Time_Sub now (cTimestamp e)) (ttl c)); [|done].
    pose proof (Time_Sub_mono now now' (cTimestamp e) Hle).
    destruct (Z.gtb_spec (Time_Sub now' (cTimestamp e)) (ttl c)); [done|lia].
  - intros e. rewrite CleanExpired_lookup.
    destruct (cache c !! id) as [e'|]; [|done]. by destruct (_ >? _).
  - rewrite (CleanExpired_lookup now' (Cache_CleanExpired now c)).
    change (ttl (Cache_CleanExpired now c)) with (ttl c).
    rewrite !CleanExpired_lookup.
    destruct (cache c !! id) as [e|]; [|done].
    destruct (Z.gtb_spec (Time_Sub now (cTimestamp e)) (ttl c)); [|done].
    pose proof (Time_Sub_mono now now' (cTimestamp e) Hle).
    destruct (Z.gtb_spec (Time_Sub now' (cTimestamp e)) (ttl c)); [done|lia].
Qed.

(** An entry set at one instant, a sweep seven seconds later, a reader
    eight seconds later. *)
Lemma X3_cache_sweep_invisible_witness :
  Cache_Get 1700000008000000000 "WSM_demo_1700000000"
    (Cache_CleanExpired 1700000007000000000
       (Cache_Set 1700000000000000000 "WSM_demo_1700000000" "running" 123
                  NewServiceStatusCache))
  = Cache_Get 1700000008000000000 "WSM_demo_1700000000"
      (Cache_Set 1700000000000000000 "WSM_demo_1700000000" "running" 123
                 NewServiceStatusCache).
Proof.
  refine (proj1 (X3_cache_sweep_invisible _ _ _ _ _)). lia.
Defined.

(** ** The wrapper: how [Execute] ends, and the command line *)

(** X4: [IsServiceWrapperMode] answers true exactly when the process has
    at least three arguments and the second is [--service-wrapper]; the
    name it returns is then the third argument, and the empty string
    otherwise. *)
Theorem X4_IsServiceWrapperMode_spec (args : list string) :
  ((IsServiceWrapperMode args).1 = true
   <-> (3 <= length args)%nat /\ args !! 1%nat = Some "--service-wrapper")
  /\ ((IsServiceWrapperMode args).1 = true ->
      args !! 2%nat = Some (IsServiceWrapperMode args).2)
  /\ ((IsServiceWrapperMode args).1 = false ->
      (IsServiceWrapperMode args).2 = EmptyString).
Proof.
  destruct args as [|a0 [|flag [|name rest]]]; cbn;
    try (split; [split; [discriminate|intros [? ?]; first [lia|discriminate]]
                |split; [discriminate|done]]).
  destruct (decide (flag = "--service-wrapper")) as [->|Hne]; cbn.
  - split; [split; [intros _; split; [lia|done]|done]|]. split; done.
  - split; [split; [discriminate|intros [_ [= ?]]; done]|].
    split; [discriminate|done].
Qed.

Lemma X4_IsServiceWrapperMode_spec_witness :
  ["wsm.exe"; "--service-wrapper"; "WSM_demo_1700000000"] !! 2%nat
  = Some (IsServiceWrapperMode
            ["wsm.exe"; "--service-wrapper"; "WSM_demo_1700000000"]).2.
Proof.
  refine (proj1 (proj2 (X4_IsServiceWrapperMode_spec _)) _). reflexivity.
Defined.

Section WrapperEnd.

Import Wrapper.

Variable strings_Fields : string -> list string.
Variable filepath_Dir : string -> string.
Variable Cmd_Start : Cmd -> result Z.

(** The loop does not touch the command of the wrapper. *)
Lemma serviceLoop_returned (sched : list Sched) :
  forall st st' ec code,
    serviceLoop sched st = (st', Returned ec code) ->
    is_Some (process (esw st)) ->
    (exists mid, sent st' = sent st ++ mid ++ [svc.mkStatus svc.Stopped 0 0])
    /\ ec = false /\ code = 0 /\ isRunning (esw st') = false.
Proof.
  induction sched as [|e sched IH]; intros st st' ec code; [discriminate|].
  destruct e as [c| |]; cbn [serviceLoop].
  - destruct (svc.Cmd_ c).
    1,5: intros [= <- <- <-] [cmd Hcmd]; unfold stopTargetProcess;
      cbn [esw send]; rewrite Hcmd;
      destruct (isRunning (esw st)) eqn:Hrun; cbn;
      (split; [exists [svc.mkStatus svc.StopPending 0 0];
               by rewrite <- app_assoc|done]).
    3:{ intros Hrun Hp.
        destruct (IH _ _ _ _ Hrun Hp) as ([mid Hmid] & ? & ? & ?).
        split; [|done]. exists (svc.CurrentStatus c :: mid).
        rewrite Hmid. cbn. by rewrite <- app_assoc. }
    all: intros Hrun Hp; by apply (IH _ _ _ _ Hrun Hp).
  - destruct (isRunning (esw st)) eqn:Hrun; cbn [negb].
    + intros Hloop Hp.
      destruct (IH _ _ _ _ Hloop Hp) as ([mid Hmid] & ? & ? & ?).
      split; [|done]. by exists mid.
    + intros [= <- <- <-] _. cbn. split; [by exists []|done].
  - intros Hloop [cmd Hcmd]. unfold monitorTargetProcess in Hloop.
    rewrite Hcmd in Hloop.
    destruct (IH _ _ _ _ Hloop) as ([mid Hmid] & ? & ? & ?).
    { cbn. by rewrite Hcmd. }
    split; [|done]. by exists mid.
Qed.

(** A kill has a stop request behind it, and hits the process of the
    command the wrapper holds. *)
Lemma serviceLoop_kill (sched : list Sched) :
  forall st p,
    ActKill p ∈ acts (serviceLoop sched st).1 ->
    ActKill p ∈ acts st
    \/ ((exists c, Request c ∈ sched /\ stops c = true)
        /\ exists cmd, process (esw st) = Some cmd
                       /\ default 0 (Process cmd) = p).
Proof.
  induction sched as [|e sched IH]; intros st p; [by left|].
  assert (Hmore : forall st2,
            process (esw st2) = process (esw st) ->
            (ActKill p ∈ acts st2 -> ActKill p ∈ acts st) ->
            ActKill p ∈ acts (serviceLoop sched st2).1 ->
            ActKill p ∈ acts st
            \/ ((exists c, Request c ∈ e :: sched /\ stops c = true)
                /\ exists cmd, process (esw st) = Some cmd
                               /\ default 0 (Process cmd) = p)).
  { intros st2 Hp Hacts Hin.
    destruct (IH st2 p Hin) as [Hold|[(c & Hc & Hs) Hcmd]]; [left; auto|].
    right. split; [exists c; split; [by right|done]|by rewrite <- Hp]. }
  destruct e as [c| |]; cbn [serviceLoop].
  - destruct (svc.Cmd_ c) eqn:Ec.
    1,5: cbn [fst]; unfold stopTargetProcess; cbn [esw send acts];
      destruct (process (esw st)) as [cmd|] eqn:Hcmd; [|by left];
      destruct (isRunning (esw st)); [|by left];
      cbn; rewrite !elem_of_app, !list_elem_of_singleton;
      intros [[Hin|[= ->]]|[=]]; [by left|right];
      (split; [exists c; split; [by left|unfold stops; by rewrite Ec]
              |by exists cmd]).
    all: by apply Hmore.
  - destruct (isRunning (esw st)); cbn [negb]; [|by left].
    apply Hmore; [done|]. cbn. rewrite elem_of_app, list_elem_of_singleton.
    by intros [?|[=]].
  - apply Hmore; unfold monitorTargetProcess;
      destruct (process (esw st)) eqn:E; cbn; try rewrite E; done.
Qed.

(** After the target has exited, the first round without a request ends
    the loop; requests that are only logged do not. *)
Lemma serviceLoop_exited (mid rest : list Sched) :
  forall st,
    forallb quiet mid = true ->
    isRunning (esw st) = false ->
    serviceLoop (mid ++ NoRequest :: rest) st
    = (send (svc.mkStatus svc.Stopped 0 0) st, Returned false 0).
Proof.
  induction mid as [|e mid IH]; intros st Hq Hrun.
  - cbn. by rewrite Hrun.
  - cbn [forallb] in Hq. apply andb_prop in Hq as [He Hmid].
    destruct e as [c| |]; [| |done]; cbn [app serviceLoop].
    + unfold quiet in He. destruct (svc.Cmd_ c); try done; by apply IH.
    + by rewrite Hrun.
Qed.

(** Quiet rounds while the target runs: the loop only sleeps. *)
Lemma serviceLoop_quiet (pre rest : list Sched) :
  forall st,
    forallb quiet pre = true ->
    isRunning (esw st) = true ->
    exists n,
      serviceLoop (pre ++ rest) st
      = serviceLoop rest
          (mkState (esw st) (sent st)
                   (acts st ++ replicate n (ActSleep (1 * Second)))).
Proof.
  induction pre as [|e pre IH]; intros st Hq Hrun.
  - exists 0%nat. cbn. rewrite app_nil_r. by destruct st.
  - cbn [forallb] in Hq. apply andb_prop in Hq as [He Hpre].
    destruct e as [c| |]; [| |done]; cbn [app serviceLoop].
    + unfold quiet in He. destruct (svc.Cmd_ c); try done; by apply IH.
    + rewrite Hrun. cbn [negb].
      destruct (IH (act (ActSleep (1 * Second)) st) Hpre Hrun) as [n Hn].
      exists (S n). rewrite Hn. cbn. by rewrite <- app_assoc.
Qed.

End WrapperEnd.

(** X5: whenever [Execute] returns, the first status it has sent is
    start-pending and the last one is stopped, the service-specific flag
    is false, and the exit code is 1 when the target could not be started
    and 0 when it was; in the second case the wrapper holds the target as
    not running. *)
Theorem X5_Execute_ends_stopped (strings_Fields : string -> list string)
    (filepath_Dir : string -> string) (Cmd_Start : Wrapper.Cmd -> result Z)
    (w : Wrapper.EmbeddedServiceWrapper) (sched : list Wrapper.Sched)
    (st : Wrapper.State) (ec : bool) (code : Z) :
  Wrapper.Execute strings_Fields filepath_Dir Cmd_Start w sched
  = (st, Wrapper.Returned ec code) ->
  (exists mid, Wrapper.sent st
               = svc.mkStatus svc.StartPending 0 0
                 :: mid ++ [svc.mkStatus svc.Stopped 0 0])
  /\ ec = false
  /\ ((code = 1
       /\ exists err,
            Cmd_Start (Wrapper.targetCommand strings_Fields filepath_Dir
                         (Wrapper.config w)) = Err err)
      \/ (code = 0 /\ Wrapper.isRunning (Wrapper.esw st) = false
          /\ exists pid,
               Cmd_Start (Wrapper.targetCommand strings_Fields filepath_Dir
                            (Wrapper.config w)) = Ok pid)).
Proof.
  destruct (Cmd_Start (Wrapper.targetCommand strings_Fields filepath_Dir
                         (Wrapper.config w))) as [pid|err] eqn:Hstart.
  - rewrite (Execute_started _ _ _ _ _ _ Hstart). intros Hloop.
    apply serviceLoop_returned in Hloop as ([mid Hmid] & -> & -> & Hrun);
      [|by eexists].
    split; [|split; [done|]].
    + cbn in Hmid. rewrite Hmid. by eexists (_ :: mid).
    + right. split; [done|]. split; [done|]. by exists pid.
  - unfold Wrapper.Execute, Wrapper.startTargetProcess.
    cbn [Wrapper.esw Wrapper.send]. rewrite Hstart.
    intros [= <- <- <-]. cbn. split; [by exists []|]. split; [done|].
    left. split; [done|]. by exists err.
Qed.

(** The demo target, stopped by a shutdown after an idle round. *)
Lemma X5_Execute_ends_stopped_witness :
  exists mid,
    Wrapper.sent
      (Wrapper.Execute Wrapper.demoFields Wrapper.demoDir Wrapper.demoStart
         Wrapper.demoWrapper
         [Wrapper.NoRequest;
          Wrapper.Request
            (svc.mkChangeRequest svc.Shutdown
               (svc.mkStatus svc.Running 5 0))]).1
    = svc.mkStatus svc.StartPending 0 0
      :: mid ++ [svc.mkStatus svc.Stopped 0 0].
Proof.
  pose (sched := [Wrapper.NoRequest;
                  Wrapper.Request
                    (svc.mkChangeRequest svc.Shutdown
                       (svc.mkStatus svc.Running 5 0))]).
  pose (r := Wrapper.Execute Wrapper.demoFields Wrapper.demoDir
               Wrapper.demoStart Wrapper.demoWrapper sched).
  refine (proj1
    (X5_Execute_ends_stopped Wrapper.demoFields Wrapper.demoDir
       Wrapper.demoStart Wrapper.demoWrapper sched r.1 false 0 _)).
  vm_compute. reflexivity.
Defined.

(** X6: when the target starts and later exits by itself, the next round
    of the loop that finds no request ends the service: the statuses sent
    are start-pending, running, stopped, [Execute] returns exit code 0,
    and the target is neither killed nor waited for by the loop; all the
    loop has done is sleep, one second a round. Requests that are only
    logged, before or after the exit, change nothing. *)
Theorem X6_Execute_target_exits (strings_Fields : string -> list string)
    (filepath_Dir : string -> string) (Cmd_Start : Wrapper.Cmd -> result Z)
    (w : Wrapper.EmbeddedServiceWrapper) (pid : Z)
    (pre mid rest : list Wrapper.Sched) :
  Cmd_Start (Wrapper.targetCommand strings_Fields filepath_Dir
               (Wrapper.config w)) = Ok pid ->
  forallb Wrapper.quiet pre = true ->
  forallb Wrapper.quiet mid = true ->
  let r := Wrapper.Execute strings_Fields filepath_Dir Cmd_Start w
             (pre ++ Wrapper.TargetExited :: mid
                  ++ Wrapper.NoRequest :: rest) in
  Wrapper.sent r.1
  = [svc.mkStatus svc.StartPending 0 0;
     svc.mkStatus svc.Running (Z.lor svc.AcceptStop svc.AcceptShutdown) 0;
     svc.mkStatus svc.Stopped 0 0]
  /\ r.2 = Wrapper.Returned false 0
  /\ (exists n, Wrapper.acts r.1
                = Wrapper.ActGoMonitor
                  :: replicate n (Wrapper.ActSleep (1 * Second)))
  /\ Wrapper.isRunning (Wrapper.esw r.1) = false.
Proof.
  intros Hstart Hpre Hmid r. subst r.
  rewrite (Execute_started _ _ _ _ _ _ Hstart).
  match goal with
  | |- context [Wrapper.serviceLoop _ ?st] => set (st0 := st)
  end.
  destruct (serviceLoop_quiet pre
              (Wrapper.TargetExited :: mid ++ Wrapper.NoRequest :: rest)
              st0 Hpre eq_refl) as [n Hn].
  rewrite Hn. cbn [Wrapper.serviceLoop].
  rewrite serviceLoop_exited; [|done|done].
  subst st0. cbn. split; [done|]. split; [done|]. split; [|done].
  by exists n.
Qed.

Lemma X6_Execute_target_exits_witness :
  (Wrapper.Execute Wrapper.demoFields Wrapper.demoDir Wrapper.demoStart
     Wrapper.demoWrapper
     ([Wrapper.NoRequest]
      ++ Wrapper.TargetExited
      :: [Wrapper.Request
            (svc.mkChangeRequest svc.PowerEvent
               (svc.mkStatus svc.Running 5 0))]
      ++ Wrapper.NoRequest :: [])).2
  = Wrapper.Returned false 0.
Proof.
  refine (proj1 (proj2
    (X6_Execute_target_exits Wrapper.demoFields Wrapper.demoDir
       Wrapper.demoStart Wrapper.demoWrapper 4242 _ _ [] _ _ _)));
    reflexivity.
Defined.

(** X7: while the target runs, every interrogate request is answered with
    the status the request carries: with a stop or shutdown request after
    rounds that ask for no stop, the statuses sent are start-pending,
    running, the statuses of the interrogate requests in the order they
    came, stop-pending, stopped. *)
Theorem X7_Execute_echoes_interrogate
    (strings_Fields : string -> list string)
    (filepath_Dir : string -> string) (Cmd_Start : Wrapper.Cmd -> result Z)
    (w : Wrapper.EmbeddedServiceWrapper) (pid : Z)
    (pre rest : list Wrapper.Sched) (c : svc.ChangeRequest) :
  Cmd_Start (Wrapper.targetCommand strings_Fields filepath_Dir
               (Wrapper.config w)) = Ok pid ->
  forallb Wrapper.calm pre = true ->
  Wrapper.stops c = true ->
  Wrapper.sent
    (Wrapper.Execute strings_Fields filepath_Dir Cmd_Start w
       (pre ++ Wrapper.Request c :: rest)).1
  = [svc.mkStatus svc.StartPending 0 0;
     svc.mkStatus svc.Running (Z.lor svc.AcceptStop svc.AcceptShutdown) 0]
    ++ Wrapper.echoes pre
    ++ [svc.mkStatus svc.StopPending 0 0; svc.mkStatus svc.Stopped 0 0].
Proof.
  intros Hstart Hcalm Hstops.
  rewrite (Execute_started _ _ _ _ _ _ Hstart).
  match goal with
  | |- context [Wrapper.serviceLoop _ ?st] => set (st0 := st)
  end.
  destruct (serviceLoop_calm pre (Wrapper.Request c :: rest) st0 Hcalm
              eq_refl) as [l Hl].
  rewrite Hl. subst st0. cbn [Wrapper.esw Wrapper.sent Wrapper.acts].
  cbn [Wrapper.serviceLoop]. unfold Wrapper.stops in Hstops.
  destruct (svc.Cmd_ c); try done; cbn; by rewrite <- app_assoc.
Qed.

Lemma X7_Execute_echoes_interrogate_witness :
  Wrapper.sent
    (Wrapper.Execute Wrapper.demoFields Wrapper.demoDir Wrapper.demoStart
       Wrapper.demoWrapper
       ([Wrapper.Request
           (svc.mkChangeRequest svc.Interrogate
              (svc.mkStatus svc.Running 5 4242));
         Wrapper.NoRequest]
        ++ Wrapper.Request
             (svc.mkChangeRequest svc.Stop (svc.mkStatus svc.Running 5 0))
           :: [])).1
  = [svc.mkStatus svc.StartPending 0 0;
     svc.mkStatus svc.Running (Z.lor svc.AcceptStop svc.AcceptShutdown) 0]
    ++ [svc.mkStatus svc.Running 5 4242]
    ++ [svc.mkStatus svc.StopPending 0 0; svc.mkStatus svc.Stopped 0 0].
Proof.
  refine (X7_Execute_echoes_interrogate Wrapper.demoFields Wrapper.demoDir
            Wrapper.demoStart Wrapper.demoWrapper 4242 _ [] _ _ _ _);
    reflexivity.
Defined.

(** X8: [Execute] kills a process only on a stop or shutdown request, and
    the process it kills is the target it has started: whatever the
    requests and whenever the target exits, a kill among its actions
    means the schedule holds such a request and the start has given that
    process id. *)
Theorem X8_Execute_kills_on_request (strings_Fields : string -> list string)
    (filepath_Dir : string -> string) (Cmd_Start : Wrapper.Cmd -> result Z)
    (w : Wrapper.EmbeddedServiceWrapper) (sched : list Wrapper.Sched)
    (p : Z) :
  Wrapper.ActKill p
    ∈ Wrapper.acts
        (Wrapper.Execute strings_Fields filepath_Dir Cmd_Start w sched).1 ->
  (exists c, Wrapper.Request c ∈ sched /\ Wrapper.stops c = true)
  /\ Cmd_Start (Wrapper.targetCommand strings_Fields filepath_Dir
                  (Wrapper.config w)) = Ok p.
Proof.
  destruct (Cmd_Start (Wrapper.targetCommand strings_Fields filepath_Dir
                         (Wrapper.config w))) as [pid|err] eqn:Hstart.
  - rewrite (Execute_started _ _ _ _ _ _ Hstart). intros Hin.
    apply serviceLoop_kill in Hin as [Hin|[Hc (cmd & Hcmd & Hp)]].
    + cbn in Hin. apply list_elem_of_singleton in Hin. discriminate.
    + split; [done|]. cbn in Hcmd. injection Hcmd as <-. cbn in Hp.
      by subst.
  - unfold Wrapper.Execute, Wrapper.startTargetProcess.
    cbn [Wrapper.esw Wrapper.send]. rewrite Hstart. cbn.
    intros Hin. by apply elem_of_nil in Hin.
Qed.

Lemma X8_Execute_kills_on_request_witness :
  Wrapper.demoStart
    (Wrapper.targetCommand Wrapper.demoFields Wrapper.demoDir
       (Wrapper.config Wrapper.demoWrapper))
  = Ok 4242.
Proof.
  refine (proj2
    (X8_Execute_kills_on_request Wrapper.demoFields Wrapper.demoDir
       Wrapper.demoStart Wrapper.demoWrapper
       [Wrapper.Request
          (svc.mkChangeRequest svc.Stop (svc.mkStatus svc.Running 5 0))]
       4242 _)).
  vm_compute. apply list_elem_of_further, list_elem_of_here.
Defined.

(** ** Operations that stop before they reach the service *)

(** X9: on an id that is not in the registry, [StartService],
    [StopService], [DeleteService] and [SetServiceAutoStart] return the
    not-found error for that id without a single call to the system and
    without touching the manager, and [GetServiceAutoStart] answers
    false. *)
Theorem X9_unknown_service {OS : Type} `{WinAPI OS} `{!WinAPIConfig OS}
    (fuel : nat) (serviceID : string) (enabled : bool) (w : World OS) :
  services (wsm w) !! serviceID = None ->
  StartService fuel serviceID w
  = (Done (Some (Errorf "服务不存在: " serviceID)), w)
  /\ StopService fuel serviceID w
     = (Done (Some (Errorf "服务不存在: " serviceID)), w)
  /\ DeleteService fuel serviceID w
     = (Done (Some (Errorf "服务不存在: " serviceID)), w)
  /\ SetServiceAutoStart serviceID enabled w
     = (Some (Errorf "服务不存在: " serviceID), w)
  /\ GetServiceAutoStart serviceID (wsm w) = false.
Proof.
  intros Hnone.
  unfold StartService, StopService, DeleteService, SetServiceAutoStart,
    GetServiceAutoStart, bind, getManager.
  by rewrite Hnone.
Qed.

Lemma X9_unknown_service_witness :
  (StopService 61 "WSM_other_1700000000"
     (demoWorld [] (fun _ => false))).1
  = Done (Some "服务不存在: WSM_other_1700000000").
Proof.
  refine (f_equal fst (proj1 (proj2
    (X9_unknown_service 61 "WSM_other_1700000000" true
       (demoWorld [] (fun _ => false)) _))) ).
  vm_compute. reflexivity.
Defined.

(** X10: when the connection to the service control manager fails, every
    operation returns the connection error and has issued the connect
    call only (no disconnect follows, no service is opened), the manager
    is as before; [GetServices] refreshes no record and starts no save
    task, and the application's [GetServices] hands out the empty list
    whatever the registry holds. *)
Theorem X10_no_connection {OS : Type} `{WinAPI OS} `{!WinAPIConfig OS}
    (fuel : nat) (serviceID : string) (rec : Service) (enabled : bool)
    (w : World OS) (err : string) (o1 : OS) :
  mgr_Connect (os w) = (Some err, o1) ->
  services (wsm w) !! serviceID = Some rec ->
  let msg := Errorf "连接服务控制管理器失败: " err in
  let w' := mkWorld o1 (wsm w) (trace w ++ [EvConnect]) in
  GetServices w = (Err msg, w')
  /\ App_GetServices w = ([], w')
  /\ StartService fuel serviceID w = (Done (Some msg), w')
  /\ StopService fuel serviceID w = (Done (Some msg), w')
  /\ DeleteService fuel serviceID w = (Done (Some msg), w')
  /\ SetServiceAutoStart serviceID enabled w = (Some msg, w').
Proof.
  intros Hconn Hrec msg w'.
  assert (HG : GetServices w = (Err msg, w')).
  { unfold GetServices, withSCM, bind, getManager, call.
    by rewrite Hconn. }
  split; [done|]. split.
  { unfold App_GetServices, bind. by rewrite HG. }
  unfold StartService, StopService, DeleteService, SetServiceAutoStart,
    bind, getManager.
  rewrite Hrec. unfold withSCM, bind, call. by rewrite Hconn.
Qed.

Lemma X10_no_connection_witness :
  (App_GetServices (demoWorld [] denyConnect)).1 = [].
Proof.
  refine (f_equal fst (proj1 (proj2
    (X10_no_connection 61 "WSM_demo_1700000000" demoService true
       (demoWorld [] denyConnect) "Access is denied."
       (demoFake [] denyConnect) _ _)))); vm_compute; reflexivity.
Defined.

(** ** Creation: the checks before the service entry exists *)

(** X11: [CreateService] on a path where no file exists returns the
    missing-executable error that names the path; the only call it has
    made is the [Stat] of the path (no name is generated, the service
    control manager is not contacted), and the manager is as before. *)
Theorem X11_create_missing_executable {OS : Type} `{WinAPI OS}
    (config : ServiceConfig) (w : World OS) (o0 : OS) :
  os_Stat_IsNotExist (cfgExePath config) (os w) = (true, o0) ->
  CreateService config w
  = (Err (Errorf "可执行文件不存在: " (cfgExePath config)),
     mkWorld o0 (wsm w) (trace w ++ [EvStat (cfgExePath config)])).
Proof.
  intros Hstat. unfold CreateService, bind, call. by rewrite Hstat.
Qed.

Lemma X11_create_missing_executable_witness :
  (CreateService demoConfig (demoWorld [] denyStat)).1
  = Err "可执行文件不存在: C:\apps\demo.exe".
Proof.
  refine (f_equal fst
    (X11_create_missing_executable demoConfig (demoWorld [] denyStat)
       (demoFake [] denyStat) _)).
  vm_compute. reflexivity.
Defined.

(** X12: the service name is made of the display name, with every
    character that is no ASCII letter or digit replaced, and of the Unix
    second of the clock reading; when the registry holds that name
    already, [CreateService] returns the name-taken error with the name,
    having made the [Stat] call only, and leaves the manager as it
    was. *)
Theorem X12_create_name_taken {OS : Type} `{WinAPI OS}
    (config : ServiceConfig) (w : World OS) (o0 : OS) (old : Service) :
  os_Stat_IsNotExist (cfgExePath config) (os w) = (false, o0) ->
  let serviceName :=
    "WSM_" +:+ strings_Map cleanRune (cfgName config) +:+ "_"
    +:+ fmt_d (Time_Unix (time_Now o0).1) in
  services (wsm w) !! serviceName = Some old ->
  CreateService config w
  = (Err (Errorf "服务名称已存在: " serviceName),
     mkWorld (time_Now o0).2 (wsm w)
             (trace w ++ [EvStat (cfgExePath config)])).
Proof.
  intros Hstat serviceName Hold.
  unfold CreateService.
  unfold bind at 1. unfold call at 1. rewrite Hstat.
  unfold bind at 1. rewrite generateServiceName_spec. cbn [os wsm trace].
  unfold bind at 1. unfold getManager at 1. cbn [wsm].
  fold serviceName. by rewrite Hold.
Qed.

(** The same display name twice within one second: the second creation
    finds the name of the first. *)
Lemma X12_create_name_taken_witness :
  (CreateService demoConfig
     (CreateService demoConfig (demoWorld [] (fun _ => false))).2).1
  = Err "服务名称已存在: WSM_demo_1700000100".
Proof.
  pose (w1 := (CreateService demoConfig (demoWorld [] (fun _ => false))).2).
  refine (eq_trans
    (f_equal fst
       (X12_create_name_taken demoConfig w1 (os w1) demoCreated _ _)) _);
    vm_compute; reflexivity.
Defined.

(** X13: when the service control manager refuses to create the service
    entry, [CreateService] returns the creation error; it has made the
    [Stat], connect, create and disconnect calls and no other (there is
    no entry to delete and no registry value is written), and the manager
    is as before. *)
Theorem X13_create_refused {OS : Type} `{WinAPI OS}
    (config : ServiceConfig) (w w1 : World OS) (o0 o2 o3 : OS)
    (serviceName err : string) :
  os_Stat_IsNotExist (cfgExePath config) (os w) = (false, o0) ->
  generateServiceName (cfgName config)
    (mkWorld o0 (wsm w) (trace w ++ [EvStat (cfgExePath config)]))
  = (serviceName, w1) ->
  services (wsm w) !! serviceName = None ->
  mgr_Connect (os w1) = (None, o2) ->
  mgr_CreateService serviceName (createBinaryPath config)
    (createServiceConfig config) o2 = (Some err, o3) ->
  CreateService config w
  = (Err (Errorf "创建Windows服务失败: " err),
     mkWorld (mgr_Disconnect o3) (wsm w)
       (trace w ++ [EvStat (cfgExePath config); EvConnect;
                    EvCreateService serviceName (createBinaryPath config)
                      (createServiceConfig config);
                    EvDisconnect])).
Proof.
  intros Hstat Hname Hfree Hconn Hcreate.
  rewrite generateServiceName_spec in Hname. cbn [os wsm trace] in Hname.
  injection Hname as Hn Hw1. subst w1. cbn [os] in Hconn.
  unfold CreateService.
  unfold bind at 1. unfold call at 1. rewrite Hstat.
  unfold bind at 1. rewrite generateServiceName_spec. cbn [os wsm trace].
  unfold bind at 1. unfold getManager at 1. cbn [wsm]. rewrite Hn, Hfree.
  unfold bind at 1. unfold withSCM.
  unfold bind at 1. unfold call at 1. cbn [os]. rewrite Hconn.
  unfold bind at 1. unfold bind at 1. unfold call at 1. cbn [os wsm trace].
  rewrite Hcreate. unfold bind, call_, call, ret. cbn [os wsm trace].
  by rewrite <- !app_assoc.
Qed.

Lemma X13_create_refused_witness :
  (CreateService demoConfig (demoWorld [] denyCreateService)).1
  = Err "创建Windows服务失败: Access is denied.".
Proof.
  pose (w := demoWorld [] denyCreateService).
  pose (gn := generateServiceName (cfgName demoConfig)
                (mkWorld (os w) (wsm w)
                   (trace w ++ [EvStat (cfgExePath demoConfig)]))).
  refine (eq_trans
    (f_equal fst
       (X13_create_refused demoConfig w gn.2 (os w) (os gn.2) (os gn.2)
          gn.1 "Access is denied." _ _ _ _ _)) _);
    vm_compute; reflexivity.
Defined.

(** ** Creation: all or nothing *)

Section CreationOutcome.

Context {OS : Type} `{WinAPI OS}.

(** Every way [CreateService] can end. *)
Lemma CreateService_inv (config : ServiceConfig) (w w' : World OS)
    (x : result Service) :
  CreateService config w = (x, w') ->
  ((exists e, x = Err e) /\ wsm w' = wsm w)
  \/ (exists service,
        x = Ok service
        /\ services (wsm w) !! ID service = None
        /\ wsm w' = set_services (<[ID service := service]> (services (wsm w)))
                                 (wsm w)).
Proof.
  unfold CreateService.
  unfold bind at 1. unfold call at 1.
  destruct (os_Stat_IsNotExist _ _) as [[|] o0].
  { intros [= <- <-]. left. split; [by eexists|done]. }
  unfold bind at 1. rewrite generateServiceName_spec. cbn [os wsm trace].
  set (serviceName := "WSM_" +:+ _).
  unfold bind at 1. unfold getManager at 1. cbn [wsm].
  destruct (services (wsm w) !! serviceName) eqn:Hfree.
  { intros [= <- <-]. left. split; [by eexists|done]. }
  unfold bind at 1. unfold withSCM.
  unfold bind at 1. unfold call at 1. cbn [os].
  destruct (mgr_Connect _) as [[e|] o2].
  { intros [= <- <-]. left. split; [by eexists|done]. }
  unfold bind at 1. unfold bind at 1. unfold call at 1. cbn [os wsm trace].
  destruct (mgr_CreateService _ _ _ _) as [[e|] o3].
  { unfold bind, call_, call, ret. cbn [os wsm trace].
    intros [= <- <-]. left. split; [by eexists|done]. }
  cbn [wsm trace].
  unfold bind at 1.
  match goal with
  | |- context [setupCreatedService serviceName config ?x] =>
      set (w3 := x)
  end.
  destruct (os_only_setupCreatedService serviceName config w3) as [Hw4 _].
  destruct (setupCreatedService serviceName config w3) as [x4 w4] eqn:Hsetup.
  cbn [snd] in Hw4.
  unfold bind at 1. unfold call_, call, ret. cbn [os wsm trace].
  unfold bind at 1. cbn [os wsm trace].
  destruct x4 as [service|e].
  2:{ intros [= <- <-]. left. split; [by eexists|]. cbn [wsm]. by rewrite Hw4. }
  destruct (setupCreatedService_Ok _ _ _ _ _ Hsetup) as (Hid & _).
  match goal with
  | |- registerService _ _ ?x = _ -> _ => set (w5 := x)
  end.
  destruct (registerService_spec serviceName service w5) as (Hres & Hsvc & _).
  assert (Hrest : dataFile (wsm (registerService serviceName service w5).2)
                  = dataFile (wsm w5)
                  /\ statusCache (wsm (registerService serviceName service w5).2)
                     = statusCache (wsm w5)
                  /\ ctx (wsm (registerService serviceName service w5).2)
                     = ctx (wsm w5)).
  { unfold registerService, bind, modifyManager, saveServices,
      emitServicesUpdated, bind, getManager, call_, call, emit, ret.
    subst w5. cbn. destruct (ctx (wsm w4)) eqn:E; cbn; by rewrite ?E. }
  intros Hreg. rewrite Hreg in Hres, Hsvc, Hrest. cbn [fst snd] in *.
  right. exists service. split; [done|]. rewrite Hid. split; [done|].
  destruct Hrest as (Hd & Hc & Hx). subst w5. cbn [wsm] in *.
  rewrite Hw4 in Hsvc, Hd, Hc, Hx. subst w3. cbn [wsm] in *.
  destruct (wsm w') as [d' s' c' x'], (wsm w) as [d s c x0].
  cbn in *. by subst.
Qed.

End CreationOutcome.

(** X14: a creation is all or nothing for the manager. When
    [CreateService] returns an error, whatever the step that failed, the
    manager (registry and cache) is as before; when it returns a record,
    the name of the record was free and the one change to the manager is
    that the registry holds the record under that name. *)
Theorem X14_create_all_or_nothing {OS : Type} `{WinAPI OS}
    (config : ServiceConfig) (w : World OS) :
  let r := CreateService config w in
  match r.1 with
  | Err _ => wsm r.2 = wsm w
  | Ok service =>
      services (wsm w) !! ID service = None
      /\ wsm r.2 = set_services (<[ID service := service]> (services (wsm w)))
                                (wsm w)
  end.
Proof.
  intros r. subst r.
  destruct (CreateService config w) as [x w'] eqn:Hrun.
  apply CreateService_inv in Hrun
    as [[[e ->] Hw]|(service & -> & Hfree & Hw)]; cbn [fst snd]; done.
Qed.

(** X15: a working directory that cannot be written to the registry does
    not fail the creation: once the wrapper configuration and the image
    path are written, [CreateService] prints a warning, goes on to close
    and disconnect (the service entry is not deleted), and returns and
    registers the record, with the working directory that could not be
    written. *)
Theorem X15_create_workdir_warning {OS : Type} `{WinAPI OS}
    (config : ServiceConfig) (w w1 w4 w5 w6 : World OS) (o0 o2 o3 : OS)
    (serviceName p e : string) :
  os_Stat_IsNotExist (cfgExePath config) (os w) = (false, o0) ->
  generateServiceName (cfgName config)
    (mkWorld o0 (wsm w) (trace w ++ [EvStat (cfgExePath config)]))
  = (serviceName, w1) ->
  services (wsm w) !! serviceName = None ->
  mgr_Connect (os w1) = (None, o2) ->
  mgr_CreateService serviceName (createBinaryPath config)
    (createServiceConfig config) o2 = (None, o3) ->
  let w3 := mkWorld o3 (wsm w)
              (trace w ++ [EvStat (cfgExePath config); EvConnect;
                           EvCreateService serviceName
                             (createBinaryPath config)
                             (createServiceConfig config)]) in
  createServiceWrapper serviceName (cfgExePath config) (cfgArgs config)
    (createWorkingDir config) w3 = (Ok p, w4) ->
  setServiceImagePathDirect serviceName p w4 = (None, w5) ->
  setServiceWorkingDirectory serviceName (createWorkingDir config) w5
  = (Some e, w6) ->
  let r := CreateService config w in
  exists service l,
    r.1 = Ok service
    /\ ID service = serviceName
    /\ WorkingDir service = createWorkingDir config
    /\ services (wsm r.2) !! serviceName = Some service
    /\ issued w r.2
       = issued w w6
         ++ [EvPrintf (Errorf "警告：设置工作目录失败: " e);
             EvClose serviceName; EvDisconnect]
         ++ l ++ [EvGo (TaskAutoStart (1 * Second) serviceName)].
Proof.
  intros Hstat Hname Hfree Hconn Hcreate w3 Hwrap Hpath Hdir r.
  subst r. rewrite (CreateService_created _ _ _ _ _ _ _ Hstat Hname Hfree
                      Hconn Hcreate).
  fold w3.
  destruct (os_only_createServiceWrapper serviceName (cfgExePath config)
              (cfgArgs config) (createWorkingDir config) w3) as (_ & l4 & Hl4).
  destruct (os_only_setServiceImagePathDirect serviceName p w4)
    as (_ & l5 & Hl5).
  destruct (os_only_setServiceWorkingDirectory serviceName
              (createWorkingDir config) w5) as (_ & l6 & Hl6).
  rewrite Hwrap in Hl4. rewrite Hpath in Hl5. rewrite Hdir in Hl6.
  cbn [snd] in Hl4, Hl5, Hl6.
  assert (Htr6 : trace w6 = trace w ++ issued w w6).
  { unfold issued. rewrite Hl6, Hl5, Hl4. subst w3. cbn [trace].
    rewrite <- !app_assoc. by rewrite drop_app_length. }
  set (service := mkService serviceName (cfgName config) (cfgExePath config)
                    (cfgArgs config) (createWorkingDir config) "stopped" 0
                    false (time_Now (os w6)).1
                    (time_Now (time_Now (os w6)).2).1).
  assert (Hsetup : setupCreatedService serviceName config w3
                   = (Ok service,
                      mkWorld (time_Now (time_Now (os w6)).2).2 (wsm w6)
                        (trace w6
                         ++ [EvPrintf (Errorf "警告：设置工作目录失败: " e)]))).
  { unfold setupCreatedService, bind. rewrite Hwrap, Hpath, Hdir.
    unfold emit, Now, ret. cbn [os wsm trace].
    subst service.
    destruct (time_Now (os w6)) as [t1 o7]. cbn [fst snd os wsm trace].
    by destruct (time_Now o7) as [t2 o8]. }
  rewrite Hsetup. cbn [fst snd os wsm trace].
  match goal with
  | |- context [registerService serviceName service ?x] => set (w7 := x)
  end.
  destruct (registerService_spec serviceName service w7)
    as (Hres & Hsvc & l & Hl).
  exists service, l. split; [done|]. split; [done|]. split; [done|].
  split; [by rewrite Hsvc, lookup_insert_eq|].
  unfold issued at 1. rewrite Hl. subst w7. cbn [trace].
  rewrite Htr6, <- !app_assoc. by rewrite drop_app_length.
Qed.

Lemma X15_create_workdir_warning_witness :
  exists service l,
    (CreateService demoConfig (demoWorld [] denyAppDirectory)).1 = Ok service
    /\ ID service = "WSM_demo_1700000100"
    /\ WorkingDir service = "C:\apps"
    /\ services
         (wsm (CreateService demoConfig (demoWorld [] denyAppDirectory)).2)
       !! "WSM_demo_1700000100" = Some service
    /\ issued (demoWorld [] denyAppDirectory)
         (CreateService demoConfig (demoWorld [] denyAppDirectory)).2
       = issued (demoWorld [] denyAppDirectory)
           (setServiceWorkingDirectory "WSM_demo_1700000100" "C:\apps"
              (setServiceImagePathDirect "WSM_demo_1700000100"
                 (dquote +:+ "C:\apps\wsm.exe" +:+ dquote
                  +:+ " --service-wrapper WSM_demo_1700000100")
                 (createServiceWrapper "WSM_demo_1700000100"
                    "C:\apps\demo.exe" "--sleep" "C:\apps"
                    (mkWorld (demoFake [] denyAppDirectory) demoManager
                       [EvStat "C:\apps\demo.exe"; EvConnect;
                        EvCreateService "WSM_demo_1700000100"
                          (createBinaryPath demoConfig)
                          (createServiceConfig demoConfig)])).2).2).2
         ++ [EvPrintf "警告：设置工作目录失败: 设置注册表值失败: Access is denied.";
             EvClose "WSM_demo_1700000100"; EvDisconnect]
         ++ l ++ [EvGo (TaskAutoStart (1 * Second) "WSM_demo_1700000100")].
Proof.
  pose (w := demoWorld [] denyAppDirectory).
  pose (n := "WSM_demo_1700000100").
  pose (w1 := mkWorld (mkFake 1700000100000000001 [] denyAppDirectory
                         "C:\apps\wsm.exe") demoManager
                [EvStat "C:\apps\demo.exe"]).
  pose (w3 := mkWorld (os w1) demoManager
                [EvStat "C:\apps\demo.exe"; EvConnect;
                 EvCreateService n (createBinaryPath demoConfig)
                   (createServiceConfig demoConfig)]).
  pose (p := dquote +:+ "C:\apps\wsm.exe" +:+ dquote
             +:+ " --service-wrapper WSM_demo_1700000100").
  pose (w4 := (createServiceWrapper n "C:\apps\demo.exe" "--sleep" "C:\apps"
                 w3).2).
  pose (w5 := (setServiceImagePathDirect n p w4).2).
  pose (w6 := (setServiceWorkingDirectory n "C:\apps" w5).2).
  refine (X15_create_workdir_warning demoConfig w w1 w4 w5 w6 (os w)
            (os w1) (os w1) n p "设置注册表值失败: Access is denied."
            _ _ _ _ _ _ _ _);
    vm_compute; reflexivity.
Defined.

(** ** Start, stop and delete: every way they can end *)

Section Outcomes.

Context {OS : Type} `{WinAPI OS}.

Lemma waitForServiceState_wsm (fuel : nat) (n : string) (t : svc.State)
    (d : Duration) (w w' : World OS) (x : outcome error) :
  waitForServiceState fuel n t d w = (x, w') ->
  wsm w' = wsm w /\ exists l, trace w' = trace w ++ l.
Proof.
  intros Hwait.
  destruct (os_only_waitForServiceState fuel n t d w) as (Hw & l & Hl).
  rewrite Hwait in Hw, Hl. split; [done|]. by exists l.
Qed.

Lemma issued_elem (w w' : World OS) (e : Event) (l : list Event) :
  trace w' = trace w ++ l -> e ∈ l -> e ∈ issued w w'.
Proof. intros Htr Hin. by rewrite (issued_app _ _ _ Htr). Qed.

(** Every way [StopService] can return. *)
Lemma StopService_inv (fuel : nat) (serviceID : string) (w w' : World OS)
    (r : error) :
  StopService fuel serviceID w = (Done r, w') ->
  ((exists e, r = Some e) /\ wsm w' = wsm w)
  \/ (r = None
      /\ exists rec t,
           services (wsm w) !! serviceID = Some rec
           /\ services (wsm w')
              = <[serviceID := set_UpdatedAt t
                                 (set_PID 0 (set_Status "stopped" rec))]>
                  (services (wsm w))
           /\ (statusCache (wsm w') = statusCache (wsm w)
               \/ exists t',
                    statusCache (wsm w')
                    = Cache_Set t' serviceID "stopped" 0
                        (statusCache (wsm w)))).
Proof.
  unfold StopService, withSCM, bind, call_, call, getManager, ret.
  destruct (services (wsm w) !! serviceID) as [rec|] eqn:Hrec.
  2:{ intros [= <- <-]. left. split; [by eexists|done]. }
  destruct (mgr_Connect (os w)) as [[e|] o1]; cbn [os wsm trace].
  { intros [= <- <-]. left. split; [by eexists|done]. }
  destruct (mgr_OpenService serviceID o1) as [[e|] o2]; cbn [os wsm trace].
  { intros [= <- <-]. left. split; [by eexists|done]. }
  destruct (Service_Query serviceID o2) as [[status|e] o3];
    cbn [os wsm trace].
  2:{ intros [= <- <-]. left. split; [by eexists|done]. }
  destruct (decide (svc.State_ status = svc.Stopped)) as [Hst|Hst];
    cbn [os wsm trace].
  { unfold updateService, modifyManager, saveServices, bind, getManager,
      call_, call, Now, ret. cbn [os wsm trace].
    destruct (time_Now o3) as [t o4]. cbn [os wsm trace fst snd].
    intros [= <- <-]. right. split; [done|]. exists rec, t.
    split; [done|]. cbn [wsm services set_services statusCache].
    split; [|by left].
    by rewrite !alter_alter_eq, (alter_alt_Some _ _ _ _ Hrec). }
  destruct (Service_Control serviceID svc.Stop o3) as [[st|e] o4];
    cbn [os wsm trace].
  2:{ intros [= <- <-]. left. split; [by eexists|done]. }
  destruct (waitForServiceState fuel serviceID svc.Stopped (30 * Second) _)
    as [[[e|]|] w5] eqn:Hwait;
    apply waitForServiceState_wsm in Hwait as [Hw5 _]; cbn [wsm] in Hw5.
  3:{ discriminate. }
  { intros [= <- <-]. left. split; [by eexists|done]. }
  unfold updateService, statusCache_Set, emitServiceStatusChanged,
    modifyManager, saveServices, bind, getManager, call_, call, Now, emit,
    ret.
  cbn [os wsm trace].
  destruct (time_Now (os w5)) as [t o6]. cbn [os wsm trace fst snd].
  destruct (time_Now o6) as [t' o7]. cbn [os wsm trace fst snd ctx set_services set_statusCache].
  destruct (ctx (wsm w5)); cbn [os wsm trace fst snd];
    intros [= <- <-]; right; (split; [done|]); exists rec, t;
    (split; [done|]); cbn [wsm services set_services set_statusCache statusCache];
    rewrite Hw5;
    (split; [by rewrite !alter_alter_eq, (alter_alt_Some _ _ _ _ Hrec)|]);
    right; by exists t'.
Qed.

(** Every way [StartService] can return. *)
Lemma StartService_inv (fuel : nat) (serviceID : string) (w w' : World OS)
    (r : error) :
  StartService fuel serviceID w = (Done r, w') ->
  match r with
  | Some _ =>
      wsm w' = wsm w
      \/ (EvStart serviceID ∈ issued w w'
          /\ exists rec t,
               services (wsm w) !! serviceID = Some rec
               /\ wsm w'
                  = set_services
                      (<[serviceID := set_UpdatedAt t (set_Status "error" rec)]>
                         (services (wsm w)))
                      (wsm w))
  | None =>
      EvStart serviceID ∈ issued w w'
      /\ exists rec t t' pid,
           services (wsm w) !! serviceID = Some rec
           /\ wsm w'
              = set_statusCache
                  (Cache_Set t' serviceID "running" pid (statusCache (wsm w)))
                  (set_services
                     (<[serviceID := set_UpdatedAt t
                                        (set_PID pid
                                           (set_Status "running" rec))]>
                        (services (wsm w)))
                     (wsm w))
  end.
Proof.
  unfold StartService, withSCM, bind, call_, call, getManager, ret.
  destruct (services (wsm w) !! serviceID) as [rec|] eqn:Hrec.
  2:{ intros [= <- <-]. by left. }
  destruct (mgr_Connect (os w)) as [[e|] o1]; cbn [os wsm trace].
  { intros [= <- <-]. by left. }
  destruct (mgr_OpenService serviceID o1) as [[e|] o2]; cbn [os wsm trace].
  { intros [= <- <-]. by left. }
  destruct (Service_Query serviceID o2) as [[status|e] o3];
    cbn [os wsm trace].
  2:{ intros [= <- <-]. by left. }
  destruct (decide (svc.State_ status = svc.Running)) as [Hst|Hst];
    cbn [os wsm trace].
  { intros [= <- <-]. by left. }
  destruct (Service_Start serviceID o3) as [[e|] o4]; cbn [os wsm trace].
  { intros [= <- <-]. by left. }
  destruct (waitForServiceState fuel serviceID svc.Running (30 * Second) _)
    as [[[e|]|] w5] eqn:Hwait;
    apply waitForServiceState_wsm in Hwait as (Hw5 & l & Hl);
    cbn [wsm trace] in Hw5, Hl.
  3:{ discriminate. }
  - unfold updateService, modifyManager, saveServices, bind, getManager,
      call_, call, Now, ret.
    cbn [os wsm trace].
    destruct (time_Now (os w5)) as [t o6]. cbn [os wsm trace fst snd].
    intros [= <- <-]. right. split.
    + eapply issued_elem.
      * cbn [trace]. rewrite Hl, <- !app_assoc. reflexivity.
      * cbn [app]. do 3 apply list_elem_of_further. apply list_elem_of_here.
    + exists rec, t. split; [done|]. cbn [wsm services set_services].
      rewrite Hw5, !alter_alter_eq, (alter_alt_Some _ _ _ _ Hrec).
      by destruct (wsm w).
  - destruct (Service_Query serviceID (os w5)) as [q o6].
    set (pid := match q with Ok status => svc.ProcessId status | Err _ => 0 end).
    unfold updateService, statusCache_Set, emitServiceStatusChanged,
      modifyManager, saveServices, bind, getManager, call_, call, Now, emit,
      ret.
    cbn [os wsm trace].
    destruct (time_Now o6) as [t o7]. cbn [os wsm trace fst snd].
    destruct (time_Now o7) as [t' o8].
    cbn [os wsm trace fst snd ctx set_services set_statusCache].
    assert (Hin : forall l',
              EvStart serviceID
              ∈ issued w (mkWorld o8 (wsm w) (trace w5 ++ l'))).
    { intros l'.
      apply (issued_elem _ _ _
               ([EvConnect; EvOpenService serviceID; EvQuery serviceID;
                 EvStart serviceID] ++ l ++ l')).
      - cbn [trace]. rewrite Hl, <- !app_assoc. cbn [app]. reflexivity.
      - do 3 apply list_elem_of_further. apply list_elem_of_here. }
    destruct (ctx (wsm w5)); cbn [os wsm trace fst snd];
      intros [= <- <-]; (split;
        [unfold issued in *; cbn [trace] in *; rewrite <- !app_assoc;
         apply Hin|]);
      exists rec, t, t', pid; (split; [done|]);
      cbn [wsm services set_services set_statusCache statusCache];
      rewrite Hw5, !alter_alter_eq, (alter_alt_Some _ _ _ _ Hrec);
      by destruct (wsm w).
Qed.

(** Every way [DeleteService] can return. *)
Lemma DeleteService_inv (fuel : nat) (serviceID : string) (w w' : World OS)
    (r : error) :
  DeleteService fuel serviceID w = (Done r, w') ->
  match r with
  | Some _ => wsm w' = wsm w
  | None =>
      EvDelete serviceID ∈ issued w w'
      /\ wsm w'
         = set_statusCache (Cache_Remove serviceID (statusCache (wsm w)))
             (set_services (delete serviceID (services (wsm w))) (wsm w))
  end.
Proof.
  unfold DeleteService, withSCM, bind, call_, call, getManager, ret.
  destruct (services (wsm w) !! serviceID) as [rec|] eqn:Hrec.
  2:{ by intros [= <- <-]. }
  destruct (mgr_Connect (os w)) as [[e|] o1]; cbn [os wsm trace].
  { by intros [= <- <-]. }
  destruct (mgr_OpenService serviceID o1) as [[e|] o2]; cbn [os wsm trace].
  { by intros [= <- <-]. }
  destruct (Service_Query serviceID o2) as [q o3]; cbn [os wsm trace].
  match goal with
  | |- context [stopBeforeDelete fuel serviceID q ?x] => set (w3 := x)
  end.
  assert (Hstop : wsm (stopBeforeDelete fuel serviceID q w3).2 = wsm w
                  /\ exists l, trace (stopBeforeDelete fuel serviceID q w3).2
                               = trace w ++ l).
  { unfold stopBeforeDelete.
    destruct q as [status|e];
      [destruct (decide (svc.State_ status <> svc.Stopped))|].
    2,3: split; [done|]; eexists; subst w3; cbn [snd trace ret];
      rewrite <- !app_assoc; reflexivity.
    unfold bind, call, ret.
    destruct (Service_Control serviceID svc.Stop (os w3)) as [c o4].
    destruct (waitForServiceState fuel serviceID svc.Stopped (30 * Second) _)
      as [x w5] eqn:Hwait.
    apply waitForServiceState_wsm in Hwait as (Hw5 & l & Hl).
    cbn [snd]. split; [by rewrite Hw5|].
    eexists. rewrite Hl. subst w3. cbn [trace].
    rewrite <- !app_assoc. reflexivity. }
  destruct (stopBeforeDelete fuel serviceID q w3) as [back w5].
  cbn [snd] in Hstop. destruct Hstop as (Hw5 & l & Hl).
  destruct back; [|discriminate].
  destruct (Service_Delete serviceID (os w5)) as [[e|] o6];
    cbn [os wsm trace].
  { intros [= <- <-]. by cbn [wsm]. }
  unfold statusCache_Remove, emitServicesUpdated, modifyManager, saveServices,
    bind, getManager, call_, call, emit, ret.
  cbn [os wsm trace fst snd ctx set_services set_statusCache].
  destruct (ctx (wsm w5)); cbn [os wsm trace fst snd];
    intros [= <- <-]; (split;
      [eapply issued_elem;
       [cbn [trace]; rewrite Hl, <- !app_assoc; reflexivity|];
       rewrite elem_of_app; right; apply list_elem_of_here|]);
    cbn [wsm services set_services set_statusCache statusCache];
    rewrite Hw5; by destruct (wsm w).
Qed.

End Outcomes.

(** X16: how [StartService] can end. When it returns an error, either
    the manager is as before, or a start request was issued and the one
    change is that the record of the service has status "error" and a new
    [UpdatedAt] (the cache is as before). When it succeeds, a start
    request was issued, the record has status "running" and a pid, and
    the cache holds "running" with the same pid for the service; nothing
    else in the manager has changed. *)
Theorem X16_start_outcome {OS : Type} `{WinAPI OS} (fuel : nat)
    (serviceID : string) (w : World OS) :
  let r := StartService fuel serviceID w in
  match r.1 with
  | Done (Some _) =>
      wsm r.2 = wsm w
      \/ (EvStart serviceID ∈ issued w r.2
          /\ exists rec t,
               services (wsm w) !! serviceID = Some rec
               /\ wsm r.2
                  = set_services
                      (<[serviceID := set_UpdatedAt t (set_Status "error" rec)]>
                         (services (wsm w)))
                      (wsm w))
  | Done None =>
      EvStart serviceID ∈ issued w r.2
      /\ exists rec t t' pid,
           services (wsm w) !! serviceID = Some rec
           /\ wsm r.2
              = set_statusCache
                  (Cache_Set t' serviceID "running" pid (statusCache (wsm w)))
                  (set_services
                     (<[serviceID := set_UpdatedAt t
                                        (set_PID pid
                                           (set_Status "running" rec))]>
                        (services (wsm w)))
                     (wsm w))
  | OutOfFuel => True
  end.
Proof.
  intros r. subst r.
  destruct (StartService fuel serviceID w) as [[x|] w'] eqn:Hrun; [|done].
  apply StartService_inv in Hrun. by destruct x.
Qed.

(** X17: how [StopService] can end. When it returns an error, whatever
    the step that failed (also a wait that timed out after the stop
    control was sent), the manager is as before: record and cache are
    untouched. When it succeeds, the record has status "stopped", pid 0
    and a new [UpdatedAt], and the cache is as before (the service was
    stopped already) or holds "stopped" with pid 0 for the service. *)
Theorem X17_stop_outcome {OS : Type} `{WinAPI OS} (fuel : nat)
    (serviceID : string) (w : World OS) :
  let r := StopService fuel serviceID w in
  match r.1 with
  | Done (Some _) => wsm r.2 = wsm w
  | Done None =>
      exists rec t,
        services (wsm w) !! serviceID = Some rec
        /\ services (wsm r.2)
           = <[serviceID := set_UpdatedAt t
                              (set_PID 0 (set_Status "stopped" rec))]>
               (services (wsm w))
        /\ (statusCache (wsm r.2) = statusCache (wsm w)
            \/ exists t',
                 statusCache (wsm r.2)
                 = Cache_Set t' serviceID "stopped" 0 (statusCache (wsm w)))
  | OutOfFuel => True
  end.
Proof.
  intros r. subst r.
  destruct (StopService fuel serviceID w) as [[x|] w'] eqn:Hrun; [|done].
  apply StopService_inv in Hrun as [[[e ->] Hw]|[-> Hok]]; done.
Qed.

(** X18: how [DeleteService] can end. When it returns an error (a delete
    that the system refuses included), the manager is as before: the
    record stays in the registry. When it succeeds, the delete was
    issued, and the one change to the manager is that the record is gone
    from the registry and the entry of the service from the cache. *)
Theorem X18_delete_outcome {OS : Type} `{WinAPI OS} (fuel : nat)
    (serviceID : string) (w : World OS) :
  let r := DeleteService fuel serviceID w in
  match r.1 with
  | Done (Some _) => wsm r.2 = wsm w
  | Done None =>
      EvDelete serviceID ∈ issued w r.2
      /\ wsm r.2
         = set_statusCache (Cache_Remove serviceID (statusCache (wsm w)))
             (set_services (delete serviceID (services (wsm w))) (wsm w))
  | OutOfFuel => True
  end.
Proof.
  intros r. subst r.
  destruct (DeleteService fuel serviceID w) as [[x|] w'] eqn:Hrun; [|done].
  apply DeleteService_inv in Hrun. by destruct x.
Qed.

(** X19: a start that is seen through. When the service is not running,
    the start request is accepted and the wait reports the running state,
    [StartService] queries the service once more and takes the process
    id from the answer, or 0 when that query fails; it writes status
    "running", that pid and the time into the record, puts "running" with
    the pid into the cache, saves the registry, emits the status-changed
    event when a context is set, closes, disconnects and returns no
    error. *)
Theorem X19_start_seen_through {OS : Type} `{WinAPI OS} (fuel : nat)
    (serviceID : string) (rec : Service) (w w5 : World OS)
    (o1 o2 o3 o4 o6 : OS) (status : svc.Status) (q : result svc.Status) :
  services (wsm w) !! serviceID = Some rec ->
  mgr_Connect (os w) = (None, o1) ->
  mgr_OpenService serviceID o1 = (None, o2) ->
  Service_Query serviceID o2 = (Ok status, o3) ->
  svc.State_ status <> svc.Running ->
  Service_Start serviceID o3 = (None, o4) ->
  waitForServiceState fuel serviceID svc.Running (30 * Second)
    (mkWorld o4 (wsm w)
       (trace w ++ [EvConnect; EvOpenService serviceID; EvQuery serviceID;
                    EvStart serviceID]))
  = (Done None, w5) ->
  Service_Query serviceID (os w5) = (q, o6) ->
  let pid := match q with
             | Ok status => svc.ProcessId status
             | Err _ => 0
             end in
  let rec' := set_UpdatedAt (time_Now o6).1
                (set_PID pid (set_Status "running" rec)) in
  let r := StartService fuel serviceID w in
  r.1 = Done None
  /\ services (wsm r.2) = <[serviceID := rec']> (services (wsm w))
  /\ statusCache (wsm r.2)
     = Cache_Set (time_Now (time_Now o6).2).1 serviceID "running" pid
         (statusCache (wsm w))
  /\ issued w r.2
     = issued w w5
       ++ [EvQuery serviceID;
           EvWriteFile (dataFile (wsm w))
             (<[serviceID := rec']> (services (wsm w)))]
       ++ (if ctx (wsm w)
           then [EvEmitStatusChanged serviceID "running" pid] else [])
       ++ [EvClose serviceID; EvDisconnect].
Proof.
  intros Hrec Hconn Hopen Hquery Hrun Hstart Hwait Hq pid rec' r.
  destruct (waitForServiceState_wsm _ _ _ _ _ _ _ Hwait) as (Hw5 & l & Hl).
  cbn [wsm trace] in Hw5, Hl.
  assert (Htr5 : trace w5 = trace w ++ issued w w5).
  { unfold issued. rewrite Hl, <- !app_assoc. by rewrite drop_app_length. }
  assert (Hr : exists w',
             r = (Done None, w')
             /\ services (wsm w') = <[serviceID := rec']> (services (wsm w))
             /\ statusCache (wsm w')
                = Cache_Set (time_Now (time_Now o6).2).1 serviceID "running"
                    pid (statusCache (wsm w))
             /\ trace w'
                = trace w5
                  ++ [EvQuery serviceID;
                      EvWriteFile (dataFile (wsm w))
                        (<[serviceID := rec']> (services (wsm w)))]
                  ++ (if ctx (wsm w)
                      then [EvEmitStatusChanged serviceID "running" pid]
                      else [])
                  ++ [EvClose serviceID; EvDisconnect]).
  { subst r rec'. unfold StartService.
    unfold bind at 1. unfold getManager at 1. rewrite Hrec.
    unfold withSCM.
    unfold bind at 1. unfold call at 1. rewrite Hconn.
    unfold bind at 1. unfold bind at 1. unfold call at 1. cbn [os].
    rewrite Hopen.
    unfold bind at 1. unfold bind at 1. unfold call at 1. cbn [os].
    rewrite Hquery. rewrite decide_False by done.
    unfold bind at 1. unfold call at 1. cbn [os]. rewrite Hstart.
    cbn [wsm trace]. rewrite <- !app_assoc. cbn [app].
    unfold bind at 1. rewrite Hwait.
    unfold bind at 1. unfold call at 1. rewrite Hq. fold pid.
    unfold updateService, statusCache_Set, emitServiceStatusChanged,
      modifyManager, saveServices, bind, getManager, call_, call, Now, emit,
      ret.
    cbn [os wsm trace]. destruct (time_Now o6) as [t o7].
    cbn [os wsm trace fst snd]. destruct (time_Now o7) as [t' o8].
    cbn [os wsm trace fst snd ctx services statusCache dataFile
         set_services set_statusCache].
    rewrite Hw5, !alter_alter_eq, (alter_alt_Some _ _ _ _ Hrec).
    destruct (ctx (wsm w)); cbn [os wsm trace fst snd];
      eexists; (split; [reflexivity|]);
      cbn [wsm trace services statusCache set_services set_statusCache];
      (split; [done|]); (split; [by destruct (wsm w)|]);
      rewrite <- !app_assoc; by destruct (wsm w). }
  destruct Hr as (w' & -> & Hs & Hc & Htr). cbn [fst snd].
  split; [done|]. split; [done|]. split; [done|].
  unfold issued at 1. rewrite Htr, Htr5, <- !app_assoc.
  by rewrite drop_app_length.
Qed.

(** The demo service: reported stopped, then start-pending at the first
    poll, running at the second, and running under pid 777 at the query
    after the wait. *)
Lemma X19_start_seen_through_witness :
  (StartService 61 "WSM_demo_1700000000"
     (demoWorld [Ok (svc.mkStatus svc.Stopped 0 0);
                 Ok (svc.mkStatus svc.StartPending 0 0);
                 Ok (svc.mkStatus svc.Running 5 777);
                 Ok (svc.mkStatus svc.Running 5 777)]
                (fun _ => false))).1
  = Done None.
Proof.
  pose (id := "WSM_demo_1700000000").
  pose (w := demoWorld [Ok (svc.mkStatus svc.Stopped 0 0);
                        Ok (svc.mkStatus svc.StartPending 0 0);
                        Ok (svc.mkStatus svc.Running 5 777);
                        Ok (svc.mkStatus svc.Running 5 777)]
                       (fun _ => false)).
  pose (o3 := (Service_Query id (os w)).2).
  pose (w5 := (waitForServiceState 61 id svc.Running (30 * Second)
                 (mkWorld o3 (wsm w)
                    (trace w ++ [EvConnect; EvOpenService id; EvQuery id;
                                 EvStart id]))).2).
  refine (proj1
    (X19_start_seen_through 61 id demoService w w5 (os w) (os w) o3 o3
       (Service_Query id (os w5)).2 (svc.mkStatus svc.Stopped 0 0)
       (Service_Query id (os w5)).1 _ _ _ _ _ _ _ _));
    try (vm_compute; reflexivity).
  discriminate.
Defined.

(** X20: the stop that [DeleteService] tries first is best effort. When
    the service is not stopped, the stop control is sent and the stopped
    state is waited for, but whatever the control and the wait return
    (the control may be refused, the wait may time out), the delete is
    issued next; when the system accepts it, the record leaves the
    registry, the entry of the service leaves the cache, the registry is
    saved, the services-updated event is emitted when a context is set,
    and [DeleteService] returns no error. *)
Theorem X20_delete_stop_best_effort {OS : Type} `{WinAPI OS} (fuel : nat)
    (serviceID : string) (rec : Service) (w w5 : World OS)
    (o1 o2 o3 o4 o6 : OS) (status : svc.Status) (c : result svc.Status)
    (x : error) :
  services (wsm w) !! serviceID = Some rec ->
  mgr_Connect (os w) = (None, o1) ->
  mgr_OpenService serviceID o1 = (None, o2) ->
  Service_Query serviceID o2 = (Ok status, o3) ->
  svc.State_ status <> svc.Stopped ->
  Service_Control serviceID svc.Stop o3 = (c, o4) ->
  waitForServiceState fuel serviceID svc.Stopped (30 * Second)
    (mkWorld o4 (wsm w)
       (trace w ++ [EvConnect; EvOpenService serviceID; EvQuery serviceID;
                    EvControl serviceID svc.Stop]))
  = (Done x, w5) ->
  Service_Delete serviceID (os w5) = (None, o6) ->
  let r := DeleteService fuel serviceID w in
  let left := delete serviceID (services (wsm w)) in
  r.1 = Done None
  /\ services (wsm r.2) = left
  /\ statusCache (wsm r.2) = Cache_Remove serviceID (statusCache (wsm w))
  /\ issued w r.2
     = issued w w5
       ++ [EvDelete serviceID; EvWriteFile (dataFile (wsm w)) left]
       ++ (if ctx (wsm w)
           then [EvEmitServicesUpdated (map_to_list left).*2] else [])
       ++ [EvClose serviceID; EvDisconnect].
Proof.
  intros Hrec Hconn Hopen Hquery Hrun Hctl Hwait Hdel r left.
  destruct (waitForServiceState_wsm _ _ _ _ _ _ _ Hwait) as (Hw5 & l & Hl).
  cbn [wsm trace] in Hw5, Hl.
  assert (Htr5 : trace w5 = trace w ++ issued w w5).
  { unfold issued. rewrite Hl, <- !app_assoc. by rewrite drop_app_length. }
  assert (Hr : exists w',
             r = (Done None, w')
             /\ services (wsm w') = left
             /\ statusCache (wsm w')
                = Cache_Remove serviceID (statusCache (wsm w))
             /\ trace w'
                = trace w5
                  ++ [EvDelete serviceID;
                      EvWriteFile (dataFile (wsm w)) left]
                  ++ (if ctx (wsm w)
                      then [EvEmitServicesUpdated (map_to_list left).*2]
                      else [])
                  ++ [EvClose serviceID; EvDisconnect]).
  { subst r left. unfold DeleteService.
    unfold bind at 1. unfold getManager at 1. rewrite Hrec.
    unfold withSCM.
    unfold bind at 1. unfold call at 1. rewrite Hconn.
    unfold bind at 1. unfold bind at 1. unfold call at 1. cbn [os].
    rewrite Hopen.
    unfold bind at 1. unfold bind at 1. unfold call at 1. cbn [os].
    rewrite Hquery.
    unfold bind at 1. unfold stopBeforeDelete.
    rewrite decide_True by done.
    unfold bind at 1. unfold call at 1. cbn [os]. rewrite Hctl.
    cbn [wsm trace]. rewrite <- !app_assoc. cbn [app].
    unfold bind at 1. rewrite Hwait. unfold ret at 1.
    unfold bind at 1. unfold call at 1. rewrite Hdel.
    unfold statusCache_Remove, emitServicesUpdated, modifyManager,
      saveServices, bind, getManager, call_, call, emit, ret.
    cbn [os wsm trace fst snd ctx services statusCache dataFile
         set_services set_statusCache].
    rewrite Hw5.
    destruct (ctx (wsm w)); cbn [os wsm trace fst snd];
      eexists; (split; [reflexivity|]);
      cbn [wsm trace services statusCache set_services set_statusCache];
      (split; [done|]); (split; [done|]);
      by rewrite <- !app_assoc. }
  destruct Hr as (w' & -> & Hs & Hc & Htr). cbn [fst snd].
  split; [done|]. split; [done|]. split; [done|].
  unfold issued at 1. rewrite Htr, Htr5, <- !app_assoc.
  by rewrite drop_app_length.
Qed.

(** The demo service runs, the system refuses the stop control and the
    wait ends on a failed query: the service is deleted all the same. *)
Lemma X20_delete_stop_best_effort_witness :
  (DeleteService 61 "WSM_demo_1700000000"
     (demoWorld [Ok (svc.mkStatus svc.Running 5 4242)] denyControl)).1
  = Done None
  /\ services
       (wsm (DeleteService 61 "WSM_demo_1700000000"
               (demoWorld [Ok (svc.mkStatus svc.Running 5 4242)]
                          denyControl)).2)
     = delete "WSM_demo_1700000000" (services demoManager).
Proof.
  pose (id := "WSM_demo_1700000000").
  pose (w := demoWorld [Ok (svc.mkStatus svc.Running 5 4242)] denyControl).
  pose (o3 := (Service_Query id (os w)).2).
  pose (wt := waitForServiceState 61 id svc.Stopped (30 * Second)
                (mkWorld o3 (wsm w)
                   (trace w ++ [EvConnect; EvOpenService id; EvQuery id;
                                EvControl id svc.Stop]))).
  pose proof
    (X20_delete_stop_best_effort 61 id demoService w wt.2 (os w) (os w) o3
       o3 (os wt.2) (svc.mkStatus svc.Running 5 4242)
       (Err "Access is denied.")
       (Some "查询服务状态失败: The handle is invalid.")) as K.
  cbv zeta in K.
  destruct K as (K1 & K2 & _); try (vm_compute; reflexivity).
  - discriminate.
  - split; [exact K1|exact K2].
Defined.

(** ** The status vocabulary *)

Lemma pair_ok_running (pid : Z) : pair_ok "running" pid.
Proof. split; [by left|]. intros Hn. destruct Hn. by left. Qed.

Lemma pair_ok_stopping (pid : Z) : pair_ok "stopping" pid.
Proof. split; [right; right; right; by left|]. intros Hn. destruct Hn. by right. Qed.

Lemma pair_ok_stopped : pair_ok "stopped" 0.
Proof. split; [right; by left|done]. Qed.

Lemma pair_ok_starting : pair_ok "starting" 0.
Proof. split; [right; right; by left|done]. Qed.

Lemma pair_ok_error : pair_ok "error" 0.
Proof. split; [by repeat right|done]. Qed.

Lemma cache_ok_Set (t : Time) (id s : string) (pid : Z)
    (c : ServiceStatusCache) :
  pair_ok s pid -> cache_ok c -> cache_ok (Cache_Set t id s pid c).
Proof.
  intros Hp Hc id' e. unfold Cache_Set; cbn.
  destruct (decide (id = id')) as [->|Hne].
  - rewrite lookup_insert_eq. by intros [= <-].
  - rewrite lookup_insert_ne by done. apply Hc.
Qed.

Lemma cache_ok_Remove (id : string) (c : ServiceStatusCache) :
  cache_ok c -> cache_ok (Cache_Remove id c).
Proof.
  intros Hc id' e. unfold Cache_Remove; cbn.
  intros [_ He]%lookup_delete_Some. by apply (Hc id').
Qed.

Section Vocabulary.

Context {OS : Type} `{WinAPI OS}.

Lemma keeps_ret {A} (a : A) : keeps_cache_ok (ret (OS := OS) a).
Proof. by intros w. Qed.

Lemma keeps_bind {A B} (m : M OS A) (k : A -> M OS B) :
  keeps_cache_ok m -> (forall a, keeps_cache_ok (k a)) ->
  keeps_cache_ok (bind m k).
Proof.
  intros Hm Hk w Hw. unfold bind. specialize (Hm w Hw).
  destruct (m w) as [a w1]. by apply Hk.
Qed.

Lemma keeps_os_only {A} (m : M OS A) : os_only m -> keeps_cache_ok m.
Proof. intros Hm w Hw. by rewrite (proj1 (Hm w)). Qed.

Lemma keeps_getManager : keeps_cache_ok (getManager (OS := OS)).
Proof. by intros w. Qed.

Lemma keeps_updateService (id : string) (f : Service -> Service) :
  keeps_cache_ok (updateService (OS := OS) id f).
Proof. by intros w. Qed.

Lemma keeps_statusCache_Set (id s : string) (pid : Z) :
  pair_ok s pid -> keeps_cache_ok (statusCache_Set (OS := OS) id s pid).
Proof.
  intros Hp w Hw. rewrite statusCache_Set_spec. cbn. by apply cache_ok_Set.
Qed.

Lemma keeps_statusCache_Remove (id : string) :
  keeps_cache_ok (statusCache_Remove (OS := OS) id).
Proof. intros w Hw. cbn. by apply cache_ok_Remove. Qed.

Lemma keeps_set_services (f : WindowsServiceManager -> gmap string Service) :
  keeps_cache_ok (modifyManager (OS := OS) (fun m => set_services (f m) m)).
Proof. by intros w. Qed.

(** The status query: what it returns and what it leaves in the cache
    are statuses with the pid that goes with them; the registry is not
    touched. *)
Lemma getServiceRealTimeStatus_ok (serviceName : string) (w : World OS) :
  cache_ok (statusCache (wsm w)) ->
  pair_ok (getServiceRealTimeStatus serviceName w).1.1
          (getServiceRealTimeStatus serviceName w).1.2
  /\ cache_ok (statusCache (wsm (getServiceRealTimeStatus serviceName w).2))
  /\ services (wsm (getServiceRealTimeStatus serviceName w).2)
     = services (wsm w).
Proof.
  intros Hw.
  assert (Hget : forall e, (statusCache_Get serviceName w).1 = Some e ->
                           cache (statusCache (wsm w)) !! serviceName = Some e).
  { unfold statusCache_Get, bind, getManager, Now, ret, Cache_Get.
    destruct (cache (statusCache (wsm w)) !! serviceName) as [e0|]; [|done].
    destruct (time_Now (os w)) as [t o]. cbn.
    destruct (_ >? _); [done|]. by intros e [= ->]. }
  destruct (statusCache_Get_keeps serviceName w) as [Hk _].
  unfold getServiceRealTimeStatus, bind.
  destruct (statusCache_Get serviceName w) as [[e|] w1]; cbn [fst snd] in *.
  { unfold ret. cbn. rewrite Hk. split; [|done].
    by apply (Hw serviceName), Hget. }
  unfold call_, call, ret.
  destruct (mgr_OpenService serviceName (os w1)) as [[err|] o2].
  { rewrite statusCache_Set_spec. cbn. rewrite Hk.
    split; [apply pair_ok_error|]. split; [|done].
    apply cache_ok_Set; [apply pair_ok_error|done]. }
  cbn [os wsm trace].
  destruct (Service_Query serviceName o2) as [[status|err] o3].
  2:{ rewrite statusCache_Set_spec. cbn. rewrite Hk.
      split; [apply pair_ok_error|]. split; [|done].
      apply cache_ok_Set; [apply pair_ok_error|done]. }
  destruct (svc.State_ status); rewrite statusCache_Set_spec; cbn;
    rewrite Hk;
    (split; [|split; [apply cache_ok_Set; [|done]|done]]);
    first [ apply pair_ok_running | apply pair_ok_stopping
          | apply pair_ok_stopped | apply pair_ok_starting
          | apply pair_ok_error ].
Qed.

Lemma keeps_getServiceRealTimeStatus (serviceName : string) :
  keeps_cache_ok (getServiceRealTimeStatus serviceName).
Proof. intros w Hw. by apply getServiceRealTimeStatus_ok. Qed.

(** One refresh: the record of the service gets a status with the pid
    that goes with it, no record changes in what identifies it, the other
    records do not change at all. *)
Lemma refreshService_spec (id : string) (w : World OS) :
  cache_ok (statusCache (wsm w)) ->
  cache_ok (statusCache (wsm (refreshService id w).2))
  /\ (forall s, services (wsm (refreshService id w).2) !! id = Some s ->
                record_ok s)
  /\ (forall id0, id0 <> id ->
                  services (wsm (refreshService id w).2) !! id0
                  = services (wsm w) !! id0).
Proof.
  intros Hw.
  destruct (getServiceRealTimeStatus_ok id w Hw) as (Hp & Hc & Hs).
  destruct (refreshService_services id w) as [t Ht].
  assert (Hcache : statusCache (wsm (refreshService id w).2)
                   = statusCache (wsm (getServiceRealTimeStatus id w).2)).
  { unfold refreshService, bind, updateService, modifyManager, Now.
    destruct (getServiceRealTimeStatus id w) as [[s p] w1]; cbn.
    by destruct (time_Now (os w1)) as [t0 o]. }
  rewrite Hcache, Ht, Hs. split; [done|]. split.
  - intros s. rewrite lookup_alter_eq.
    destruct (services (wsm w) !! id) as [r|]; [|done].
    intros [= <-]. exact Hp.
  - intros id0 Hne. by rewrite lookup_alter_ne.
Qed.

Lemma refreshService_identity (id id0 : string) (w : World OS) :
  identity <$> services (wsm (refreshService id w).2) !! id0
  = identity <$> services (wsm w) !! id0.
Proof.
  destruct (refreshService_services id w) as [t Ht].
  assert (Hs : services (wsm (getServiceRealTimeStatus id w).2)
               = services (wsm w)).
  { destruct (statusCache_Get_keeps id w) as [Hk _].
    unfold getServiceRealTimeStatus, bind.
    destruct (statusCache_Get id w) as [[e|] w1]; cbn [fst snd] in *.
    { unfold ret. cbn. by rewrite Hk. }
    unfold call_, call, ret.
    destruct (mgr_OpenService id (os w1)) as [[err|] o2].
    { rewrite statusCache_Set_spec. cbn. by rewrite Hk. }
    cbn [os wsm trace].
    destruct (Service_Query id o2) as [[status|err] o3].
    2:{ rewrite statusCache_Set_spec. cbn. by rewrite Hk. }
    destruct (svc.State_ status); rewrite statusCache_Set_spec; cbn;
      by rewrite Hk. }
  rewrite Ht, Hs.
  destruct (decide (id0 = id)) as [->|Hne].
  - rewrite lookup_alter_eq. by destruct (services (wsm w) !! id).
  - by rewrite lookup_alter_ne.
Qed.

Lemma refreshServices_identity (ids : list string) :
  forall (w : World OS) (id0 : string),
    identity <$> services (wsm (refreshServices ids w).2) !! id0
    = identity <$> services (wsm w) !! id0.
Proof.
  induction ids as [|id ids IH]; intros w id0; [done|].
  cbn [refreshServices]. unfold bind.
  pose proof (refreshService_identity id id0 w) as K.
  destruct (refreshService id w) as [[] w1]. cbn [snd] in K.
  by rewrite IH.
Qed.

Lemma refreshServices_spec (ids : list string) :
  forall (w : World OS) (seen : list string),
    cache_ok (statusCache (wsm w)) ->
    (forall id s, id ∈ seen -> services (wsm w) !! id = Some s ->
                  record_ok s) ->
    cache_ok (statusCache (wsm (refreshServices ids w).2))
    /\ (forall id s, id ∈ seen ++ ids ->
                     services (wsm (refreshServices ids w).2) !! id = Some s ->
                     record_ok s).
Proof.
  induction ids as [|id ids IH]; intros w seen Hw Hseen.
  - cbn. rewrite app_nil_r. by split.
  - cbn [refreshServices]. unfold bind.
    destruct (refreshService_spec id w Hw) as (Hc & Hid & Hother).
    destruct (refreshService id w) as [[] w1]. cbn [snd] in *.
    destruct (IH w1 (seen ++ [id]) Hc) as [Hc' Hall].
    { intros id1 s [Hin|Hin]%elem_of_app;
        [|apply list_elem_of_singleton in Hin as ->; apply Hid].
      destruct (decide (id1 = id)) as [->|Hne]; [apply Hid|].
      rewrite Hother by done. by apply Hseen. }
    split; [done|]. intros id1 s Hin. apply Hall.
    by rewrite <- app_assoc.
Qed.

(** The two ways [GetServices] can end. *)
Lemma GetServices_inv (w w' : World OS) (x : result (list Service)) :
  GetServices w = (x, w') ->
  ((exists e, x = Err e) /\ wsm w' = wsm w)
  \/ (exists w1 l,
        wsm w1 = wsm w
        /\ wsm w' = wsm (refreshServices (map_to_list (services (wsm w))).*1
                           w1).2
        /\ x = Ok (map_to_list (services (wsm w'))).*2
        /\ trace w' = trace w ++ l ++ [EvGo TaskSaveServices]).
Proof.
  unfold GetServices, withSCM.
  unfold bind at 1. unfold getManager at 1.
  unfold bind at 1. unfold bind at 1. unfold call at 1.
  destruct (mgr_Connect (os w)) as [[e|] o1].
  { unfold ret. intros [= <- <-]. left. split; [by eexists|done]. }
  set (ids := (map_to_list (services (wsm w))).*1).
  set (w1 := mkWorld o1 (wsm w) (trace w ++ [EvConnect])).
  unfold bind at 1. unfold bind at 1.
  assert (Htr : exists l, trace (refreshServices ids w1).2 = trace w1 ++ l).
  { clear. generalize w1. induction ids as [|id ids IH]; intros w0.
    - exists []. cbn. by rewrite app_nil_r.
    - cbn [refreshServices]. unfold bind.
      assert (K : exists l, trace (refreshService id w0).2 = trace w0 ++ l).
      { unfold refreshService, bind, updateService, modifyManager, Now.
        assert (G : exists l, trace (getServiceRealTimeStatus id w0).2
                              = trace w0 ++ l).
        { destruct (statusCache_Get_keeps id w0) as [_ Hk].
          unfold getServiceRealTimeStatus, bind.
          destruct (statusCache_Get id w0) as [[e|] w2]; cbn [fst snd] in *.
          { exists []. unfold ret. cbn. by rewrite Hk, app_nil_r. }
          unfold call_, call, ret.
          destruct (mgr_OpenService id (os w2)) as [[err|] o2].
          { rewrite statusCache_Set_spec. cbn. rewrite Hk. by eexists. }
          cbn [os wsm trace].
          destruct (Service_Query id o2) as [[status|err] o3].
          2:{ rewrite statusCache_Set_spec. cbn. rewrite Hk, <- !app_assoc.
              by eexists. }
          destruct (svc.State_ status); rewrite statusCache_Set_spec; cbn;
            rewrite Hk, <- !app_assoc; by eexists. }
        destruct (getServiceRealTimeStatus id w0) as [[s p] w2]; cbn in *.
        by destruct (time_Now (os w2)) as [t0 o]. }
      destruct (refreshService id w0) as [[] w2]. cbn [snd] in K.
      destruct K as [l Hl]. destruct (IH w2) as [l' Hl'].
      exists (l ++ l'). by rewrite Hl', Hl, <- app_assoc. }
  destruct (refreshServices ids w1) as [[] w2] eqn:Hrf. cbn [snd] in Htr.
  unfold ret at 1. unfold bind at 1. unfold call_, call. cbn [os wsm trace].
  unfold ret at 1. unfold bind, emit, getManager, ret. cbn [os wsm trace].
  intros [= <- <-]. right. destruct Htr as [l Hl].
  exists w1, ([EvConnect] ++ l ++ [EvDisconnect]).
  split; [done|]. split; [by rewrite Hrf|]. split; [done|].
  cbn [trace]. rewrite Hl. subst w1. cbn [trace].
  by rewrite <- !app_assoc.
Qed.

End Vocabulary.

Ltac keeps_os :=
  apply keeps_os_only;
  first [ apply os_only_call_ | apply os_only_call | apply os_only_emit
        | apply os_only_Now | apply os_only_waitForServiceState
        | apply os_only_setupCreatedService ].

Ltac keeps_step :=
  first
    [ apply keeps_ret | apply keeps_getManager | apply keeps_updateService
    | apply keeps_statusCache_Remove | apply keeps_set_services
    | apply keeps_getServiceRealTimeStatus
    | apply keeps_statusCache_Set;
      first [apply pair_ok_running | apply pair_ok_stopped]
    | keeps_os
    | apply keeps_bind; [|intros ?]
    | match goal with
      | |- keeps_cache_ok (match ?x with _ => _ end) => destruct x
      end ].

Lemma cache_ok_New : cache_ok NewServiceStatusCache.
Proof.
  intros id e. unfold NewServiceStatusCache; cbn. by rewrite lookup_empty.
Qed.

Section Invariant.

Context {OS : Type} `{WinAPI OS}.

Lemma keeps_refreshServices (ids : list string) :
  keeps_cache_ok (refreshServices (OS := OS) ids).
Proof.
  induction ids as [|id ids IH]; cbn [refreshServices]; [apply keeps_ret|].
  apply keeps_bind; [|intros _; apply IH].
  unfold refreshService. repeat keeps_step.
Qed.

Lemma keeps_GetServices : keeps_cache_ok (GetServices (OS := OS)).
Proof.
  unfold GetServices, withSCM.
  repeat first [apply keeps_refreshServices | keeps_step].
Qed.

Lemma keeps_CreateService (config : ServiceConfig) :
  keeps_cache_ok (CreateService (OS := OS) config).
Proof.
  unfold CreateService, withSCM, registerService, saveServices,
    emitServicesUpdated, generateServiceName.
  cbv zeta. repeat keeps_step.
Qed.

Lemma keeps_StartService (fuel : nat) (serviceID : string) :
  keeps_cache_ok (StartService (OS := OS) fuel serviceID).
Proof.
  unfold StartService, withSCM, saveServices, emitServiceStatusChanged.
  cbv zeta. repeat keeps_step.
Qed.

Lemma keeps_StopService (fuel : nat) (serviceID : string) :
  keeps_cache_ok (StopService (OS := OS) fuel serviceID).
Proof.
  unfold StopService, withSCM, saveServices, emitServiceStatusChanged.
  repeat keeps_step.
Qed.

Lemma keeps_DeleteService (fuel : nat) (serviceID : string) :
  keeps_cache_ok (DeleteService (OS := OS) fuel serviceID).
Proof.
  unfold DeleteService, withSCM, stopBeforeDelete, saveServices,
    emitServicesUpdated.
  repeat keeps_step.
Qed.

Context `{!WinAPIConfig OS}.

Lemma keeps_ask {A} (f : OS -> A * OS) : keeps_cache_ok (ask f).
Proof. intros w Hw. unfold ask. by destruct (f (os w)). Qed.

Lemma keeps_SetServiceAutoStart (serviceID : string) (enabled : bool) :
  keeps_cache_ok (SetServiceAutoStart serviceID enabled).
Proof.
  unfold SetServiceAutoStart, withSCM, saveServices.
  cbv zeta. repeat first [apply keeps_ask | keeps_step].
Qed.

End Invariant.

(** X21: the statuses the cache holds are always status words with the
    pid that goes with them ("running" and "stopping" with a process id,
    "stopped", "starting" and "error" with pid 0). The cache starts out
    so, and [GetServices], [CreateService], [StartService],
    [StopService], [DeleteService] and [SetServiceAutoStart] keep it so,
    however they end. *)
Theorem X21_cache_holds_status_pairs {OS : Type} `{WinAPI OS}
    `{!WinAPIConfig OS} :
  cache_ok NewServiceStatusCache
  /\ keeps_cache_ok (GetServices (OS := OS))
  /\ (forall config, keeps_cache_ok (CreateService (OS := OS) config))
  /\ (forall fuel id, keeps_cache_ok (StartService (OS := OS) fuel id))
  /\ (forall fuel id, keeps_cache_ok (StopService (OS := OS) fuel id))
  /\ (forall fuel id, keeps_cache_ok (DeleteService (OS := OS) fuel id))
  /\ (forall id enabled,
        keeps_cache_ok (SetServiceAutoStart (OS := OS) id enabled)).
Proof.
  split; [apply cache_ok_New|].
  split; [apply keeps_GetServices|].
  split; [apply keeps_CreateService|].
  split; [apply keeps_StartService|].
  split; [apply keeps_StopService|].
  split; [apply keeps_DeleteService|].
  apply keeps_SetServiceAutoStart.
Qed.

(** After a start of the demo service that is seen through, the cache
    holds ["running"] with the pid for it. *)
Lemma X21_cache_holds_status_pairs_witness :
  cache_ok
    (statusCache
       (wsm (StartService 61 "WSM_demo_1700000000"
               (demoWorld [Ok (svc.mkStatus svc.Stopped 0 0);
                           Ok (svc.mkStatus svc.Running 5 777);
                           Ok (svc.mkStatus svc.Running 5 777)]
                          (fun _ => false))).2)).
Proof.
  refine (proj1 (proj2 (proj2 (proj2 X21_cache_holds_status_pairs)))
            61%nat "WSM_demo_1700000000" _ _).
  apply (proj1 X21_cache_holds_status_pairs).
Defined.

(** X22: what [GetServices] hands out. With a cache as the manager keeps
    it, every record of the list it returns has a status word, and pid 0
    unless the status is "running" or "stopping": a record left with
    status "error" and an old pid by a failed start is put right by the
    refresh. The cache is still as the manager keeps it. *)
Theorem X22_GetServices_status_pairs {OS : Type} `{WinAPI OS}
    (w w' : World OS) (l : list Service) :
  cache_ok (statusCache (wsm w)) ->
  GetServices w = (Ok l, w') ->
  (forall s, s ∈ l ->
             status_word (Status s) /\ (~ has_pid (Status s) -> PID s = 0))
  /\ cache_ok (statusCache (wsm w')).
Proof.
  intros Hw Hrun.
  pose proof (keeps_GetServices w Hw) as Hc. rewrite Hrun in Hc.
  split; [|exact Hc].
  apply GetServices_inv in Hrun
    as [[[e He] _]|(w1 & tr & Hw1 & Hw' & He & _)]; [discriminate|].
  injection He as ->.
  set (ids := (map_to_list (services (wsm w))).*1) in *.
  destruct (refreshServices_spec ids w1 []) as [_ Hall].
  { by rewrite Hw1. }
  { intros id s Hin. by apply elem_of_nil in Hin. }
  intros s Hs. apply list_elem_of_fmap_1 in Hs as ([id s'] & -> & Hin).
  apply elem_of_map_to_list in Hin. cbn [snd].
  apply (Hall id); [|by rewrite <- Hw'].
  cbn [app]. subst ids.
  pose proof (refreshServices_identity (map_to_list (services (wsm w))).*1
                w1 id) as Hid.
  rewrite <- Hw', Hin, Hw1 in Hid. cbn in Hid.
  destruct (services (wsm w) !! id) as [s0|] eqn:Hs0; [|done].
  apply list_elem_of_fmap. exists (id, s0). split; [done|].
  by apply elem_of_map_to_list.
Qed.

(** The demo record after a start that failed (status "error", pid
    4242), refreshed while the system reports the service stopped. *)
Lemma X22_GetServices_status_pairs_witness :
  Forall (fun s => status_word (Status s)
                   /\ (~ has_pid (Status s) -> PID s = 0))
    match (GetServices
             (StartService 61 "WSM_demo_1700000000"
                (demoWorld [Ok (svc.mkStatus svc.Stopped 0 0);
                            Ok (svc.mkStatus svc.Stopped 0 0);
                            Ok (svc.mkStatus svc.Stopped 0 0)]
                           (fun _ => false))).2).1
    with Ok l => l | Err _ => [] end.
Proof.
  pose (w0 := demoWorld [Ok (svc.mkStatus svc.Stopped 0 0);
                         Ok (svc.mkStatus svc.Stopped 0 0);
                         Ok (svc.mkStatus svc.Stopped 0 0)]
                        (fun _ => false)).
  pose (w := (StartService 61 "WSM_demo_1700000000" w0).2).
  pose proof (keeps_StartService 61 "WSM_demo_1700000000" w0 cache_ok_New)
    as K0.
  pose proof
    (X22_GetServices_status_pairs w (GetServices w).2
       match (GetServices w).1 with Ok l => l | Err _ => [] end K0) as K.
  assert (E : GetServices w
              = (Ok match (GetServices w).1 with Ok l => l | Err _ => [] end,
                 (GetServices w).2)).
  { vm_compute. reflexivity. }
  apply Forall_forall. exact (proj1 (K E)).
Defined.

(** X23: a refresh changes statuses only. Whatever [GetServices]
    returns, the registry holds the same ids afterwards, and every
    record has the id, name, executable path, arguments, working
    directory, autostart flag and creation time it had. When it returns a
    list, the list holds the records of the registry as they are after
    the refresh, and the last thing done is the start of the task that
    saves the registry; when it returns an error, the manager is as
    before. *)
Theorem X23_GetServices_keeps_identity {OS : Type} `{WinAPI OS}
    (w : World OS) :
  let r := GetServices w in
  (forall id, identity <$> services (wsm r.2) !! id
              = identity <$> services (wsm w) !! id)
  /\ match r.1 with
     | Ok l =>
         l = (map_to_list (services (wsm r.2))).*2
         /\ exists tr, issued w r.2 = tr ++ [EvGo TaskSaveServices]
     | Err _ => wsm r.2 = wsm w
     end.
Proof.
  intros r. subst r.
  destruct (GetServices w) as [x w'] eqn:Hrun. cbn [fst snd].
  apply GetServices_inv in Hrun
    as [[[e ->] Hw']|(w1 & tr & Hw1 & Hw' & -> & Htr)].
  - split; [by rewrite Hw'|done].
  - split.
    + intros id. rewrite Hw', refreshServices_identity. by rewrite Hw1.
    + split; [done|]. exists tr. by apply issued_app.
Qed.

(** ** A fresh cache entry stands in for the system *)

(** X24: while the cache holds an entry for a service that is not older
    than the time-to-live, the status query returns the status and pid of
    the entry; it reads the clock and asks nothing of the system, and the
    manager is as before. A refresh then writes the cached status and pid
    into the record, whatever the service does meanwhile. *)
Theorem X24_fresh_entry_answers {OS : Type} `{WinAPI OS}
    (serviceName : string) (w : World OS) (e : CachedServiceStatus) :
  cache (statusCache (wsm w)) !! serviceName = Some e ->
  Time_Sub (time_Now (os w)).1 (cTimestamp e) <= ttl (statusCache (wsm w)) ->
  getServiceRealTimeStatus serviceName w
  = ((cStatus e, cPID e), mkWorld (time_Now (os w)).2 (wsm w) (trace w))
  /\ issued w (refreshService serviceName w).2 = []
  /\ (forall rec,
        services (wsm w) !! serviceName = Some rec ->
        exists t,
          services (wsm (refreshService serviceName w).2) !! serviceName
          = Some (set_UpdatedAt t
                    (set_PID (cPID e) (set_Status (cStatus e) rec)))).
Proof.
  intros He Hfresh.
  assert (Hq : getServiceRealTimeStatus serviceName w
               = ((cStatus e, cPID e),
                  mkWorld (time_Now (os w)).2 (wsm w) (trace w))).
  { unfold getServiceRealTimeStatus, statusCache_Get, bind, getManager, Now,
      ret, Cache_Get.
    rewrite He. destruct (time_Now (os w)) as [t o]. cbn [fst snd] in *.
    rewrite ?He. by destruct (Z.gtb_spec (Time_Sub t (cTimestamp e))
                               (ttl (statusCache (wsm w)))); [lia|]. }
  split; [done|]. split.
  - unfold refreshService, bind, updateService, modifyManager, Now.
    rewrite Hq. cbn [fst snd os wsm trace].
    destruct (time_Now (time_Now (os w)).2) as [t o]. cbn.
    apply issued_app. by rewrite app_nil_r.
  - intros rec Hrec. destruct (refreshService_services serviceName w) as [t Ht].
    exists t. rewrite Ht, Hq. cbn [fst snd wsm].
    by rewrite lookup_alter_eq, Hrec.
Qed.

(** An entry put into the cache three seconds before the query. *)
Lemma X24_fresh_entry_answers_witness :
  let w := mkWorld (demoFake [] (fun _ => false))
             (set_statusCache
                (Cache_Set 1700000097000000000 "WSM_demo_1700000000"
                   "running" 4242 NewServiceStatusCache) demoManager) [] in
  (getServiceRealTimeStatus "WSM_demo_1700000000" w).1 = ("running", 4242).
Proof.
  intros w.
  refine (f_equal fst (proj1
    (X24_fresh_entry_answers "WSM_demo_1700000000" w
       (mkCached "running" 4242 1700000097000000000) _ _))).
  - vm_compute. reflexivity.
  - vm_compute. discriminate.
Defined.

(** ** The autostart flag *)

Section AutoStart.

Context {OS : Type} `{WinAPI OS} `{!WinAPIConfig OS}.

(** Every way [SetServiceAutoStart] can end. *)
Lemma SetServiceAutoStart_inv (serviceID : string) (enabled : bool)
    (w w' : World OS) (r : error) :
  SetServiceAutoStart serviceID enabled w = (r, w') ->
  match r with
  | Some _ => wsm w' = wsm w
  | None =>
      exists rec t,
        services (wsm w) !! serviceID = Some rec
        /\ wsm w'
           = set_services
               (<[serviceID := set_UpdatedAt t (set_AutoStart enabled rec)]>
                  (services (wsm w)))
               (wsm w)
  end.
Proof.
  unfold SetServiceAutoStart, withSCM, bind, call_, call, ask, getManager,
    ret.
  destruct (services (wsm w) !! serviceID) as [rec|] eqn:Hrec.
  2:{ by intros [= <- <-]. }
  destruct (mgr_Connect (os w)) as [[e|] o1]; cbn [os wsm trace].
  { by intros [= <- <-]. }
  destruct (mgr_OpenService serviceID o1) as [[e|] o2]; cbn [os wsm trace].
  { by intros [= <- <-]. }
  destruct (Service_Config serviceID o2) as [[c|e] o3]; cbn [os wsm trace].
  2:{ by intros [= <- <-]. }
  destruct (Service_UpdateConfig serviceID _ o3) as [[e|] o4];
    cbn [os wsm trace].
  { by intros [= <- <-]. }
  unfold updateService, modifyManager, saveServices, bind, getManager, call_,
    call, Now, ret.
  cbn [os wsm trace]. destruct (time_Now o4) as [t o5].
  cbn [os wsm trace fst snd].
  intros [= <- <-]. exists rec, t. split; [done|].
  cbn [wsm services set_services].
  rewrite !alter_alter_eq, (alter_alt_Some _ _ _ _ Hrec).
  by destruct (wsm w).
Qed.

End AutoStart.

(** X25: setting and reading the autostart flag. When
    [SetServiceAutoStart] returns an error, the manager is as before, so
    [GetServiceAutoStart] answers as before; when it succeeds, the one
    change to the manager is the autostart flag and the [UpdatedAt] of
    the record, [GetServiceAutoStart] answers the value set for the
    service and as before for every other id. *)
Theorem X25_autostart_set_get {OS : Type} `{WinAPI OS} `{!WinAPIConfig OS}
    (serviceID : string) (enabled : bool) (w : World OS) :
  let r := SetServiceAutoStart serviceID enabled w in
  match r.1 with
  | Some _ => wsm r.2 = wsm w
  | None =>
      GetServiceAutoStart serviceID (wsm r.2) = enabled
      /\ (forall id, id <> serviceID ->
                     GetServiceAutoStart id (wsm r.2)
                     = GetServiceAutoStart id (wsm w))
      /\ exists rec t,
           services (wsm w) !! serviceID = Some rec
           /\ wsm r.2
              = set_services
                  (<[serviceID := set_UpdatedAt t (set_AutoStart enabled rec)]>
                     (services (wsm w)))
                  (wsm w)
  end.
Proof.
  intros r. subst r.
  destruct (SetServiceAutoStart serviceID enabled w) as [[e|] w'] eqn:Hrun;
    apply SetServiceAutoStart_inv in Hrun; cbn [fst snd]; [done|].
  destruct Hrun as (rec & t & Hrec & Hw').
  split; [|split; [|by exists rec, t]].
  - unfold GetServiceAutoStart. rewrite Hw'. cbn [services set_services].
    by rewrite lookup_insert_eq.
  - intros id Hne. unfold GetServiceAutoStart. rewrite Hw'.
    cbn [services set_services]. by rewrite lookup_insert_ne.
Qed.

(** ** Registry writes *)

Section RegistryWrites.

Context {OS : Type} `{WinAPI OS}.



End RegistryWrites.


Section WrapperConfig.

Context {OS : Type} `{WinAPI OS}.



End WrapperConfig.



(** ** The wrapper configuration, written and read *)

Section WrapperPath.

Context {OS : Type} `{WinAPI OS}.


End WrapperPath.


(** X29: [LoadServiceConfigFromRegistry] reads the [Parameters] key of
    the service, the key the manager writes the wrapper configuration
    to. Only the executable path is required: when the key cannot be
    opened, or the value [ExePath] cannot be read, it returns the error
    of that step; otherwise it returns a configuration with the
    executable path read, with the arguments and the working directory
    read or the empty string for a value that cannot be read, and with
    the display name read or the service name. A key that was opened is
    closed on every path. *)
Theorem X29_load_wrapper_config {OS : Type} `{WinAPI OS} `{!RegistryRead OS}
    (serviceName : string) (w : World OS) :
  let key := parametersKey serviceName in
  let run := LoadServiceConfigFromRegistry serviceName w in
  key = servicesKey serviceName +:+ "\Parameters"
  /\ (forall err o1,
        registry_OpenKeyRead key (os w) = (Some err, o1) ->
        run = (Err (Errorf "打开服务配置注册表失败: " err),
               mkWorld o1 (wsm w) (trace w ++ [EvRegOpenKey key])))
  /\ (forall o1 err o2,
        registry_OpenKeyRead key (os w) = (None, o1) ->
        Key_GetStringValue key "ExePath" o1 = (Err err, o2) ->
        run = (Err (Errorf "读取ExePath失败: " err),
               mkWorld (Key_Close key o2) (wsm w)
                 (trace w ++ [EvRegOpenKey key; EvRegClose key])))
  /\ (forall o1 exePath o2 a o3 d o4 n o5,
        registry_OpenKeyRead key (os w) = (None, o1) ->
        Key_GetStringValue key "ExePath" o1 = (Ok exePath, o2) ->
        Key_GetStringValue key "Args" o2 = (a, o3) ->
        Key_GetStringValue key "WorkingDir" o3 = (d, o4) ->
        Key_GetStringValue key "DisplayName" o4 = (n, o5) ->
        run = (Ok (mkServiceConfig (orDefault serviceName n) exePath
                     (orDefault EmptyString a) (orDefault EmptyString d)),
               mkWorld (Key_Close key o5) (wsm w)
                 (trace w ++ [EvRegOpenKey key; EvRegClose key]))).
Proof.
  intros key run. subst run.
  unfold LoadServiceConfigFromRegistry. fold key.
  split.
  { subst key. unfold parametersKey, servicesKey. reflexivity. }
  split; [|split].
  - intros err o1 Hopen. unfold bind, call. by rewrite Hopen.
  - intros o1 err o2 Hopen Hexe.
    unfold bind, call_, call, ask, ret. rewrite Hopen. cbn [os wsm trace].
    rewrite Hexe. cbn [os wsm trace]. by rewrite <- app_assoc.
  - intros o1 exePath o2 a o3 d o4 n o5 Hopen Hexe Hargs Hdir Hname.
    unfold bind, call_, call, ask, ret. rewrite Hopen. cbn [os wsm trace].
    rewrite Hexe. cbn [os wsm trace]. rewrite Hargs. cbn [os wsm trace].
    rewrite Hdir. cbn [os wsm trace]. rewrite Hname. cbn [os wsm trace].
    by rewrite <- app_assoc.
Qed.

(** A registry that holds the executable path of the demo target only:
    no arguments, no working directory, the service name as name. *)
Lemma X29_load_wrapper_config_witness :
  (LoadServiceConfigFromRegistry "WSM_demo_1700000100"
     (demoWorld [] (fun _ => false))).1
  = Ok (mkServiceConfig "WSM_demo_1700000100" "C:\apps\demo.exe"
          EmptyString EmptyString).
Proof.
  pose (w := demoWorld [] (fun _ => false)).
  pose (e := Err "The system cannot find the file specified."
             : result string).
  refine (f_equal fst
    (proj2 (proj2 (proj2
       (X29_load_wrapper_config "WSM_demo_1700000100" w)))
       (os w) "C:\apps\demo.exe" (os w) e (os w) e (os w) e (os w)
       _ _ _ _ _));
    vm_compute; reflexivity.
Defined.
